(** * Wazuh server supervisor ([framework/scripts/wazuh_server.py])

    A shallow embedding of the supervisor script: every function of the
    script becomes a program in a small monad that reads the history of the
    interactions performed so far, may raise a Python exception, and emits
    the interactions it performs.  Collaborators that live outside the
    script (the operating system, [pyDaemonModule], the configuration
    client, the cluster classes) are an environment [Env] of oracles that
    answer as a function of the history, so every theorem quantified over
    [Env] holds for every behaviour of those collaborators.

    What the environment cannot do: [subprocess.Popen] fails with an
    [OSError] only; synchronous collaborator calls whose result the script
    ignores or only tests ([clean_up], [create_pid], [keypair_exists],
    [generate_keypair], the loggers, the constructors of the cluster
    classes, [time.sleep]) return; signals are seen where the script
    awaits ([asyncio.gather] and [asyncio.sleep], which may raise), not in
    the middle of synchronous code.  Loops take fuel, and a loop that runs
    out of it, like an await that never finishes, gives the outcome
    [Diverge]. *)

From Stdlib Require Import ZArith List String Bool Lia DecimalString.
Import ListNotations.
Local Open Scope string_scope.
Local Open Scope list_scope.

(** ** Python exceptions *)

Inductive exn : Type :=
| KeyboardInterrupt
| SystemExit (code : Z)
| CancelledError
| MemoryError
| StopIteration
| KeyError (key : string)
| UnboundLocalError (var : string)
| OSError (msg : string)
| FileNotFoundError (msg : string)
| PermissionError (msg : string)
| ProcessLookupError (msg : string)
| TimeoutExpired
| WazuhDaemonError (msg : string)
| PyException (msg : string).

(** [isinstance(e, Exception)]: [KeyboardInterrupt], [SystemExit] and
    [asyncio.CancelledError] derive from [BaseException] only. *)
Definition is_Exception (e : exn) : bool :=
  match e with
  | KeyboardInterrupt | SystemExit _ | CancelledError => false
  | _ => true
  end.

Definition string_of_Z (z : Z) : string := NilZero.string_of_int (Z.to_int z).

(** [str(e)], as interpolated by the f-strings of the script. *)
Definition exn_str (e : exn) : string :=
  match e with
  | KeyboardInterrupt | CancelledError | MemoryError | StopIteration => ""
  | SystemExit code => string_of_Z code
  | KeyError key => key
  | UnboundLocalError var =>
      ("cannot access local variable '" ++ var ++ "' where it is not associated with a value")%string
  | OSError msg | FileNotFoundError msg | PermissionError msg
  | ProcessLookupError msg | WazuhDaemonError msg | PyException msg => msg
  | TimeoutExpired => "timed out"
  end.

(** ** Answers of the collaborators *)

(** [subprocess.Popen(args)]: the spawn raises an [OSError], or gives a
    process with a pid. *)
Inductive popen_outcome := SpawnError (msg : string) | Spawned (pid : Z).

(** [p.wait(timeout=2)]: the process exits with a return code inside the
    window, or the window elapses ([subprocess.TimeoutExpired]). *)
Inductive wait_outcome := Exits (returncode : Z) | StillRunning.

(** [os.kill(pid, SIGTERM)]: delivered, or refused by the system because
    the pid no longer exists or belongs to somebody else. *)
Inductive kill_outcome := Delivered | NoSuchProcess | NotPermitted.

(** [await asyncio.gather] over the two tasks: both tasks finish, the await raises,
    or the tasks keep running. *)
Inductive gather_outcome := GatherDone | GatherRaises (e : exn) | GatherPending.

Inductive NodeType := MASTER | WORKER.

Record ServerConfig := {
  node_type : NodeType;
  connection_retry : Z;
  logging_level_value : Z
}.

Inductive logger := main_logger | root_logger.
Inductive level := INFO | WARNING | ERROR.

(** ** Interactions *)

(** One event per call that leaves the script, with the answer it got.
    [EvCall] is the one exception: it marks the entry of a function of the
    script itself ([start_daemon], [start_daemons], [shutdown_daemon],
    [shutdown_server]) with its first argument, so that a trace shows which
    functions ran and in which order.  [EvExt] stands for the calls whose
    result the script does not use. *)
Inductive event : Type :=
| EvCall (fn arg : string)
| EvLog (lg : logger) (lvl : level) (msg : string)
| EvPrint (msg : string)
| EvPopen (args : list string) (res : popen_outcome)
| EvWait (pid timeout : Z) (res : wait_outcome)
| EvCreatePid (name : string) (pid : Z)
| EvDeletePid (name : string) (pid : Z)
| EvDeleteChildPids (name : string) (pid : Z)
| EvGetParentPid (name : string) (res : option Z)
| EvKill (pid : Z) (res : kill_outcome)
| EvCheckDaemons (daemons : list string) (res : bool)
| EvRunningProcesses (res : list string)
| EvServerPid (res : exn + Z)
| EvGetServerConfig (res : exn + ServerConfig)
| EvTimeSleep (secs : Z)
| EvAsyncSleep (secs : Z) (res : option exn)
| EvPing (path : string) (res : bool)
| EvProcessPool (res : option exn)
| EvNewNode (cls : string) (task_pool : bool)
| EvNewLocalServer (cls : string)
| EvSpawnPool
| EvGather (res : gather_outcome)
| EvExt (what : string).

Definition history := list event.

(** ** The environment *)

Record Env := {
  (* wazuh.core.common *)
  WAZUH_SHARE : string;
  CONFIG_SERVER_SOCKET_PATH : string;
  WAZUH_RUN : string;
  (* operating system *)
  os_popen : history -> list string -> popen_outcome;
  os_wait : history -> Z -> wait_outcome;
  os_kill_answer : history -> Z -> kill_outcome;
  os_getpid : Z;
  (* pyDaemonModule *)
  parent_pid : history -> string -> option Z;
  running_processes : history -> list string;
  wazuh_server_pid : history -> exn + Z;
  (* configuration client, readiness channel, key pair *)
  server_config_answer : history -> exn + ServerConfig;
  socket_answers : history -> string -> bool;
  keypair_present : history -> bool;
  (* cluster classes and the event loop *)
  process_pool_answer : history -> option exn;
  node_has_task_pool : history -> bool;
  gather_answer : history -> gather_outcome;
  async_sleep_answer : history -> option exn
}.

(** ** The monad *)

Inductive outcome (A : Type) : Type :=
| Ret (a : A)
| Raise (e : exn)
| Diverge.
Arguments Ret {A} a.
Arguments Raise {A} e.
Arguments Diverge {A}.

(** A program reads the history so far and gives its outcome together with
    the interactions it performed, oldest first.  [Diverge] is a loop that
    did not finish within the fuel it was given. *)
Definition M (A : Type) : Type := history -> outcome A * list event.

Definition ret {A} (a : A) : M A := fun _ => (Ret a, []).
Definition raise {A} (e : exn) : M A := fun _ => (Raise e, []).
Definition diverge {A} : M A := fun _ => (Diverge, []).
Definition emit (ev : event) : M unit := fun _ => (Ret tt, [ev]).

Definition bind {A B} (m : M A) (k : A -> M B) : M B :=
  fun h =>
    let (r, evs) := m h in
    match r with
    | Ret a => let (r', evs') := k a (h ++ evs) in (r', evs ++ evs')
    | Raise e => (Raise e, evs)
    | Diverge => (Diverge, evs)
    end.

Notation "x <- c1 ;; c2" := (bind c1 (fun x => c2))
  (at level 61, c1 at next level, right associativity).
Notation "c1 ;; c2" := (bind c1 (fun _ => c2))
  (at level 61, right associativity).

(** Asking a collaborator: the answer is computed from the history and
    recorded in the interaction. *)
Definition ask {R} (answer : history -> R) (record : R -> event) : M R :=
  fun h => let r := answer h in (Ret r, [record r]).

(** [try: m  except ...], the exception reified so that the handler can be
    given the local variables bound when it was raised. *)
Definition attempt {A} (m : M A) : M (exn + A) :=
  fun h =>
    let (r, evs) := m h in
    match r with
    | Ret a => (Ret (inr a), evs)
    | Raise e => (Ret (inl e), evs)
    | Diverge => (Diverge, evs)
    end.

(** [try: m  except <clauses>]: [handler e] is the body of the first
    clause matching [e], if any.  An exception raised by the handler is not
    handled again. *)
Definition try_except {A} (m : M A) (handler : exn -> option (M A)) : M A :=
  r <- attempt m;;
  match r with
  | inr a => ret a
  | inl e => match handler e with
             | Some k => k
             | None => raise e
             end
  end.

(** [try: m  finally: fin]. *)
Definition try_finally {A} (m : M A) (fin : M unit) : M A :=
  r <- attempt m;;
  fin;;
  match r with
  | inr a => ret a
  | inl e => raise e
  end.

(** [for x in xs: body x]. *)
Fixpoint for_each {A} (xs : list A) (body : A -> M unit) : M unit :=
  match xs with
  | [] => ret tt
  | x :: xs' => body x;; for_each xs' body
  end.

(** [while cond: body], with fuel bounding the number of tests. *)
Fixpoint while (fuel : nat) (cond : M bool) (body : M unit) : M unit :=
  match fuel with
  | O => diverge
  | S fuel' =>
      b <- cond;;
      if b then body;; while fuel' cond body else ret tt
  end.

(** ** Module constants *)

Definition SERVER_DAEMON_NAME := "wazuh-server".
Definition COMMS_API_DAEMON_NAME := "wazuh-comms-apid".
Definition ENGINE_DAEMON_NAME := "wazuh-engined".
Definition MANAGEMENT_API_DAEMON_NAME := "wazuh-apid".

Section Script.

Variable E : Env.

Definition COMMS_API_SCRIPT_PATH := (WAZUH_SHARE E ++ "/apis/scripts/wazuh_comms_apid.py")%string.
Definition EMBEDDED_PYTHON_PATH := (WAZUH_SHARE E ++ "/framework/python/bin/python3")%string.
Definition ENGINE_BINARY_PATH := (WAZUH_SHARE E ++ "/bin/wazuh-engine")%string.
Definition MANAGEMENT_API_SCRIPT_PATH := (WAZUH_SHARE E ++ "/api/scripts/wazuh_apid.py")%string.

(** ** Collaborator calls *)

Definition log (lg : logger) (lvl : level) (msg : string) : M unit :=
  emit (EvLog lg lvl msg).
Definition info := log main_logger INFO.
Definition warning := log main_logger WARNING.
Definition error := log main_logger ERROR.
Definition print (msg : string) : M unit := emit (EvPrint msg).
Definition sys_exit {A} (code : Z) : M A := raise (SystemExit code).

Definition Popen (args : list string) : M Z :=
  r <- ask (fun h => os_popen E h args) (EvPopen args);;
  match r with
  | SpawnError msg => raise (OSError msg)
  | Spawned pid => ret pid
  end.

Definition p_wait (pid timeout : Z) : M Z :=
  r <- ask (fun h => os_wait E h pid) (EvWait pid timeout);;
  match r with
  | Exits returncode => ret returncode
  | StillRunning => raise TimeoutExpired
  end.

Definition os_kill (pid : Z) : M unit :=
  r <- ask (fun h => os_kill_answer E h pid) (EvKill pid);;
  match r with
  | Delivered => ret tt
  | NoSuchProcess => raise (ProcessLookupError "[Errno 3] No such process")
  | NotPermitted => raise (PermissionError "[Errno 1] Operation not permitted")
  end.

Definition time_sleep (secs : Z) : M unit := emit (EvTimeSleep secs).
(** [await asyncio.sleep(secs)]: the sleep elapses, or the exception that
    reaches the task while it is suspended is raised there. *)
Definition asyncio_sleep (secs : Z) : M unit :=
  r <- ask (async_sleep_answer E) (EvAsyncSleep secs);;
  match r with
  | None => ret tt
  | Some e => raise e
  end.
Definition create_pid (name : string) (pid : Z) : M unit := emit (EvCreatePid name pid).
Definition delete_pid (name : string) (pid : Z) : M unit := emit (EvDeletePid name pid).
Definition delete_child_pids (name : string) (pid : Z) : M unit :=
  emit (EvDeleteChildPids name pid).
Definition get_parent_pid (name : string) : M (option Z) :=
  ask (fun h => parent_pid E h name) (EvGetParentPid name).
Definition get_running_processes : M (list string) :=
  ask (running_processes E) EvRunningProcesses.

(** Modelled from the spec: [pyDaemonModule.check_for_daemons_shutdown] is
    not part of the script; it answers whether any of the named daemons is
    still among the running processes. *)
Definition check_for_daemons_shutdown (daemons : list string) : M bool :=
  ask (fun h => existsb (fun d => existsb (String.eqb d) (running_processes E h)) daemons)
      (EvCheckDaemons daemons).

Definition get_wazuh_server_pid : M Z :=
  r <- ask (wazuh_server_pid E) EvServerPid;;
  match r with
  | inl e => raise e
  | inr pid => ret pid
  end.

Definition get_server_config : M ServerConfig :=
  r <- ask (server_config_answer E) EvGetServerConfig;;
  match r with
  | inl e => raise e
  | inr cfg => ret cfg
  end.

Definition ping_unix_socket (path : string) : M bool :=
  ask (fun h => socket_answers E h path) (EvPing path).

(** ** [start_daemon] *)

Definition start_daemon_except (name : string) (pid : option Z) (e : exn) : M unit :=
  match e with
  | TimeoutExpired =>
      (* The command was executed without errors *)
      match pid with
      | None => raise (UnboundLocalError "pid")
      | Some pid =>
          (if (name =? ENGINE_DAEMON_NAME)%string
           then create_pid ENGINE_DAEMON_NAME pid else ret tt);;
          info ("Started " ++ name ++ " (pid: " ++ string_of_Z pid ++ ")")%string
      end
  | _ =>
      if is_Exception e
      then raise (WazuhDaemonError ("Error starting " ++ name ++ ": " ++ exn_str e)%string)
      else raise e
  end.

Definition start_daemon (name : string) (args : list string) : M unit :=
  emit (EvCall "start_daemon" name);;
  info ("Starting " ++ name)%string;;
  spawned <- attempt (Popen args);;
  match spawned with
  | inl e => start_daemon_except name None e
  | inr pid =>
      waited <- attempt (returncode <- p_wait pid 2;;
                         if (returncode =? 0)%Z then ret tt
                         else raise (PyException ("return code " ++ string_of_Z returncode)%string));;
      match waited with
      | inl e => start_daemon_except name (Some pid) e
      | inr _ => ret tt
      end
  end.

(** ** [start_daemons] *)

Definition engine_log_level (debug_mode : Z) : M string :=
  match debug_mode with
  | 0%Z => ret "info"
  | 1%Z => ret "debug"
  | 2%Z => ret "trace"
  | _ => raise (KeyError (string_of_Z debug_mode))
  end.

Definition daemon_commands (lvl : string) (root : bool) : list (string * list string) :=
  [ (ENGINE_DAEMON_NAME, [ENGINE_BINARY_PATH; "server"; "-l"; lvl; "start"]);
    (COMMS_API_DAEMON_NAME,
      [EMBEDDED_PYTHON_PATH; COMMS_API_SCRIPT_PATH] ++ (if root then ["-r"] else []));
    (MANAGEMENT_API_DAEMON_NAME,
      [EMBEDDED_PYTHON_PATH; MANAGEMENT_API_SCRIPT_PATH] ++ (if root then ["-r"] else [])) ].

Definition start_daemons (debug_mode_ : Z) (root : bool) : M unit :=
  emit (EvCall "start_daemons" "");;
  lvl <- engine_log_level debug_mode_;;
  for_each (daemon_commands lvl root) (fun d => start_daemon (fst d) (snd d)).

(** ** [shutdown_daemon] and [shutdown_server] *)

Definition shutdown_daemon (name : string) : M unit :=
  emit (EvCall "shutdown_daemon" name);;
  ppid <- get_parent_pid name;;
  match ppid with
  | Some ppid =>
      info ("Shutting down " ++ name ++ " (pid: " ++ string_of_Z ppid ++ ")")%string;;
      os_kill ppid;;
      if (name =? ENGINE_DAEMON_NAME)%string then delete_pid name ppid else ret tt
  | None => ret tt
  end.

Definition shutdown_order : list string :=
  [ENGINE_DAEMON_NAME; MANAGEMENT_API_DAEMON_NAME; COMMS_API_DAEMON_NAME].

Definition shutdown_server (fuel : nat) (server_pid : Z) : M unit :=
  emit (EvCall "shutdown_server" (string_of_Z server_pid));;
  let daemons := shutdown_order in
  for_each daemons shutdown_daemon;;
  info "Waiting for daemons shutdown.";;
  while fuel (check_for_daemons_shutdown daemons) (time_sleep 1);;
  (* Terminate the cluster *)
  delete_child_pids SERVER_DAEMON_NAME server_pid;;
  delete_pid SERVER_DAEMON_NAME server_pid.

(** ** The two roles *)

Definition not_available : string := "Configuration server is not available, retrying...".

(** The readiness loop that opens both [master_main] and [worker_main]:
    [while not ping_unix_socket(CONFIG_SERVER_SOCKET_PATH): ...]. *)
Definition wait_for_config_server (fuel : nat) : M unit :=
  while fuel
    (up <- ping_unix_socket (CONFIG_SERVER_SOCKET_PATH E);; ret (negb up))
    (info not_available;;
     time_sleep 1).

Definition gather : M unit :=
  r <- ask (gather_answer E) EvGather;;
  match r with
  | GatherDone => ret tt
  | GatherRaises e => raise e
  | GatherPending => diverge
  end.

Definition master_main (fuel : nat) (debug_mode_ : Z) (root : bool) : M unit :=
  emit (EvExt "context_tag.set('Master')");;
  emit (EvExt "start_unix_server('Master')");;
  wait_for_config_server fuel;;
  has_pool <- ask (node_has_task_pool E) (EvNewNode "Master");;
  (* Spawn pool processes *)
  (if has_pool then emit EvSpawnPool else ret tt);;
  emit (EvNewLocalServer "LocalServerMaster");;
  (* initialize server *)
  emit (EvExt "my_server.start()");;
  emit (EvExt "my_local_server.start()");;
  (* Initialize daemons *)
  start_daemons debug_mode_ root;;
  gather.

Definition ProcessPoolExecutor : M unit :=
  r <- ask (process_pool_answer E) EvProcessPool;;
  match r with
  | None => ret tt
  | Some e => raise e
  end.

(** [except asyncio.CancelledError:] of the retry loop. *)
Definition worker_except (retry : Z) (e : exn) : M unit :=
  match e with
  | CancelledError =>
      log root_logger INFO "Connection with server has been lost. Reconnecting in 10 seconds.";;
      asyncio_sleep retry
  | _ => raise e
  end.

(** [while True:] of [worker_main]; [daemons_initialized] is the local
    variable of that name, with the value it has when an iteration begins.
    The [try] body is cut where the variable is assigned, so that the
    handler continues with the value bound when the exception was raised. *)
Fixpoint worker_loop (fuel : nat) (debug_mode_ : Z) (root : bool) (retry : Z)
    (task_pool daemons_initialized : bool) : M unit :=
  match fuel with
  | O => diverge
  | S fuel' =>
      emit (EvNewNode "Worker" task_pool);;
      emit (EvNewLocalServer "LocalServerWorker");;
      (* Spawn pool processes *)
      (if task_pool then emit EvSpawnPool else ret tt);;
      launched <- attempt (emit (EvExt "my_client.start()");;
                           emit (EvExt "my_local_server.start()");;
                           (* Initialize the daemons one time *)
                           if negb daemons_initialized
                           then start_daemons debug_mode_ root
                           else ret tt);;
      match launched with
      | inl e =>
          worker_except retry e;;
          worker_loop fuel' debug_mode_ root retry task_pool daemons_initialized
      | inr _ =>
          awaited <- attempt gather;;
          match awaited with
          | inl e =>
              worker_except retry e;;
              worker_loop fuel' debug_mode_ root retry task_pool true
          | inr _ => worker_loop fuel' debug_mode_ root retry task_pool true
          end
      end
  end.

Definition dev_shm_warning : string :=
  "In order to take advantage of Wazuh 4.3.0 cluster improvements, the directory '/dev/shm' must be accessible by the 'wazuh' user. Check that this file has permissions to be accessed by all users. Changing the file permissions to 777 will solve this issue.".

Definition no_improvements_warning : string :=
  "The Wazuh cluster will be run without the improvements added in Wazuh 4.3.0 and higher versions.".

Definition worker_main (fuel : nat) (debug_mode_ : Z) (root : bool) (retry : Z) : M unit :=
  emit (EvExt "context_tag.set('Worker')");;
  emit (EvExt "start_unix_server('Worker')");;
  wait_for_config_server fuel;;
  (* Pool is defined here so the child process is not recreated when the
     connection with master node is broken. *)
  task_pool <- try_except (ProcessPoolExecutor;; ret true)
                 (fun e => match e with
                           | FileNotFoundError _ | PermissionError _ =>
                               Some (warning dev_shm_warning;;
                                     warning no_improvements_warning;;
                                     ret false)
                           | _ => None
                           end);;
  worker_loop fuel debug_mode_ root retry task_pool false.

(** ** [start], [stop], [status] *)

(** The [except] clauses of the run phase of [start], in source order. *)
Definition start_except (e : exn) : option (M unit) :=
  match e with
  | KeyboardInterrupt => Some (info "SIGINT received. Shutting down...")
  | MemoryError =>
      Some (error "Directory '/tmp' needs read, write & execution permission for 'wazuh' user")
  | WazuhDaemonError _ => Some (error (exn_str e))
  | _ =>
      if is_Exception e
      then Some (error ("Unhandled exception: " ++ exn_str e)%string)
      else None
  end.

Definition start (fuel : nat) (debug_mode_ : Z) (root : bool) : M unit :=
  try_except
    (server_pid <- get_wazuh_server_pid;;
     if (server_pid =? 0)%Z then ret tt
     else
       print ("The server is already running on process " ++ string_of_Z server_pid)%string;;
       sys_exit 1)
    (fun e => match e with StopIteration => Some (ret tt) | _ => None end);;
  server_config <- try_except get_server_config
                     (fun e => if is_Exception e
                               then Some (error (exn_str e);; sys_exit 1)
                               else None);;
  (* Clean cluster files from previous executions *)
  emit (EvExt "clean_up()");;
  emit (EvExt "create_wazuh_dir(WAZUH_RUN)");;
  (* Check for unused PID files *)
  emit (EvExt "clean_pid_files('wazuh-server')");;
  (* Drop privileges to wazuh *)
  (if negb root
   then emit (EvExt "os.setgid(wazuh_gid())");; emit (EvExt "os.setuid(wazuh_uid())")
   else ret tt);;
  let server_pid := os_getpid E in
  create_pid SERVER_DAEMON_NAME server_pid;;
  info ("Starting server (pid: " ++ string_of_Z server_pid ++ ")")%string;;
  (match node_type server_config with
   | MASTER =>
       (* Generate JWT signing key pair if it doesn't exist *)
       present <- ask (keypair_present E) (fun b => EvExt "keypair_exists()");;
       if negb present
       then info "Generating JWT signing key pair";; emit (EvExt "generate_keypair()")
       else ret tt
   | WORKER => ret tt
   end);;
  let main_function :=
    match node_type server_config with
    | MASTER => master_main fuel debug_mode_ root
    | WORKER => worker_main fuel debug_mode_ root (connection_retry server_config)
    end in
  try_finally
    (try_except
       (emit (EvExt "asyncio.new_event_loop()");;
        emit (EvExt "loop.create_task(get_orders(main_logger))");;
        main_function)
       start_except)
    (shutdown_server fuel server_pid).

Definition stop (fuel : nat) : M unit :=
  server_pid <- try_except get_wazuh_server_pid
                  (fun e => match e with
                            | StopIteration =>
                                Some (warning "Wazuh server is not running.";; sys_exit 0)
                            | _ => None
                            end);;
  shutdown_server fuel server_pid;;
  os_kill server_pid.

Definition status : M unit :=
  let daemons := [SERVER_DAEMON_NAME; COMMS_API_DAEMON_NAME;
                  MANAGEMENT_API_DAEMON_NAME; ENGINE_DAEMON_NAME] in
  running <- get_running_processes;;
  for_each daemons
    (fun daemon =>
       let status := if existsb (String.eqb daemon) running
                     then "running" else "not running" in
       print (daemon ++ " is " ++ status ++ "...")%string).

(** ** The script body *)

Inductive command := Start | Stop | Status.

Record Args := {
  version : bool;
  func : option command;
  root : bool
}.

Definition script (fuel : nat) (args : Args) : M unit :=
  if version args then emit (EvExt "print_version()");; sys_exit 0
  else
    (* Set logger *)
    debug_mode_ <- try_except (cfg <- get_server_config;; ret (logging_level_value cfg))
                     (fun e => if is_Exception e then Some (ret 0%Z) else None);;
    emit (EvExt "set_logging(debug_mode_)");;
    match func args with
    | Some Start => start fuel debug_mode_ (root args)
    | Some Stop => stop fuel
    | Some Status => status
    | None => emit (EvExt "parser.print_help()")
    end.

End Script.

(** How the interpreter ends the process: the argument of [sys.exit], 0 when
    the script runs to its end, 1 after the traceback of any other
    exception; an escaping [KeyboardInterrupt] ends it by the interrupt
    signal instead of an exit code. *)
Inductive termination := Exited (code : Z) | Interrupted | StillExecuting.

Definition exit_status (r : outcome unit) : termination :=
  match r with
  | Ret _ => Exited 0
  | Raise (SystemExit code) => Exited code
  | Raise KeyboardInterrupt => Interrupted
  | Raise _ => Exited 1
  | Diverge => StillExecuting
  end.

(** Running a program from an empty history. *)
Definition run {A} (m : M A) : outcome A * list event := m [].

(** * Reading traces *)

Definition count_events (p : event -> bool) (h : history) : nat :=
  List.length (filter p h).

(** No event of the trace is of the kind [p]. *)
Definition none (p : event -> bool) (evs : list event) : bool :=
  forallb (fun ev => negb (p ev)) evs.

Definition is_popen (ev : event) : bool :=
  match ev with EvPopen _ _ => true | _ => false end.
Definition is_gather (ev : event) : bool :=
  match ev with EvGather _ => true | _ => false end.
Definition is_time_sleep (ev : event) : bool :=
  match ev with EvTimeSleep _ => true | _ => false end.
Definition is_async_sleep (ev : event) : bool :=
  match ev with EvAsyncSleep _ _ => true | _ => false end.
Definition is_ping (ev : event) : bool :=
  match ev with EvPing _ _ => true | _ => false end.
(** The construction of a node object opens an attempt of the role. *)
Definition is_attempt (ev : event) : bool :=
  match ev with EvNewNode _ _ => true | _ => false end.
Definition is_call (fn : string) (ev : event) : bool :=
  match ev with EvCall f _ => (f =? fn)%string | _ => false end.

(** The events [start_daemon] can emit. *)
Definition launch_event (ev : event) : bool :=
  match ev with
  | EvCall fn _ => (fn =? "start_daemon")%string
  | EvLog main_logger INFO _ | EvPopen _ _ | EvWait _ _ _ | EvCreatePid _ _ => true
  | _ => false
  end.

(** The arguments of the calls of [fn] recorded in a trace, in order. *)
Definition calls (fn : string) (evs : list event) : list string :=
  flat_map (fun ev => match ev with
                      | EvCall f arg => if (f =? fn)%string then [arg] else []
                      | _ => []
                      end) evs.

(** The daemons handed to [start_daemon], in launch order. *)
Definition launched : list event -> list string := calls "start_daemon".

(** A launch that the launcher classifies as failed: the spawn raised, or
    the process exited inside the window with a non-zero status. *)
Definition failed_launch (ev : event) : bool :=
  match ev with
  | EvPopen _ (SpawnError _) => true
  | EvWait _ _ (Exits returncode) => negb (returncode =? 0)%Z
  | _ => false
  end.


Definition launch_prefix (name : string) : list event :=
  [EvCall "start_daemon" name; EvLog main_logger INFO ("Starting " ++ name)%string].

Definition record_if_engine (name : string) (pid : Z) : list event :=
  if (name =? ENGINE_DAEMON_NAME)%string then [EvCreatePid ENGINE_DAEMON_NAME pid] else [].

Definition started_line (name : string) (pid : Z) : event :=
  EvLog main_logger INFO ("Started " ++ name ++ " (pid: " ++ string_of_Z pid ++ ")")%string.

Definition start_error (name reason : string) : exn :=
  WazuhDaemonError ("Error starting " ++ name ++ ": " ++ reason)%string.

(** The four ways one [start_daemon] can go. *)
Inductive launch_run (name : string) (args : list string) :
    outcome unit -> list event -> Prop :=
| launch_spawn_error msg :
    launch_run name args (Raise (start_error name msg))
      (launch_prefix name ++ [EvPopen args (SpawnError msg)])
| launch_exit_zero pid :
    launch_run name args (Ret tt)
      (launch_prefix name ++ [EvPopen args (Spawned pid); EvWait pid 2 (Exits 0)])
| launch_exit_nonzero pid rc :
    rc <> 0%Z ->
    launch_run name args
      (Raise (start_error name ("return code " ++ string_of_Z rc)%string))
      (launch_prefix name ++ [EvPopen args (Spawned pid); EvWait pid 2 (Exits rc)])
| launch_started pid :
    launch_run name args (Ret tt)
      (launch_prefix name ++ [EvPopen args (Spawned pid); EvWait pid 2 StillRunning]
         ++ record_if_engine name pid ++ [started_line name pid]).

(** A [for] loop whose body goes as [one] says: it goes on after a step
    that returned and ends with the first one that did not. *)
Inductive each_run {X} (one : X -> outcome unit -> list event -> Prop) :
    list X -> outcome unit -> list event -> Prop :=
| each_done : each_run one [] (Ret tt) []
| each_raise x xs e evs :
    one x (Raise e) evs -> each_run one (x :: xs) (Raise e) evs
| each_diverge x xs evs :
    one x Diverge evs -> each_run one (x :: xs) Diverge evs
| each_next x xs evs r evs' :
    one x (Ret tt) evs ->
    each_run one xs r evs' ->
    each_run one (x :: xs) r (evs ++ evs').

Definition launch_seq : list (string * list string) -> outcome unit -> list event -> Prop :=
  each_run (fun d => launch_run (fst d) (snd d)).

(** The ways [start_daemons] can go: the debug mode is no key of the
    log-level table, or the three commands are launched in turn. *)
Inductive daemons_run (E : Env) (root : bool) : outcome unit -> list event -> Prop :=
| daemons_key_error key :
    daemons_run E root (Raise (KeyError key)) [EvCall "start_daemons" ""]
| daemons_launches lvl r evs :
    launch_seq (daemon_commands E lvl root) r evs ->
    daemons_run E root r (EvCall "start_daemons" "" :: evs).

(** The lifecycle lookups and the termination signals of a trace. *)
Definition lookups (evs : list event) : list (string * option Z) :=
  flat_map (fun ev => match ev with EvGetParentPid name res => [(name, res)] | _ => [] end) evs.

Definition signals (evs : list event) : list Z :=
  flat_map (fun ev => match ev with EvKill pid _ => [pid] | _ => [] end) evs.

Definition found (ls : list (string * option Z)) : list Z :=
  flat_map (fun l => match snd l with Some pid => [pid] | None => [] end) ls.

(** Reaping the supervisor's children and deleting its own record. *)
Definition is_reap (ev : event) : bool :=
  match ev with
  | EvDeleteChildPids _ _ => true
  | EvDeletePid name _ => (name =? SERVER_DAEMON_NAME)%string
  | _ => false
  end.

(** What [check_for_daemons_shutdown] answers for the three daemons at a
    given history. *)
Definition tracked_daemon_running (E : Env) (h : history) : bool :=
  existsb (fun d => existsb (String.eqb d) (running_processes E h)) shutdown_order.

(** [n] rounds of the shutdown wait that found a daemon still running. *)
Fixpoint waiting_polls (n : nat) : list event :=
  match n with
  | O => []
  | S n' => EvCheckDaemons shutdown_order true :: EvTimeSleep 1 :: waiting_polls n'
  end.

Definition waiting_line : event :=
  EvLog main_logger INFO "Waiting for daemons shutdown.".

Definition shutting_down_line (name : string) (ppid : Z) : event :=
  EvLog main_logger INFO
    ("Shutting down " ++ name ++ " (pid: " ++ string_of_Z ppid ++ ")")%string.

Definition unrecord_if_engine (name : string) (ppid : Z) : list event :=
  if (name =? ENGINE_DAEMON_NAME)%string then [EvDeletePid name ppid] else [].

(** The ways one [shutdown_daemon] can go. *)
Inductive signal_run (name : string) : outcome unit -> list event -> Prop :=
| signal_no_record :
    signal_run name (Ret tt)
      [EvCall "shutdown_daemon" name; EvGetParentPid name None]
| signal_delivered ppid :
    signal_run name (Ret tt)
      ([EvCall "shutdown_daemon" name; EvGetParentPid name (Some ppid);
        shutting_down_line name ppid; EvKill ppid Delivered]
       ++ unrecord_if_engine name ppid)
| signal_no_process ppid :
    signal_run name (Raise (ProcessLookupError "[Errno 3] No such process"))
      [EvCall "shutdown_daemon" name; EvGetParentPid name (Some ppid);
       shutting_down_line name ppid; EvKill ppid NoSuchProcess]
| signal_not_permitted ppid :
    signal_run name (Raise (PermissionError "[Errno 1] Operation not permitted"))
      [EvCall "shutdown_daemon" name; EvGetParentPid name (Some ppid);
       shutting_down_line name ppid; EvKill ppid NotPermitted].

(** The ways [shutdown_server] can go from history [h]: a signal is
    refused, the wait is still going on, or the wait saw no tracked daemon
    and the supervisor's children and record were reaped. *)
Inductive shutdown_run (E : Env) (h : history) (server_pid : Z) :
    outcome unit -> list event -> Prop :=
| shutdown_refused e sig :
    each_run signal_run shutdown_order (Raise e) sig ->
    shutdown_run E h server_pid (Raise e)
      (EvCall "shutdown_server" (string_of_Z server_pid) :: sig)
| shutdown_waiting sig n :
    each_run signal_run shutdown_order (Ret tt) sig ->
    shutdown_run E h server_pid Diverge
      (EvCall "shutdown_server" (string_of_Z server_pid) :: sig
         ++ waiting_line :: waiting_polls n)
| shutdown_complete sig n :
    each_run signal_run shutdown_order (Ret tt) sig ->
    tracked_daemon_running E
      (h ++ EvCall "shutdown_server" (string_of_Z server_pid) :: sig
         ++ waiting_line :: waiting_polls n) = false ->
    shutdown_run E h server_pid (Ret tt)
      (EvCall "shutdown_server" (string_of_Z server_pid) :: sig
         ++ waiting_line :: waiting_polls n
         ++ [EvCheckDaemons shutdown_order false;
             EvDeleteChildPids SERVER_DAEMON_NAME server_pid;
             EvDeletePid SERVER_DAEMON_NAME server_pid]).

(** What one iteration of the retry loop does before the daemons step. *)
Definition attempt_head (task_pool : bool) : list event :=
  [EvNewNode "Worker" task_pool; EvNewLocalServer "LocalServerWorker"]
    ++ (if task_pool then [EvSpawnPool] else [])
    ++ [EvExt "my_client.start()"; EvExt "my_local_server.start()"].

Definition reconnect_line : event :=
  EvLog root_logger INFO "Connection with server has been lost. Reconnecting in 10 seconds.".

(** The daemons step of an iteration that goes on to the await: nothing
    when the daemons were initialized before, otherwise a run of
    [start_daemons] that returned. *)
Inductive daemons_step (E : Env) (root : bool) : bool -> list event -> Prop :=
| step_skipped : daemons_step E root true []
| step_started evs : daemons_run E root (Ret tt) evs -> daemons_step E root false evs.

(** The ways the retry loop of [worker_main] can go, from an iteration
    that begins with [daemons_initialized = di]. *)
Inductive loop_run (E : Env) (root : bool) (retry : Z) (task_pool : bool) :
    bool -> outcome unit -> list event -> Prop :=
| loop_out_of_fuel di :
    loop_run E root retry task_pool di Diverge []
| loop_launch_failed e evs :
    daemons_run E root (Raise e) evs ->
    loop_run E root retry task_pool false (Raise e) (attempt_head task_pool ++ evs)
| loop_connected di l :
    daemons_step E root di l ->
    loop_run E root retry task_pool di Diverge
      (attempt_head task_pool ++ l ++ [EvGather GatherPending])
| loop_fatal di l e :
    daemons_step E root di l ->
    e <> CancelledError ->
    loop_run E root retry task_pool di (Raise e)
      (attempt_head task_pool ++ l ++ [EvGather (GatherRaises e)])
| loop_reconnect di l r evs :
    daemons_step E root di l ->
    loop_run E root retry task_pool true r evs ->
    loop_run E root retry task_pool di r
      (attempt_head task_pool ++ l
         ++ EvGather (GatherRaises CancelledError) :: reconnect_line
              :: EvAsyncSleep retry None :: evs)
| loop_finished di l r evs :
    daemons_step E root di l ->
    loop_run E root retry task_pool true r evs ->
    loop_run E root retry task_pool di r
      (attempt_head task_pool ++ l ++ EvGather GatherDone :: evs)
| loop_sleep_interrupted di l e :
    daemons_step E root di l ->
    loop_run E root retry task_pool di (Raise e)
      (attempt_head task_pool ++ l
         ++ [EvGather (GatherRaises CancelledError); reconnect_line;
             EvAsyncSleep retry (Some e)]).

(** [n] rounds of the readiness loop that found the channel silent. *)
Fixpoint failed_pings (path : string) (n : nat) : list event :=
  match n with
  | O => []
  | S n' =>
      EvPing path false :: EvLog main_logger INFO not_available :: EvTimeSleep 1
        :: failed_pings path n'
  end.

(** The ways the readiness loop can go. *)
Inductive probe_run (path : string) : outcome unit -> list event -> Prop :=
| probe_waiting n : probe_run path Diverge (failed_pings path n)
| probe_ready n : probe_run path (Ret tt) (failed_pings path n ++ [EvPing path true]).

Definition pool_denied (e : exn) : bool :=
  match e with
  | FileNotFoundError _ | PermissionError _ => true
  | _ => false
  end.

(** The ways the creation of the process pool of [worker_main] can go. *)
Inductive pool_run : outcome bool -> list event -> Prop :=
| pool_created : pool_run (Ret true) [EvProcessPool None]
| pool_unavailable e :
    pool_denied e = true ->
    pool_run (Ret false)
      [EvProcessPool (Some e); EvLog main_logger WARNING dev_shm_warning;
       EvLog main_logger WARNING no_improvements_warning]
| pool_error e :
    pool_denied e = false ->
    pool_run (Raise e) [EvProcessPool (Some e)].

Definition worker_intro : list event :=
  [EvExt "context_tag.set('Worker')"; EvExt "start_unix_server('Worker')"].

(** The ways [worker_main] can go. *)
Inductive worker_run (E : Env) (root : bool) (retry : Z) :
    outcome unit -> list event -> Prop :=
| worker_probing probe :
    probe_run (CONFIG_SERVER_SOCKET_PATH E) Diverge probe ->
    worker_run E root retry Diverge (worker_intro ++ probe)
| worker_pool_error probe e pool :
    probe_run (CONFIG_SERVER_SOCKET_PATH E) (Ret tt) probe ->
    pool_run (Raise e) pool ->
    worker_run E root retry (Raise e) (worker_intro ++ probe ++ pool)
| worker_looping probe task_pool pool r evs :
    probe_run (CONFIG_SERVER_SOCKET_PATH E) (Ret tt) probe ->
    pool_run (Ret task_pool) pool ->
    loop_run E root retry task_pool false r evs ->
    worker_run E root retry r (worker_intro ++ probe ++ pool ++ evs).

(** The events [worker_main] can emit before its retry loop. *)
Definition prelude_event (ev : event) : bool :=
  match ev with
  | EvExt _ | EvPing _ _ | EvLog main_logger _ _ | EvTimeSleep _ | EvProcessPool _ => true
  | _ => false
  end.

(** A predicate that holds of no event [start_daemon] can emit. *)
Definition launch_free (p : event -> bool) : Prop :=
  forall ev, launch_event ev = true -> p ev = false.

(** A predicate that holds of no event emitted before the retry loop. *)
Definition prelude_free (p : event -> bool) : Prop :=
  forall ev, prelude_event ev = true -> p ev = false.

(** Every attempt of the role is preceded by a probe of the configuration
    channel made since the previous attempt ([probed] says whether one was
    made so far). *)
Fixpoint probed_before_each_attempt (probed : bool) (evs : list event) : bool :=
  match evs with
  | [] => true
  | ev :: rest =>
      if is_ping ev then probed_before_each_attempt true rest
      else if is_attempt ev then probed && probed_before_each_attempt false rest
      else probed_before_each_attempt probed rest
  end.

(** The events the two roles can emit, from the setup of [start] to the
    end of [master_main] or [worker_main]. *)
Definition role_event (ev : event) : bool :=
  match ev with
  | EvCall fn _ => (fn =? "start_daemon")%string || (fn =? "start_daemons")%string
  | EvLog _ _ _ | EvPopen _ _ | EvWait _ _ _ | EvCreatePid _ _
  | EvTimeSleep _ | EvAsyncSleep _ _ | EvPing _ _ | EvProcessPool _
  | EvNewNode _ _ | EvNewLocalServer _ | EvSpawnPool | EvGather _ | EvExt _ => true
  | _ => false
  end.

(** Every event a program emits, from any history, is of the kind [q]. *)
Definition emits_only (q : event -> bool) {A} (m : M A) : Prop :=
  forall h, forallb q (snd (m h)) = true.

(** A predicate that holds of no event of the roles. *)
Definition role_free (p : event -> bool) : Prop :=
  forall ev, role_event ev = true -> p ev = false.

(** The lookup that opens [start] lets it go on: no supervisor process was
    found, or the pid found is falsy. *)
Definition lookup_passed (lookup : exn + Z) : Prop :=
  lookup = inl StopIteration \/ lookup = inr 0%Z.

(** The outcome of [try: ... finally: fin] from the outcome [r] of the
    [try] part and the outcome [rs] of [fin]. *)
Definition finally_outcome (r rs : outcome unit) : outcome unit :=
  match rs with
  | Ret _ => r
  | Raise e => Raise e
  | Diverge => Diverge
  end.

(** The [except] clauses of the run phase, applied to the outcome of the
    role: the outcome after them, and what they log. *)
Inductive except_run : outcome unit -> outcome unit -> list event -> Prop :=
| except_returned : except_run (Ret tt) (Ret tt) []
| except_unhandled e :
    start_except e = None -> except_run (Raise e) (Raise e) []
| except_handled e lvl msg :
    start_except e = Some (log main_logger lvl msg) ->
    except_run (Raise e) (Ret tt) [EvLog main_logger lvl msg].

Definition already_running_line (pid : Z) : event :=
  EvPrint ("The server is already running on process " ++ string_of_Z pid)%string.

Definition new_event_loop : event := EvExt "asyncio.new_event_loop()".

(** The ways [start] can go.  [role] gathers the setup, the opening of the
    event loop and the events of [master_main] or [worker_main]. *)
Inductive start_run (E : Env) : outcome unit -> list event -> Prop :=
| start_already_running pid :
    pid <> 0%Z ->
    start_run E (Raise (SystemExit 1)) [EvServerPid (inr pid); already_running_line pid]
| start_lookup_error e :
    e <> StopIteration ->
    start_run E (Raise e) [EvServerPid (inl e)]
| start_config_error lookup e :
    lookup_passed lookup ->
    is_Exception e = true ->
    start_run E (Raise (SystemExit 1))
      [EvServerPid lookup; EvGetServerConfig (inl e); EvLog main_logger ERROR (exn_str e)]
| start_config_interrupted lookup e :
    lookup_passed lookup ->
    is_Exception e = false ->
    start_run E (Raise e) [EvServerPid lookup; EvGetServerConfig (inl e)]
| start_role_running lookup cfg role :
    lookup_passed lookup ->
    forallb role_event role = true ->
    start_run E Diverge (EvServerPid lookup :: EvGetServerConfig (inr cfg) :: role)
| start_shut_down lookup cfg role rr rh handled h' rs down :
    lookup_passed lookup ->
    forallb role_event role = true ->
    In new_event_loop role ->
    except_run rr rh handled ->
    shutdown_run E h' (os_getpid E) rs down ->
    start_run E (finally_outcome rh rs)
      (EvServerPid lookup :: EvGetServerConfig (inr cfg) :: role ++ handled ++ down).

Definition not_running_line : event :=
  EvLog main_logger WARNING "Wazuh server is not running.".

(** What [os_kill] gives for an answer of the system. *)
Definition kill_result (k : kill_outcome) : outcome unit :=
  match k with
  | Delivered => Ret tt
  | NoSuchProcess => Raise (ProcessLookupError "[Errno 3] No such process")
  | NotPermitted => Raise (PermissionError "[Errno 1] Operation not permitted")
  end.

(** The ways [stop] can go. *)
Inductive stop_run (E : Env) : outcome unit -> list event -> Prop :=
| stop_not_running :
    stop_run E (Raise (SystemExit 0)) [EvServerPid (inl StopIteration); not_running_line]
| stop_lookup_error e :
    e <> StopIteration ->
    stop_run E (Raise e) [EvServerPid (inl e)]
| stop_shutdown_unfinished server_pid h' rs down :
    shutdown_run E h' server_pid rs down ->
    rs <> Ret tt ->
    stop_run E rs (EvServerPid (inr server_pid) :: down)
| stop_signalled server_pid h' down k :
    shutdown_run E h' server_pid (Ret tt) down ->
    stop_run E (kill_result k) (EvServerPid (inr server_pid) :: down ++ [EvKill server_pid k]).

(** Step 1 of the worker path as the spec numbers it: the context tag,
    the local listener and the readiness probe. *)
Definition is_step_1 (ev : event) : bool :=
  match ev with
  | EvExt what => (what =? "context_tag.set('Worker')")%string
                  || (what =? "start_unix_server('Worker')")%string
  | EvPing _ _ => true
  | _ => false
  end.

(** The event that follows each event of the kind [p], if any. *)
Fixpoint next_after (p : event -> bool) (evs : list event) : list (option event) :=
  match evs with
  | [] => []
  | ev :: rest => (if p ev then [List.hd_error rest] else []) ++ next_after p rest
  end.

(** The outcome of a program with events put before its own. *)
Definition prepend {A} (pre : list event) (p : outcome A * list event) :
    outcome A * list event :=
  (fst p, pre ++ snd p).

(** The command lines handed to [subprocess.Popen], in order. *)
Definition spawned_commands (evs : list event) : list (list string) :=
  flat_map (fun ev => match ev with EvPopen args _ => [args] | _ => [] end) evs.

Definition is_wait (ev : event) : bool :=
  match ev with EvWait _ _ _ => true | _ => false end.

(** The value of the log-level table of [start_daemons] at a key it has. *)
Definition engine_level_name (debug_mode : Z) : string :=
  match debug_mode with
  | 0%Z => "info"
  | 1%Z => "debug"
  | _ => "trace"
  end.

(** Whether a debug mode is a key of the log-level table of
    [start_daemons]. *)
Definition has_engine_log_level (debug_mode : Z) : bool :=
  ((debug_mode =? 0) || (debug_mode =? 1) || (debug_mode =? 2))%Z.

(** A termination signal that the system refused. *)
Definition refused_kill (ev : event) : bool :=
  match ev with
  | EvKill _ Delivered => false
  | EvKill _ _ => true
  | _ => false
  end.

(** The shutdown wait: a poll of the daemons, or the sleep between two
    polls. *)
Definition is_poll (ev : event) : bool :=
  match ev with EvCheckDaemons _ _ | EvTimeSleep _ => true | _ => false end.

(** What [await asyncio.gather] gives for an answer of the event loop. *)
Definition gather_result (g : gather_outcome) : outcome unit :=
  match g with
  | GatherDone => Ret tt
  | GatherRaises e => Raise e
  | GatherPending => Diverge
  end.

Definition master_intro : list event :=
  [EvExt "context_tag.set('Master')"; EvExt "start_unix_server('Master')"].

(** What [master_main] does between the readiness loop and the launch of
    the daemons. *)
Definition master_setup (has_pool : bool) : list event :=
  [EvNewNode "Master" has_pool]
    ++ (if has_pool then [EvSpawnPool] else [])
    ++ [EvNewLocalServer "LocalServerMaster";
        EvExt "my_server.start()"; EvExt "my_local_server.start()"].

(** The ways [master_main] can go. *)
Inductive master_run (E : Env) (root : bool) : outcome unit -> list event -> Prop :=
| master_probing probe :
    probe_run (CONFIG_SERVER_SOCKET_PATH E) Diverge probe ->
    master_run E root Diverge (master_intro ++ probe)
| master_launch_failed probe has_pool e evs :
    probe_run (CONFIG_SERVER_SOCKET_PATH E) (Ret tt) probe ->
    daemons_run E root (Raise e) evs ->
    master_run E root (Raise e) (master_intro ++ probe ++ master_setup has_pool ++ evs)
| master_awaited probe has_pool evs g :
    probe_run (CONFIG_SERVER_SOCKET_PATH E) (Ret tt) probe ->
    daemons_run E root (Ret tt) evs ->
    master_run E root (gather_result g)
      (master_intro ++ probe ++ master_setup has_pool ++ evs ++ [EvGather g]).

Definition is_process_pool (ev : event) : bool :=
  match ev with EvProcessPool _ => true | _ => false end.
Definition is_spawn_pool (ev : event) : bool :=
  match ev with EvSpawnPool => true | _ => false end.

(** The events of the retry loop of a worker whose process pool is
    [task_pool] (false: there is none). *)
Definition loop_event (task_pool : bool) (ev : event) : bool :=
  match ev with
  | EvNewNode cls tp => (cls =? "Worker")%string && Bool.eqb tp task_pool
  | EvSpawnPool => task_pool
  | EvProcessPool _ | EvPing _ _ | EvTimeSleep _ => false
  | _ => true
  end.

(** The deletion of the supervisor's own lifecycle record. *)
Definition is_supervisor_unrecord (ev : event) : bool :=
  match ev with
  | EvDeletePid name _ => (name =? SERVER_DAEMON_NAME)%string
  | _ => false
  end.

(** What [start] does between the loading of the configuration and the
    run phase; [present] is the answer of [keypair_exists()]. *)
Definition start_setup (E : Env) (root : bool) (cfg : ServerConfig) (present : bool) :
    list event :=
  [EvExt "clean_up()"; EvExt "create_wazuh_dir(WAZUH_RUN)";
   EvExt "clean_pid_files('wazuh-server')"]
    ++ (if root then []
        else [EvExt "os.setgid(wazuh_gid())"; EvExt "os.setuid(wazuh_uid())"])
    ++ [EvCreatePid SERVER_DAEMON_NAME (os_getpid E);
        EvLog main_logger INFO
          ("Starting server (pid: " ++ string_of_Z (os_getpid E) ++ ")")%string]
    ++ match node_type cfg with
       | MASTER =>
           EvExt "keypair_exists()"
             :: (if present then []
                 else [EvLog main_logger INFO "Generating JWT signing key pair";
                       EvExt "generate_keypair()"])
       | WORKER => []
       end.

Definition create_task : event := EvExt "loop.create_task(get_orders(main_logger))".


(** The events [shutdown_server] can emit. *)
Definition shutdown_event (ev : event) : bool :=
  match ev with
  | EvCall fn _ => (fn =? "shutdown_server")%string || (fn =? "shutdown_daemon")%string
  | EvGetParentPid _ _ | EvLog _ _ _ | EvKill _ _ | EvDeletePid _ _
  | EvCheckDaemons _ _ | EvTimeSleep _ | EvDeleteChildPids _ _ => true
  | _ => false
  end.

(** A run of a role in which no daemon is launched and nothing is awaited,
    and which, if it got as far as [start_daemons], ended with the
    [KeyError] of the debug mode. *)
Definition unlaunched (debug_mode : Z) (r : outcome unit) (evs : list event) : Prop :=
  none is_popen evs = true /\ none is_gather evs = true /\
  (In (EvCall "start_daemons" "") evs -> r = Raise (KeyError (string_of_Z debug_mode))).

(** The daemons [status] reports on, in the order of the report. *)
Definition status_order : list string :=
  [SERVER_DAEMON_NAME; COMMS_API_DAEMON_NAME; MANAGEMENT_API_DAEMON_NAME; ENGINE_DAEMON_NAME].

(** The line [status] prints for a daemon. *)
Definition status_line (daemon : string) (running : bool) : string :=
  (daemon ++ " is " ++ (if running then "running" else "not running") ++ "...")%string.


(** * Sample environments *)

(** An environment given by the answers that vary from one scenario to the
    next; the installation paths and the supervisor's own pid are fixed. *)
Definition sample_env
    (popen : history -> list string -> popen_outcome)
    (wait : history -> Z -> wait_outcome)
    (kill : history -> Z -> kill_outcome)
    (ppid : history -> string -> option Z)
    (running : history -> list string)
    (spid : history -> exn + Z)
    (cfg : history -> exn + ServerConfig)
    (ping : history -> string -> bool)
    (gathered : history -> gather_outcome) : Env :=
  {| WAZUH_SHARE := "/usr/share/wazuh-server";
     CONFIG_SERVER_SOCKET_PATH := "/run/wazuh-server/config-server.sock";
     WAZUH_RUN := "/run/wazuh-server";
     os_popen := popen;
     os_wait := wait;
     os_kill_answer := kill;
     os_getpid := 4242%Z;
     parent_pid := ppid;
     running_processes := running;
     wazuh_server_pid := spid;
     server_config_answer := cfg;
     socket_answers := ping;
     keypair_present := fun _ => true;
     process_pool_answer := fun _ => None;
     node_has_task_pool := fun _ => true;
     gather_answer := gathered;
     async_sleep_answer := fun _ => None |}.

Definition worker_config : ServerConfig :=
  {| node_type := WORKER; connection_retry := 10; logging_level_value := 0 |}.

(** Every daemon spawns with pid 101, 102, ... and survives the window; no
    lifecycle record exists and no supervisor is found; the role tasks
    keep running. *)
Definition env_healthy : Env :=
  sample_env (fun h _ => Spawned (101 + Z.of_nat (count_events is_popen h)))
             (fun _ _ => StillRunning)
             (fun _ _ => Delivered)
             (fun _ _ => None)
             (fun _ => [])
             (fun _ => inl StopIteration)
             (fun _ => inr worker_config)
             (fun _ _ => true)
             (fun _ => GatherPending).

(** As [env_healthy], but a spawned process exits at once with status
    [returncode]. *)
Definition env_exits (returncode : Z) : Env :=
  sample_env (fun h _ => Spawned (101 + Z.of_nat (count_events is_popen h)))
             (fun _ _ => Exits returncode)
             (fun _ _ => Delivered)
             (fun _ _ => None)
             (fun _ => [])
             (fun _ => inl StopIteration)
             (fun _ => inr worker_config)
             (fun _ _ => true)
             (fun _ => GatherPending).

(** The engine starts; the second launch (the communications API) exits
    with status 3 inside the window. *)
Definition env_second_fails : Env :=
  sample_env (fun h _ => Spawned (101 + Z.of_nat (count_events is_popen h)))
             (fun h _ => if Nat.eqb (count_events is_popen h) 2 then Exits 3 else StillRunning)
             (fun _ _ => Delivered)
             (fun _ _ => None)
             (fun _ => [])
             (fun _ => inl StopIteration)
             (fun _ => inr worker_config)
             (fun _ _ => true)
             (fun _ => GatherPending).

(** The running processes are [wazuh-engined] until the shutdown wait has
    slept twice; the engine's record holds pid 301 and its signal is
    delivered. *)
Definition env_engine_lingers : Env :=
  sample_env (fun h _ => Spawned (101 + Z.of_nat (count_events is_popen h)))
             (fun _ _ => StillRunning)
             (fun _ _ => Delivered)
             (fun _ name => if (name =? ENGINE_DAEMON_NAME)%string then Some 301%Z else None)
             (fun h => if Nat.ltb (count_events is_time_sleep h) 2
                       then [ENGINE_DAEMON_NAME] else [])
             (fun _ => inr 4242%Z)
             (fun _ => inr worker_config)
             (fun _ _ => true)
             (fun _ => GatherPending).

(** The connection is lost on the first two awaits; the third await raises
    [RuntimeError('boom')]. *)
Definition env_two_losses : Env :=
  sample_env (fun h _ => Spawned (101 + Z.of_nat (count_events is_popen h)))
             (fun _ _ => StillRunning)
             (fun _ _ => Delivered)
             (fun _ _ => None)
             (fun _ => [])
             (fun _ => inl StopIteration)
             (fun _ => inr worker_config)
             (fun _ _ => true)
             (fun h => if Nat.ltb (count_events is_gather h) 2
                       then GatherRaises CancelledError
                       else GatherRaises (PyException "boom")).

(** A stale record: a supervisor is found with pid 4242, the engine's
    record holds pid 301, and the system knows no process 301 any more. *)
Definition env_stale_record : Env :=
  sample_env (fun h _ => Spawned (101 + Z.of_nat (count_events is_popen h)))
             (fun _ _ => StillRunning)
             (fun _ pid => if (pid =? 301)%Z then NoSuchProcess else Delivered)
             (fun _ name => if (name =? ENGINE_DAEMON_NAME)%string then Some 301%Z else None)
             (fun _ => [])
             (fun _ => inr 4242%Z)
             (fun _ => inr worker_config)
             (fun _ _ => true)
             (fun _ => GatherPending).

(** The first await of the role raises [e]. *)
Definition env_role_raises (e : exn) : Env :=
  sample_env (fun h _ => Spawned (101 + Z.of_nat (count_events is_popen h)))
             (fun _ _ => StillRunning)
             (fun _ _ => Delivered)
             (fun _ _ => None)
             (fun _ => [])
             (fun _ => inl StopIteration)
             (fun _ => inr worker_config)
             (fun _ _ => true)
             (fun _ => GatherRaises e).

(** The engine was started with pid 101 and has died since: its record
    still holds 101 and the system knows no such process; the operator
    interrupts the first await of the role. *)
Definition env_engine_died : Env :=
  sample_env (fun h _ => Spawned (101 + Z.of_nat (count_events is_popen h)))
             (fun _ _ => StillRunning)
             (fun _ pid => if (pid =? 101)%Z then NoSuchProcess else Delivered)
             (fun _ name => if (name =? ENGINE_DAEMON_NAME)%string then Some 101%Z else None)
             (fun _ => [])
             (fun _ => inl StopIteration)
             (fun _ => inr worker_config)
             (fun _ _ => true)
             (fun _ => GatherRaises KeyboardInterrupt).

(** The connection is lost on the first await and the retry sleep is
    interrupted by the operator. *)
Definition env_sleep_interrupted : Env :=
  {| WAZUH_SHARE := WAZUH_SHARE env_two_losses;
     CONFIG_SERVER_SOCKET_PATH := CONFIG_SERVER_SOCKET_PATH env_two_losses;
     WAZUH_RUN := WAZUH_RUN env_two_losses;
     os_popen := os_popen env_two_losses;
     os_wait := os_wait env_two_losses;
     os_kill_answer := os_kill_answer env_two_losses;
     os_getpid := os_getpid env_two_losses;
     parent_pid := parent_pid env_two_losses;
     running_processes := running_processes env_two_losses;
     wazuh_server_pid := wazuh_server_pid env_two_losses;
     server_config_answer := server_config_answer env_two_losses;
     socket_answers := socket_answers env_two_losses;
     keypair_present := keypair_present env_two_losses;
     process_pool_answer := process_pool_answer env_two_losses;
     node_has_task_pool := node_has_task_pool env_two_losses;
     gather_answer := gather_answer env_two_losses;
     async_sleep_answer := fun _ => Some KeyboardInterrupt |}.

Definition start_args : Args := {| version := false; func := Some Start; root := false |}.
Definition stop_args : Args := {| version := false; func := Some Stop; root := false |}.

(** The configuration channel never answers. *)
Definition env_silent_channel : Env :=
  sample_env (fun h _ => Spawned (101 + Z.of_nat (count_events is_popen h)))
             (fun _ _ => StillRunning)
             (fun _ _ => Delivered)
             (fun _ _ => None)
             (fun _ => [])
             (fun _ => inl StopIteration)
             (fun _ => inr worker_config)
             (fun _ _ => false)
             (fun _ => GatherPending).

(** The configuration channel answers once two seconds were slept. *)
Definition env_late_channel : Env :=
  sample_env (fun h _ => Spawned (101 + Z.of_nat (count_events is_popen h)))
             (fun _ _ => StillRunning)
             (fun _ _ => Delivered)
             (fun _ _ => None)
             (fun _ => [])
             (fun _ => inl StopIteration)
             (fun _ => inr worker_config)
             (fun h _ => Nat.leb 2 (count_events is_time_sleep h))
             (fun _ => GatherPending).

(** The first await of the role returns (both tasks finished); the tasks
    of the second attempt keep running. *)
Definition env_tasks_finish : Env :=
  sample_env (fun h _ => Spawned (101 + Z.of_nat (count_events is_popen h)))
             (fun _ _ => StillRunning)
             (fun _ _ => Delivered)
             (fun _ _ => None)
             (fun _ => [])
             (fun _ => inl StopIteration)
             (fun _ => inr worker_config)
             (fun _ _ => true)
             (fun h => if Nat.eqb (count_events is_gather h) 0
                       then GatherDone else GatherPending).

(** As [env_two_losses], but the user running the server cannot access
    [/dev/shm]: the creation of the process pool is denied. *)
Definition env_no_dev_shm : Env :=
  {| WAZUH_SHARE := WAZUH_SHARE env_two_losses;
     CONFIG_SERVER_SOCKET_PATH := CONFIG_SERVER_SOCKET_PATH env_two_losses;
     WAZUH_RUN := WAZUH_RUN env_two_losses;
     os_popen := os_popen env_two_losses;
     os_wait := os_wait env_two_losses;
     os_kill_answer := os_kill_answer env_two_losses;
     os_getpid := os_getpid env_two_losses;
     parent_pid := parent_pid env_two_losses;
     running_processes := running_processes env_two_losses;
     wazuh_server_pid := wazuh_server_pid env_two_losses;
     server_config_answer := server_config_answer env_two_losses;
     socket_answers := socket_answers env_two_losses;
     keypair_present := keypair_present env_two_losses;
     process_pool_answer := fun _ => Some (PermissionError "[Errno 13] Permission denied");
     node_has_task_pool := node_has_task_pool env_two_losses;
     gather_answer := gather_answer env_two_losses;
     async_sleep_answer := async_sleep_answer env_two_losses |}.



(** * Properties *)

(** ** The monad *)

Lemma bind_run {A B} (m : M A) (k : A -> M B) (h : history) :
  bind m k h =
  match fst (m h) with
  | Ret a => (fst (k a (h ++ snd (m h))), snd (m h) ++ snd (k a (h ++ snd (m h))))
  | Raise e => (Raise e, snd (m h))
  | Diverge => (Diverge, snd (m h))
  end.
Proof.
  unfold bind. destruct (m h) as [[a|e|] evs]; simpl; try reflexivity.
  destruct (k a (h ++ evs)); reflexivity.
Qed.

Lemma bind_emit {B} (ev : event) (k : unit -> M B) (h : history) :
  bind (emit ev) k h = (fst (k tt (h ++ [ev])), ev :: snd (k tt (h ++ [ev]))).
Proof. rewrite bind_run. reflexivity. Qed.

Lemma bind_ask {R B} (answer : history -> R) (record : R -> event)
    (k : R -> M B) (h : history) :
  bind (ask answer record) k h =
  (fst (k (answer h) (h ++ [record (answer h)])),
   record (answer h) :: snd (k (answer h) (h ++ [record (answer h)]))).
Proof. rewrite bind_run. reflexivity. Qed.

Lemma while_step (fuel : nat) (cond : M bool) (body : M unit) :
  while (S fuel) cond body = (b <- cond;; if b then body;; while fuel cond body else ret tt).
Proof. reflexivity. Qed.

Lemma attempt_run {A} (m : M A) (h : history) :
  attempt m h =
  (match fst (m h) with
   | Ret a => Ret (inr a)
   | Raise e => Ret (inl e)
   | Diverge => Diverge
   end, snd (m h)).
Proof. unfold attempt. destruct (m h) as [[a|e|] evs]; reflexivity. Qed.

Lemma bind_ret {A B} (a : A) (k : A -> M B) (h : history) :
  bind (ret a) k h = k a (h ++ []).
Proof. rewrite bind_run. cbn [ret fst snd app]. symmetry. apply surjective_pairing. Qed.

Lemma bind_emit_prepend {B} (ev : event) (k : unit -> M B) (h : history) :
  bind (emit ev) k h = prepend [ev] (k tt (h ++ [ev])).
Proof. rewrite bind_emit. reflexivity. Qed.

Lemma bind_ask_prepend {R B} (answer : history -> R) (record : R -> event)
    (k : R -> M B) (h : history) :
  bind (ask answer record) k h
  = prepend [record (answer h)] (k (answer h) (h ++ [record (answer h)])).
Proof. rewrite bind_ask. reflexivity. Qed.

Lemma bind_bind {A B C} (m : M A) (k1 : A -> M B) (k2 : B -> M C) (h : history) :
  bind (bind m k1) k2 h = bind m (fun a => bind (k1 a) k2) h.
Proof.
  unfold bind. destruct (m h) as [[a|e|] evs]; try reflexivity.
  destruct (k1 a (h ++ evs)) as [[b|e|] evs1]; try reflexivity.
  rewrite <- app_assoc. destruct (k2 b (h ++ evs ++ evs1)) as [r evs2].
  rewrite app_assoc. reflexivity.
Qed.

Lemma prepend_prepend {A} (l1 l2 : list event) (p : outcome A * list event) :
  prepend l1 (prepend l2 p) = prepend (l1 ++ l2) p.
Proof. unfold prepend. simpl. rewrite app_assoc. reflexivity. Qed.

Lemma bind_prepend {A B} (m : M A) (k : A -> M B) (h : history) :
  bind m k h =
  match fst (m h) with
  | Ret a => prepend (snd (m h)) (k a (h ++ snd (m h)))
  | Raise e => (Raise e, snd (m h))
  | Diverge => (Diverge, snd (m h))
  end.
Proof.
  unfold bind, prepend. destruct (m h) as [[a|e|] evs]; cbn [fst snd]; try reflexivity.
  destruct (k a (h ++ evs)); reflexivity.
Qed.

(** ** [start_daemon] *)

Lemma start_daemon_launch_run E name args h :
  launch_run name args (fst (start_daemon E name args h)) (snd (start_daemon E name args h)).
Proof.
  unfold start_daemon, Popen, p_wait, info, log.
  cbv [bind attempt ask emit ret raise].
  destruct (os_popen E _ args) as [msg|pid]; cbn.
  - apply launch_spawn_error.
  - destruct (os_wait E _ pid) as [rc|]; cbn.
    + destruct (Z.eqb_spec rc 0) as [->|Hrc]; cbn.
      * apply launch_exit_zero.
      * apply launch_exit_nonzero; assumption.
    + unfold create_pid. cbv [bind emit ret].
      pose proof (launch_started name args pid) as H.
      unfold record_if_engine in H.
      destruct (name =? ENGINE_DAEMON_NAME)%string; cbn in *; exact H.
Qed.

Lemma launch_run_of_wait name args r evs pid w :
  launch_run name args r evs ->
  In (EvWait pid 2 w) evs ->
  match w with
  | StillRunning =>
      r = Ret tt /\
      evs = launch_prefix name ++ [EvPopen args (Spawned pid); EvWait pid 2 StillRunning]
              ++ record_if_engine name pid ++ [started_line name pid]
  | Exits rc =>
      evs = launch_prefix name ++ [EvPopen args (Spawned pid); EvWait pid 2 (Exits rc)] /\
      r = (if (rc =? 0)%Z then Ret tt
           else Raise (start_error name ("return code " ++ string_of_Z rc)%string))
  end.
Proof.
  intros Hrun Hin.
  assert (Hrec : forall p, ~ In (EvWait pid 2 w) (record_if_engine name p)).
  { intros p. unfold record_if_engine.
    destruct (name =? ENGINE_DAEMON_NAME)%string; simpl; intuition discriminate. }
  destruct Hrun as [msg|p|p rc Hrc|p]; simpl in Hin.
  - intuition discriminate.
  - destruct Hin as [H|[H|[H|[H|[]]]]]; try discriminate.
    injection H as -> <-. split; reflexivity.
  - destruct Hin as [H|[H|[H|[H|[]]]]]; try discriminate.
    injection H as -> <-. split; [reflexivity|].
    destruct (Z.eqb_spec rc 0); [contradiction|reflexivity].
  - destruct Hin as [H|[H|[H|[H|H]]]]; try discriminate.
    + injection H as -> <-. split; reflexivity.
    + apply in_app_or in H. destruct H as [H|H]; [destruct (Hrec p H)|].
      unfold started_line in H. simpl in H. intuition discriminate.
Qed.

(** What [start_daemon] does once the system has spawned the process, from
    the answer of the two-second wait. *)
Lemma start_daemon_spawned E name args h pid :
  os_popen E (h ++ launch_prefix name) args = Spawned pid ->
  start_daemon E name args h =
  match os_wait E (h ++ launch_prefix name ++ [EvPopen args (Spawned pid)]) pid with
  | StillRunning =>
      (Ret tt,
       launch_prefix name ++ [EvPopen args (Spawned pid); EvWait pid 2 StillRunning]
         ++ record_if_engine name pid ++ [started_line name pid])
  | Exits rc =>
      (if (rc =? 0)%Z then Ret tt
       else Raise (start_error name ("return code " ++ string_of_Z rc)%string),
       launch_prefix name ++ [EvPopen args (Spawned pid); EvWait pid 2 (Exits rc)])
  end.
Proof.
  intros Hp. unfold launch_prefix in *.
  unfold start_daemon, Popen, p_wait, info, log.
  cbv [bind attempt ask emit ret raise].
  rewrite <- !app_assoc. cbn [app]. rewrite Hp. cbn.
  rewrite <- !app_assoc. cbn [app].
  destruct (os_wait E _ pid) as [rc|]; cbn.
  - destruct (rc =? 0)%Z; reflexivity.
  - unfold create_pid, record_if_engine. cbv [bind emit ret].
    destruct (name =? ENGINE_DAEMON_NAME)%string; reflexivity.
Qed.

(** C6: when the system has spawned the process of a daemon and the process
    is still running as the two-second window elapses, the daemon is
    started: [start_daemon] returns, having logged the pid, and it has
    written a lifecycle record exactly when the daemon is the engine; when
    the process exits inside the window with a non-zero status,
    [start_daemon] raises [WazuhDaemonError] carrying the return code, and
    no record is written.  The wait recorded in a run is the one that
    decided it. *)
Theorem start_daemon_grace_window E name args h r evs :
  start_daemon E name args h = (r, evs) ->
  (forall pid,
     os_popen E (h ++ launch_prefix name) args = Spawned pid ->
     (os_wait E (h ++ launch_prefix name ++ [EvPopen args (Spawned pid)]) pid
      = StillRunning ->
      r = Ret tt /\
      evs = launch_prefix name ++ [EvPopen args (Spawned pid); EvWait pid 2 StillRunning]
              ++ record_if_engine name pid ++ [started_line name pid]) /\
     (forall rc,
        os_wait E (h ++ launch_prefix name ++ [EvPopen args (Spawned pid)]) pid
        = Exits rc ->
        rc <> 0%Z ->
        r = Raise (WazuhDaemonError
                     ("Error starting " ++ name ++ ": return code "
                        ++ string_of_Z rc)%string) /\
        evs = launch_prefix name ++ [EvPopen args (Spawned pid); EvWait pid 2 (Exits rc)])) /\
  (forall pid, In (EvWait pid 2 StillRunning) evs ->
     r = Ret tt /\
     evs = launch_prefix name ++ [EvPopen args (Spawned pid); EvWait pid 2 StillRunning]
             ++ record_if_engine name pid ++ [started_line name pid] /\
     (forall n p, In (EvCreatePid n p) evs <->
                  name = ENGINE_DAEMON_NAME /\ n = ENGINE_DAEMON_NAME /\ p = pid)) /\
  (forall pid rc, In (EvWait pid 2 (Exits rc)) evs -> rc <> 0%Z ->
     r = Raise (WazuhDaemonError
                  ("Error starting " ++ name ++ ": return code " ++ string_of_Z rc)%string) /\
     evs = launch_prefix name ++ [EvPopen args (Spawned pid); EvWait pid 2 (Exits rc)] /\
     (forall n p, ~ In (EvCreatePid n p) evs)).
Proof.
  intros Hrun.
  pose proof (start_daemon_launch_run E name args h) as Hshape.
  rewrite Hrun in Hshape. simpl in Hshape.
  split; [|split].
  - intros pid Hp. pose proof (start_daemon_spawned E name args h pid Hp) as Hexact.
    rewrite Hrun in Hexact. split.
    + intros Hw. rewrite Hw in Hexact.
      split; [exact (f_equal fst Hexact) | exact (f_equal snd Hexact)].
    + intros rc Hw Hrc. rewrite Hw in Hexact.
      destruct (Z.eqb_spec rc 0) as [Hz|_]; [contradiction|].
      split; [exact (f_equal fst Hexact) | exact (f_equal snd Hexact)].
  - intros pid Hin.
    destruct (launch_run_of_wait _ _ _ _ _ _ Hshape Hin) as [-> ->].
    split; [reflexivity|]. split; [reflexivity|].
    intros n p. unfold record_if_engine, started_line.
    destruct (String.eqb_spec name ENGINE_DAEMON_NAME) as [->|Hne]; simpl; split.
    + intros [H|[H|[H|[H|[H|[H|[]]]]]]]; try discriminate.
      injection H as <- <-. auto.
    + intros (_ & -> & ->). auto 10.
    + intros [H|[H|[H|[H|[H|[]]]]]]; discriminate.
    + intros (Hn & _). contradiction.
  - intros pid rc Hin Hrc.
    destruct (launch_run_of_wait _ _ _ _ _ _ Hshape Hin) as [-> ->].
    destruct (Z.eqb_spec rc 0) as [Hz|_]; [contradiction|].
    split; [reflexivity|]. split; [reflexivity|].
    intros n p. simpl. intuition discriminate.
Qed.

Lemma start_daemon_grace_window_witness :
  start_daemon env_healthy ENGINE_DAEMON_NAME ["wazuh-engine"] []
  = (Ret tt,
     launch_prefix ENGINE_DAEMON_NAME
       ++ [EvPopen ["wazuh-engine"] (Spawned 101); EvWait 101 2 StillRunning;
           EvCreatePid ENGINE_DAEMON_NAME 101; started_line ENGINE_DAEMON_NAME 101]) /\
  start_daemon env_healthy COMMS_API_DAEMON_NAME ["wazuh-comms-apid"] []
  = (Ret tt,
     launch_prefix COMMS_API_DAEMON_NAME
       ++ [EvPopen ["wazuh-comms-apid"] (Spawned 101); EvWait 101 2 StillRunning;
           started_line COMMS_API_DAEMON_NAME 101]) /\
  start_daemon (env_exits 3) ENGINE_DAEMON_NAME ["wazuh-engine"] []
  = (Raise (WazuhDaemonError "Error starting wazuh-engined: return code 3"),
     launch_prefix ENGINE_DAEMON_NAME
       ++ [EvPopen ["wazuh-engine"] (Spawned 101); EvWait 101 2 (Exits 3)]).
Proof.
  pose (ok := start_daemon env_healthy ENGINE_DAEMON_NAME ["wazuh-engine"] []).
  pose (api := start_daemon env_healthy COMMS_API_DAEMON_NAME ["wazuh-comms-apid"] []).
  pose (ko := start_daemon (env_exits 3) ENGINE_DAEMON_NAME ["wazuh-engine"] []).
  destruct (start_daemon_grace_window env_healthy ENGINE_DAEMON_NAME ["wazuh-engine"] []
              (fst ok) (snd ok) (surjective_pairing ok)) as (Hok & _ & _).
  destruct (start_daemon_grace_window env_healthy COMMS_API_DAEMON_NAME
              ["wazuh-comms-apid"] [] (fst api) (snd api) (surjective_pairing api))
    as (Hapi & _ & _).
  destruct (start_daemon_grace_window (env_exits 3) ENGINE_DAEMON_NAME ["wazuh-engine"] []
              (fst ko) (snd ko) (surjective_pairing ko)) as (Hko & _ & _).
  destruct (Hok 101%Z eq_refl) as [Hrunning _].
  destruct (Hrunning eq_refl) as [Hr He].
  destruct (Hapi 101%Z eq_refl) as [Hrunning' _].
  destruct (Hrunning' eq_refl) as [Hr' He'].
  destruct (Hko 101%Z eq_refl) as [_ Hexits].
  destruct (Hexits 3%Z eq_refl ltac:(lia)) as [Hr'' He''].
  split; [|split].
  - rewrite (surjective_pairing (start_daemon _ _ _ _)). fold ok. rewrite Hr, He. reflexivity.
  - rewrite (surjective_pairing (start_daemon _ _ _ _)). fold api. rewrite Hr', He'.
    reflexivity.
  - rewrite (surjective_pairing (start_daemon _ _ _ _)). fold ko. rewrite Hr'', He''.
    reflexivity.
Defined.

(** C10: a daemon that exits with status 0 inside the window makes
    [start_daemon] return as after a successful launch, although nothing
    is running: no error is raised, no lifecycle record is written (not
    even for the engine) and no started line is logged. *)
Theorem start_daemon_exit_zero E name args h r evs pid :
  start_daemon E name args h = (r, evs) ->
  In (EvWait pid 2 (Exits 0)) evs ->
  r = Ret tt /\
  evs = launch_prefix name ++ [EvPopen args (Spawned pid); EvWait pid 2 (Exits 0)] /\
  (forall n p, ~ In (EvCreatePid n p) evs) /\
  (forall p, ~ In (started_line name p) evs).
Proof.
  intros Hrun Hin.
  pose proof (start_daemon_launch_run E name args h) as Hshape.
  rewrite Hrun in Hshape. simpl in Hshape.
  destruct (launch_run_of_wait _ _ _ _ _ _ Hshape Hin) as [-> ->].
  simpl. unfold started_line. repeat split; intros; intuition discriminate.
Qed.

Lemma start_daemon_exit_zero_witness :
  fst (start_daemon (env_exits 0) ENGINE_DAEMON_NAME ["wazuh-engine"] []) = Ret tt /\
  forall n p, ~ In (EvCreatePid n p)
                   (snd (start_daemon (env_exits 0) ENGINE_DAEMON_NAME ["wazuh-engine"] [])).
Proof.
  pose (run0 := start_daemon (env_exits 0) ENGINE_DAEMON_NAME ["wazuh-engine"] []).
  assert (Hin : In (EvWait 101 2 (Exits 0)) (snd run0)) by (vm_compute; tauto).
  destruct (start_daemon_exit_zero (env_exits 0) ENGINE_DAEMON_NAME ["wazuh-engine"] []
              (fst run0) (snd run0) 101%Z (surjective_pairing run0) Hin) as (Hr & _ & Hrec & _).
  split; [exact Hr | exact Hrec].
Defined.

(** ** [start_daemons] *)

Lemma calls_app fn evs1 evs2 : calls fn (evs1 ++ evs2) = calls fn evs1 ++ calls fn evs2.
Proof. apply flat_map_app. Qed.

Lemma record_if_engine_cases name pid :
  record_if_engine name pid = [] \/
  record_if_engine name pid = [EvCreatePid ENGINE_DAEMON_NAME pid].
Proof. unfold record_if_engine. destruct (name =? ENGINE_DAEMON_NAME)%string; auto. Qed.


Lemma launch_run_outcome name args r evs :
  launch_run name args r evs ->
  r = Ret tt \/ exists reason, r = Raise (start_error name reason).
Proof. destruct 1; eauto. Qed.

Lemma launch_run_returned name args evs :
  launch_run name args (Ret tt) evs -> forallb (fun ev => negb (failed_launch ev)) evs = true.
Proof.
  inversion 1; subst; try reflexivity.
  destruct (record_if_engine_cases name pid) as [-> | ->]; reflexivity.
Qed.

Lemma launch_run_failed name args r evs pre ev post :
  launch_run name args r evs ->
  evs = pre ++ ev :: post ->
  failed_launch ev = true ->
  post = [] /\ launched pre = [name] /\ exists reason, r = Raise (start_error name reason).
Proof.
  intros Hrun Heq Hfail.
  destruct Hrun as [msg|pid|pid rc Hrc|pid].
  - do 3 (destruct pre as [|? pre]; simpl in Heq; injection Heq as <- Heq;
          try discriminate Hfail).
    + subst post. eauto.
    + destruct pre; discriminate Heq.
  - assert (Hok : forallb (fun ev => negb (failed_launch ev))
                    (launch_prefix name ++ [EvPopen args (Spawned pid); EvWait pid 2 (Exits 0)])
                  = true) by reflexivity.
    rewrite Heq, forallb_app in Hok. simpl in Hok. rewrite Hfail in Hok.
    simpl in Hok. rewrite andb_false_r in Hok. discriminate.
  - do 4 (destruct pre as [|? pre]; simpl in Heq; injection Heq as <- Heq;
          try discriminate Hfail).
    + subst post. eauto.
    + destruct pre; discriminate Heq.
  - pose proof (launch_run_returned _ _ _ (launch_started name args pid)) as Hok.
    rewrite Heq, forallb_app in Hok. simpl in Hok. rewrite Hfail in Hok.
    simpl in Hok. rewrite andb_false_r in Hok. discriminate.
Qed.

Lemma for_each_each_run {X} (one : X -> outcome unit -> list event -> Prop)
    (body : X -> M unit) :
  (forall x h, one x (fst (body x h)) (snd (body x h))) ->
  forall xs h, each_run one xs (fst (for_each xs body h)) (snd (for_each xs body h)).
Proof.
  intros Hbody xs. induction xs as [|x xs IH]; intros h; simpl.
  - constructor.
  - rewrite bind_run. pose proof (Hbody x h) as Hone.
    destruct (fst (body x h)) as [[]|e|]; simpl.
    + apply each_next; [exact Hone | apply IH].
    + apply each_raise; exact Hone.
    + apply each_diverge; exact Hone.
Qed.

Lemma for_each_launch_seq E ds h :
  let run := for_each ds (fun d => start_daemon E (fst d) (snd d)) h in
  launch_seq ds (fst run) (snd run).
Proof.
  apply (for_each_each_run (fun d => launch_run (fst d) (snd d))).
  intros [name args] h'. apply start_daemon_launch_run.
Qed.

Lemma launch_run_not_diverge name args evs : ~ launch_run name args Diverge evs.
Proof. inversion 1. Qed.


Lemma launch_seq_outcome ds r evs :
  launch_seq ds r evs ->
  r = Ret tt \/ exists name reason, In name (map fst ds) /\ r = Raise (start_error name reason).
Proof.
  induction 1 as [|[name args] ds e evs Hone|[name args] ds evs Hone
                  |[name args] ds evs r evs' Hone Hrest IH]; simpl in *.
  - auto.
  - destruct (launch_run_outcome _ _ _ _ Hone) as [Hd|[reason Hd]]; [discriminate|].
    right. exists name, reason. auto.
  - destruct (launch_run_not_diverge _ _ _ Hone).
  - destruct IH as [->|(n & reason & Hin & ->)]; [auto|].
    right. exists n, reason. auto.
Qed.

Lemma launch_seq_failed ds r evs pre ev post :
  launch_seq ds r evs ->
  evs = pre ++ ev :: post ->
  failed_launch ev = true ->
  post = [] /\
  exists done name reason,
    launched pre = done ++ [name] /\ r = Raise (start_error name reason).
Proof.
  intros Hseq. revert pre.
  induction Hseq as [|[name args] ds e evs Hone|[name args] ds evs Hone
                     |[name args] ds evs r evs' Hone Hrest IH];
    intros pre Heq Hfail; simpl in *.
  - destruct pre; discriminate.
  - destruct (launch_run_failed _ _ _ _ _ _ _ Hone Heq Hfail) as (-> & Hl & reason & Hr).
    split; [reflexivity|]. exists [], name, reason. auto.
  - destruct (launch_run_not_diverge _ _ _ Hone).
  - apply app_eq_app in Heq. destruct Heq as [l [[-> Hl]|[-> Hl]]].
    + (* the failed launch would lie in a launch that returned *)
      destruct l as [|ev' l].
      * rewrite app_nil_r in *. simpl in Hl.
        destruct (IH [] (eq_sym Hl) Hfail) as (-> & d & n & reason & Hd & ->).
        destruct d; discriminate Hd.
      * injection Hl as <- _.
        pose proof (launch_run_returned _ _ _ Hone) as Hok.
        rewrite forallb_app in Hok. simpl in Hok. rewrite Hfail in Hok.
        simpl in Hok. rewrite andb_false_r in Hok. discriminate.
    + destruct (IH l Hl Hfail) as (-> & d & n & reason & Hd & ->).
      split; [reflexivity|].
      exists (launched evs ++ d), n, reason.
      split; [|reflexivity].
      unfold launched in *. rewrite calls_app, Hd, app_assoc. reflexivity.
Qed.

Lemma start_daemons_daemons_run E dm root h :
  daemons_run E root (fst (start_daemons E dm root h)) (snd (start_daemons E dm root h)).
Proof.
  unfold start_daemons. rewrite bind_emit, bind_run.
  assert (Hlvl : (exists lvl, engine_log_level dm = ret lvl) \/
                 engine_log_level dm = raise (KeyError (string_of_Z dm))).
  { unfold engine_log_level.
    destruct dm as [|p|p]; eauto; destruct p as [[p|p|]|[p|p|]|]; eauto. }
  destruct Hlvl as [[lvl ->] | ->]; unfold ret, raise; cbn [fst snd app].
  - apply daemons_launches with (lvl := lvl). apply for_each_launch_seq.
  - apply daemons_key_error.
Qed.



(** ** [shutdown_daemon] and [shutdown_server] *)

Lemma shutdown_daemon_signal_run E name h :
  signal_run name (fst (shutdown_daemon E name h)) (snd (shutdown_daemon E name h)).
Proof.
  unfold shutdown_daemon, get_parent_pid, os_kill, info, log, delete_pid.
  cbv [bind ask emit ret raise].
  destruct (parent_pid E _ name) as [ppid|]; cbn.
  - destruct (os_kill_answer E _ ppid); cbn.
    + pose proof (signal_delivered name ppid) as H. unfold unrecord_if_engine in H.
      destruct (name =? ENGINE_DAEMON_NAME)%string; cbn in *; exact H.
    + apply signal_no_process.
    + apply signal_not_permitted.
  - apply signal_no_record.
Qed.

Lemma lookups_app evs1 evs2 : lookups (evs1 ++ evs2) = lookups evs1 ++ lookups evs2.
Proof. apply flat_map_app. Qed.

Lemma signals_app evs1 evs2 : signals (evs1 ++ evs2) = signals evs1 ++ signals evs2.
Proof. apply flat_map_app. Qed.

Lemma found_app ls1 ls2 : found (ls1 ++ ls2) = found ls1 ++ found ls2.
Proof. apply flat_map_app. Qed.

Lemma unrecord_if_engine_cases name ppid :
  unrecord_if_engine name ppid = [] \/
  unrecord_if_engine name ppid = [EvDeletePid ENGINE_DAEMON_NAME ppid].
Proof.
  unfold unrecord_if_engine.
  destruct (String.eqb_spec name ENGINE_DAEMON_NAME) as [->|_]; auto.
Qed.

Lemma signal_run_facts name r evs :
  signal_run name r evs ->
  map fst (lookups evs) = [name] /\
  signals evs = found (lookups evs) /\
  forallb (fun ev => negb (is_reap ev)) evs = true /\
  r <> Diverge.
Proof.
  destruct 1 as [|ppid|ppid|ppid];
    try (repeat split; (reflexivity || discriminate)).
  destruct (unrecord_if_engine_cases name ppid) as [-> | ->];
    repeat split; (reflexivity || discriminate).
Qed.

Lemma signal_seq_facts ds r evs :
  each_run signal_run ds r evs ->
  (exists k, map fst (lookups evs) = firstn k ds) /\
  (r = Ret tt -> map fst (lookups evs) = ds) /\
  signals evs = found (lookups evs) /\
  forallb (fun ev => negb (is_reap ev)) evs = true /\
  r <> Diverge.
Proof.
  induction 1 as [|name ds e evs Hone|name ds evs Hone|name ds evs r evs' Hone Hrest IH].
  - repeat split; try reflexivity; try discriminate. exists 0%nat. reflexivity.
  - destruct (signal_run_facts _ _ _ Hone) as (Hl & Hs & Hr & _).
    repeat split; try assumption; try discriminate.
    exists 1%nat. rewrite Hl. reflexivity.
  - destruct (signal_run_facts _ _ _ Hone) as (_ & _ & _ & Hd). contradiction.
  - destruct (signal_run_facts _ _ _ Hone) as (Hl & Hs & Hr & _).
    destruct IH as ((k & Hk) & Hret & Hs' & Hr' & Hd).
    rewrite lookups_app, signals_app, found_app, map_app, forallb_app, Hl, Hs, Hs', Hr, Hr'.
    repeat split; try assumption.
    + exists (S k). simpl. rewrite Hk. reflexivity.
    + intros Heq. simpl. rewrite (Hret Heq). reflexivity.
Qed.

Lemma wait_for_shutdown_run E fuel h :
  let run := while fuel (check_for_daemons_shutdown E shutdown_order) (time_sleep 1) h in
  (exists n, run = (Ret tt, waiting_polls n ++ [EvCheckDaemons shutdown_order false]) /\
             tracked_daemon_running E (h ++ waiting_polls n) = false) \/
  run = (Diverge, waiting_polls fuel).
Proof.
  change (check_for_daemons_shutdown E shutdown_order)
    with (ask (tracked_daemon_running E) (EvCheckDaemons shutdown_order)).
  change (time_sleep 1) with (emit (EvTimeSleep 1)).
  revert h. induction fuel as [|fuel IH]; intros h.
  - right. reflexivity.
  - rewrite while_step. cbv zeta. rewrite bind_ask.
    destruct (tracked_daemon_running E h) eqn:Hrun.
    + rewrite bind_emit.
      specialize (IH ((h ++ [EvCheckDaemons shutdown_order true]) ++ [EvTimeSleep 1])).
      cbv zeta in IH. destruct IH as [(n & -> & Hn) | ->]; cbn [fst snd app].
      * left. exists (S n). split; [reflexivity|].
        rewrite <- Hn. f_equal. rewrite <- !app_assoc. reflexivity.
      * right. reflexivity.
    + left. exists 0%nat. rewrite app_nil_r. split; [reflexivity | exact Hrun].
Qed.

Lemma waiting_polls_facts n :
  lookups (waiting_polls n) = [] /\ signals (waiting_polls n) = [] /\
  forallb (fun ev => negb (is_reap ev)) (waiting_polls n) = true.
Proof. induction n as [|n (Hl & Hs & Hr)]; simpl; auto. Qed.

Lemma shutdown_server_shutdown_run E fuel server_pid h :
  shutdown_run E h server_pid (fst (shutdown_server E fuel server_pid h))
                              (snd (shutdown_server E fuel server_pid h)).
Proof.
  unfold shutdown_server. cbv zeta. rewrite bind_emit, bind_run.
  set (h1 := h ++ [EvCall "shutdown_server" (string_of_Z server_pid)]).
  pose proof (for_each_each_run signal_run (shutdown_daemon E)
                (shutdown_daemon_signal_run E) shutdown_order h1) as Hsig.
  destruct (signal_seq_facts _ _ _ Hsig) as (_ & _ & _ & _ & Hnd).
  destruct (fst (for_each shutdown_order (shutdown_daemon E) h1)) as [[]|e|];
    [| apply shutdown_refused; exact Hsig | contradiction].
  set (sig := snd (for_each shutdown_order (shutdown_daemon E) h1)) in *.
  unfold info, log. rewrite bind_emit, bind_run.
  fold waiting_line.
  set (h2 := (h1 ++ sig) ++ [waiting_line]).
  assert (Hh2 : forall l, h2 ++ l
                = h ++ EvCall "shutdown_server" (string_of_Z server_pid) :: sig
                    ++ waiting_line :: l).
  { intros l. unfold h2, h1. rewrite <- !app_assoc. reflexivity. }
  destruct (wait_for_shutdown_run E fuel h2) as [(n & -> & Hgone) | ->];
    cbn [fst snd].
  - unfold delete_child_pids, delete_pid. rewrite bind_emit. cbn [fst snd emit].
    rewrite Hh2 in Hgone.
    pose proof (shutdown_complete E h server_pid sig n Hsig Hgone) as Hdone.
    rewrite <- app_assoc. exact Hdone.
  - apply shutdown_waiting; exact Hsig.
Qed.



(** ** The retry loop of [worker_main] *)

Lemma daemons_run_outcome E root r evs :
  daemons_run E root r evs ->
  r = Ret tt \/ (exists key, r = Raise (KeyError key)) \/
  exists name reason, r = Raise (start_error name reason).
Proof.
  destruct 1 as [key | lvl r evs Hseq]; [eauto|].
  destruct (launch_seq_outcome _ _ _ Hseq) as [->|(n & reason & _ & ->)]; eauto.
Qed.

Lemma worker_except_fatal E retry e h :
  e <> CancelledError -> worker_except E retry e h = (Raise e, []).
Proof. intros Hne. destruct e; try reflexivity. contradiction. Qed.

Lemma worker_except_cancelled {B} E retry (k : unit -> M B) h :
  bind (worker_except E retry CancelledError) k h
  = match async_sleep_answer E (h ++ [reconnect_line]) with
    | Some e => (Raise e, [reconnect_line; EvAsyncSleep retry (Some e)])
    | None =>
        prepend [reconnect_line; EvAsyncSleep retry None]
          (k tt ((h ++ [reconnect_line]) ++ [EvAsyncSleep retry None]))
    end.
Proof.
  cbn [worker_except]. unfold log, asyncio_sleep.
  rewrite bind_bind, bind_emit_prepend, bind_bind, bind_ask_prepend.
  fold reconnect_line.
  destruct (async_sleep_answer E (h ++ [reconnect_line])) as [e|].
  - reflexivity.
  - rewrite bind_ret, app_nil_r, prepend_prepend. reflexivity.
Qed.


Lemma loop_run_events E root retry task_pool di r evs evs' :
  loop_run E root retry task_pool di r evs -> evs = evs' ->
  loop_run E root retry task_pool di r evs'.
Proof. intros H <-. exact H. Qed.

Lemma worker_loop_loop_run E fuel dm root retry task_pool di h :
  let run := worker_loop E fuel dm root retry task_pool di h in
  loop_run E root retry task_pool di (fst run) (snd run).
Proof.
  cbv zeta. revert di h. induction fuel as [|fuel IH]; intros di h.
  - apply loop_out_of_fuel.
  - cbn [worker_loop].
    rewrite !bind_emit. cbn [fst snd].
    set (h1 := (h ++ [EvNewNode "Worker" task_pool]) ++ [EvNewLocalServer "LocalServerWorker"]).
    assert (Hgather : forall l h5,
      daemons_step E root di l ->
      let rest := (awaited <- attempt (gather E);;
                   match awaited with
                   | inl e => worker_except E retry e;;
                              worker_loop E fuel dm root retry task_pool true
                   | inr _ => worker_loop E fuel dm root retry task_pool true
                   end) h5 in
      loop_run E root retry task_pool di (fst rest) (attempt_head task_pool ++ l ++ snd rest)).
    { intros l h5 Hstep. cbv zeta. rewrite bind_run, attempt_run. cbn [fst snd].
      unfold gather. rewrite bind_ask. cbn [fst snd].
      destruct (gather_answer E h5) as [|e|]; cbn [fst snd ret raise diverge].
      - eapply loop_run_events; [apply loop_finished; [exact Hstep | apply IH]|].
        reflexivity.
      - assert (He : e = CancelledError \/ e <> CancelledError)
          by (destruct e; auto; right; discriminate).
        destruct He as [->|Hne].
        + rewrite worker_except_cancelled.
          destruct (async_sleep_answer E _) as [e'|]; cbn [prepend fst snd app].
          * apply loop_sleep_interrupted; exact Hstep.
          * eapply loop_run_events; [apply loop_reconnect; [exact Hstep | apply IH]|].
            reflexivity.
        + rewrite bind_run, (worker_except_fatal E retry e _ Hne). cbn [fst snd app].
          apply loop_fatal; assumption.
      - apply loop_connected; assumption. }
    rewrite bind_run.
    assert (Hpool : forall hp, (if task_pool then emit EvSpawnPool else ret tt) hp
                    = (Ret tt, if task_pool then [EvSpawnPool] else []))
      by (intros hp; destruct task_pool; reflexivity).
    rewrite Hpool. cbn [fst snd].
    set (h2 := h1 ++ (if task_pool then [EvSpawnPool] else [])).
    rewrite bind_run, attempt_run, !bind_emit. cbn [fst snd].
    set (h4 := (h2 ++ [EvExt "my_client.start()"]) ++ [EvExt "my_local_server.start()"]).
    destruct di; cbn [negb].
    + cbn [ret fst snd].
      eapply loop_run_events; [apply (Hgather [] _ (step_skipped E root))|].
      unfold attempt_head. cbn [app]. rewrite <- !app_assoc. reflexivity.
    + pose proof (start_daemons_daemons_run E dm root h4) as Hd.
      destruct (daemons_run_outcome _ _ _ _ Hd) as [Hr|[(key & Hr)|(n & reason & Hr)]];
        rewrite Hr in *; cbn [fst snd].
      * eapply loop_run_events;
          [apply (Hgather _ _ (step_started E root _ Hd))|].
        unfold attempt_head. cbn [app]. rewrite <- !app_assoc. reflexivity.
      * rewrite bind_run, worker_except_fatal by discriminate. cbn [fst snd].
        eapply loop_run_events; [apply (loop_launch_failed _ _ _ _ _ _ Hd)|].
        unfold attempt_head. cbn [app]. rewrite <- !app_assoc, !app_nil_r. reflexivity.
      * rewrite bind_run, worker_except_fatal by discriminate. cbn [fst snd].
        eapply loop_run_events; [apply (loop_launch_failed _ _ _ _ _ _ Hd)|].
        unfold attempt_head. cbn [app]. rewrite <- !app_assoc, !app_nil_r. reflexivity.
Qed.

(** ** [worker_main] *)

Lemma wait_for_config_server_probe_run E fuel h :
  probe_run (CONFIG_SERVER_SOCKET_PATH E)
    (fst (wait_for_config_server E fuel h)) (snd (wait_for_config_server E fuel h)).
Proof.
  unfold wait_for_config_server, ping_unix_socket, info, log, time_sleep.
  set (path := CONFIG_SERVER_SOCKET_PATH E).
  assert (Hgen : forall h,
    let run := while fuel (up <- ask (fun h0 => socket_answers E h0 path) (EvPing path);;
                           ret (negb up))
                 (emit (EvLog main_logger INFO not_available);; emit (EvTimeSleep 1)) h in
    exists n, (run = (Diverge, failed_pings path n)) \/
              (run = (Ret tt, failed_pings path n ++ [EvPing path true]))).
  { clear h. induction fuel as [|fuel IH]; intros h.
    - exists 0%nat. left. reflexivity.
    - cbv zeta. rewrite while_step, bind_run, bind_ask. cbn [fst snd ret app].
      destruct (socket_answers E h path); cbn [negb].
      + exists 0%nat. right. reflexivity.
      + rewrite bind_run, bind_emit. cbn [fst snd emit app].
        match goal with
        | |- context [while fuel ?c ?b ?h'] => destruct (IH h') as [n [Hn|Hn]]
        end; cbv zeta in Hn; rewrite Hn; cbn [fst snd];
          exists (S n); [left | right]; reflexivity. }
  destruct (Hgen h) as [n [Hn|Hn]]; cbv zeta in Hn; rewrite Hn; cbn [fst snd].
  - apply probe_waiting.
  - apply probe_ready.
Qed.

Lemma pool_pool_run E h :
  let run := try_except (ProcessPoolExecutor E;; ret true)
               (fun e => match e with
                         | FileNotFoundError _ | PermissionError _ =>
                             Some (warning dev_shm_warning;;
                                   warning no_improvements_warning;;
                                   ret false)
                         | _ => None
                         end) h in
  pool_run (fst run) (snd run).
Proof.
  cbv zeta. unfold try_except, ProcessPoolExecutor, warning, log.
  rewrite bind_run, attempt_run, bind_run, bind_ask. cbn [fst snd].
  destruct (process_pool_answer E h) as [e|]; cbn [fst snd ret raise app].
  - destruct (pool_denied e) eqn:Hden.
    + destruct e; try discriminate Hden;
        rewrite !bind_emit; cbn [fst snd ret app];
        apply (pool_unavailable _ Hden).
    + destruct e; try discriminate Hden; cbn [fst snd raise app];
        apply (pool_error _ Hden).
  - apply pool_created.
Qed.

Lemma worker_main_worker_run E fuel dm root retry h :
  let run := worker_main E fuel dm root retry h in
  worker_run E root retry (fst run) (snd run).
Proof.
  cbv zeta. unfold worker_main. rewrite !bind_emit. cbn [fst snd].
  rewrite bind_run.
  match goal with
  | |- context [wait_for_config_server E fuel ?h'] =>
      pose proof (wait_for_config_server_probe_run E fuel h') as Hprobe;
      destruct (wait_for_config_server E fuel h') as [rp probe]
  end.
  cbn [fst snd] in *.
  destruct rp as [[]|e|]; [| inversion Hprobe | apply (worker_probing _ _ _ _ Hprobe)].
  rewrite bind_run.
  match goal with
  | |- context [try_except ?m ?hd ?h'] =>
      pose proof (pool_pool_run E h') as Hpool; cbv zeta in Hpool;
      destruct (try_except m hd h') as [rq pool]
  end.
  cbn [fst snd] in *.
  destruct rq as [task_pool|e|]; [| | inversion Hpool].
  - match goal with
    | |- context [worker_loop E fuel dm root retry task_pool false ?h'] =>
        pose proof (worker_loop_loop_run E fuel dm root retry task_pool false h') as Hloop
    end.
    cbv zeta in Hloop.
    apply (worker_looping _ _ _ _ _ _ _ _ Hprobe Hpool Hloop).
  - pose proof (worker_pool_error E root retry _ _ _ Hprobe Hpool) as H. exact H.
Qed.

(** ** Kinds of events in the runs *)

Lemma none_app p evs1 evs2 : none p (evs1 ++ evs2) = none p evs1 && none p evs2.
Proof. apply forallb_app. Qed.

Lemma none_cons p ev evs : none p (ev :: evs) = negb (p ev) && none p evs.
Proof. reflexivity. Qed.

Lemma none_not_in p evs pre ev post :
  none p evs = true -> evs = pre ++ ev :: post -> p ev = false.
Proof.
  intros Hnone ->. rewrite none_app, none_cons in Hnone.
  apply andb_prop in Hnone. destruct Hnone as [_ H].
  apply andb_prop in H. destruct H as [H _].
  destruct (p ev); [discriminate | reflexivity].
Qed.

Lemma none_calls fn evs : none (is_call fn) evs = true -> calls fn evs = [].
Proof.
  induction evs as [|ev evs IH]; [reflexivity|].
  rewrite none_cons. intros H. apply andb_prop in H. destruct H as [Hev Hrest].
  simpl. rewrite (IH Hrest), app_nil_r.
  destruct ev; try reflexivity. simpl in Hev.
  destruct (fn0 =? fn)%string; [discriminate | reflexivity].
Qed.

Lemma none_count p evs : none p evs = true -> count_events p evs = 0%nat.
Proof.
  unfold count_events. induction evs as [|ev evs IH]; [reflexivity|].
  rewrite none_cons. intros H. apply andb_prop in H. destruct H as [Hev Hrest].
  simpl. destruct (p ev); [discriminate | apply IH; exact Hrest].
Qed.

(** Splitting a trace at an event of kind [p] that follows a part without
    such events. *)
Lemma split_after_none p (a b pre post : list event) (y : event) :
  none p a = true -> p y = true ->
  a ++ b = pre ++ y :: post ->
  exists l, pre = a ++ l /\ b = l ++ y :: post.
Proof.
  revert pre. induction a as [|x a IH]; intros pre Hnone Hy Heq.
  - exists pre. auto.
  - rewrite none_cons in Hnone. apply andb_prop in Hnone. destruct Hnone as [Hx Ha].
    destruct pre as [|x' pre]; simpl in Heq; injection Heq as -> Heq.
    + rewrite Hy in Hx. discriminate.
    + destruct (IH pre Ha Hy Heq) as (l & -> & ->). exists l. auto.
Qed.

Lemma launch_run_events name args r evs :
  launch_run name args r evs -> forallb launch_event evs = true.
Proof.
  destruct 1 as [msg|pid|pid rc Hrc|pid]; try reflexivity.
  destruct (record_if_engine_cases name pid) as [-> | ->]; reflexivity.
Qed.

Lemma launch_seq_events ds r evs :
  launch_seq ds r evs -> forallb launch_event evs = true.
Proof.
  induction 1 as [|[name args] ds e evs Hone|[name args] ds evs Hone
                  |[name args] ds evs r evs' Hone Hrest IH]; simpl in *.
  - reflexivity.
  - apply (launch_run_events _ _ _ _ Hone).
  - apply (launch_run_events _ _ _ _ Hone).
  - rewrite forallb_app, (launch_run_events _ _ _ _ Hone), IH. reflexivity.
Qed.

Lemma launch_free_none p evs :
  launch_free p -> forallb launch_event evs = true -> none p evs = true.
Proof.
  intros Hfree Hall. unfold none. rewrite forallb_forall in *.
  intros ev Hin. rewrite (Hfree ev (Hall ev Hin)). reflexivity.
Qed.

Lemma launch_free_gather : launch_free is_gather.
Proof. intros [] H; try reflexivity; discriminate H. Qed.

Lemma launch_free_async_sleep : launch_free is_async_sleep.
Proof. intros [] H; try reflexivity; discriminate H. Qed.

Lemma launch_free_ping : launch_free is_ping.
Proof. intros [] H; try reflexivity; discriminate H. Qed.

Lemma launch_free_call fn : fn <> "start_daemon" -> launch_free (is_call fn).
Proof.
  intros Hne [] H; try reflexivity. simpl in *.
  apply String.eqb_eq in H. subst fn0.
  apply String.eqb_neq. congruence.
Qed.

Lemma daemons_run_none p E root r evs :
  launch_free p -> p (EvCall "start_daemons" "") = false ->
  daemons_run E root r evs -> none p evs = true.
Proof.
  intros Hfree Hcall [key | lvl r' evs' Hseq]; rewrite none_cons, Hcall; simpl.
  - reflexivity.
  - apply (launch_free_none _ _ Hfree (launch_seq_events _ _ _ Hseq)).
Qed.

Lemma daemons_run_calls E root r evs :
  daemons_run E root r evs ->
  exists rest, evs = EvCall "start_daemons" "" :: rest /\ calls "start_daemons" rest = [].
Proof.
  intros [key | lvl r' evs' Hseq].
  - exists []. auto.
  - exists evs'. split; [reflexivity|]. apply none_calls.
    apply launch_free_none; [|apply (launch_seq_events _ _ _ Hseq)].
    apply launch_free_call. discriminate.
Qed.

Lemma daemons_step_none p E root di l :
  launch_free p -> p (EvCall "start_daemons" "") = false ->
  daemons_step E root di l -> none p l = true.
Proof.
  intros Hfree Hcall [|evs Hrun]; [reflexivity|].
  apply (daemons_run_none _ _ _ _ _ Hfree Hcall Hrun).
Qed.

Lemma count_events_app p evs1 evs2 :
  count_events p (evs1 ++ evs2) = (count_events p evs1 + count_events p evs2)%nat.
Proof. unfold count_events. rewrite filter_app, length_app. reflexivity. Qed.

Lemma prelude_free_none p evs :
  prelude_free p -> forallb prelude_event evs = true -> none p evs = true.
Proof.
  intros Hfree Hall. unfold none. rewrite forallb_forall in *.
  intros ev Hin. rewrite (Hfree ev (Hall ev Hin)). reflexivity.
Qed.

Lemma probe_run_events path r evs :
  probe_run path r evs -> forallb prelude_event evs = true.
Proof.
  assert (Hf : forall n, forallb prelude_event (failed_pings path n) = true)
    by (induction n; simpl; auto).
  destruct 1; [apply Hf | rewrite forallb_app, Hf; reflexivity].
Qed.

Lemma pool_run_events r evs : pool_run r evs -> forallb prelude_event evs = true.
Proof. destruct 1; reflexivity. Qed.

Lemma prelude_free_attempt : prelude_free is_attempt.
Proof. intros [] H; try reflexivity; discriminate H. Qed.

Lemma prelude_free_gather : prelude_free is_gather.
Proof. intros [] H; try reflexivity; discriminate H. Qed.

Lemma prelude_free_async_sleep : prelude_free is_async_sleep.
Proof. intros [] H; try reflexivity; discriminate H. Qed.

Lemma prelude_free_call fn : prelude_free (is_call fn).
Proof. intros [] H; try reflexivity; discriminate H. Qed.

Lemma prelude_none p E probe r pool r' :
  prelude_free p ->
  probe_run (CONFIG_SERVER_SOCKET_PATH E) r probe -> pool_run r' pool ->
  none p (worker_intro ++ probe ++ pool) = true.
Proof.
  intros Hfree Hprobe Hpool. apply (prelude_free_none _ _ Hfree).
  rewrite !forallb_app, (probe_run_events _ _ _ Hprobe), (pool_run_events _ _ Hpool).
  reflexivity.
Qed.

(** ** The daemons are started once *)

Lemma loop_run_initialized_calls E root retry task_pool di r evs :
  loop_run E root retry task_pool di r evs ->
  di = true -> calls "start_daemons" evs = [].
Proof.
  assert (Hhead : calls "start_daemons" (attempt_head task_pool) = [])
    by (destruct task_pool; reflexivity).
  induction 1 as [di|e evs Hd|di l Hstep|di l e Hstep Hne
                  |di l r evs Hstep Hrest IH|di l r evs Hstep Hrest IH
                  |di l e Hstep];
    intros Hdi; try discriminate Hdi; subst; try reflexivity;
    inversion Hstep; subst; rewrite calls_app, Hhead; simpl;
    try reflexivity; apply IH; reflexivity.
Qed.

Lemma loop_run_first_call E root retry task_pool r evs :
  loop_run E root retry task_pool false r evs ->
  evs = [] \/
  exists rest, evs = attempt_head task_pool ++ EvCall "start_daemons" "" :: rest /\
               calls "start_daemons" rest = [].
Proof.
  inversion 1 as [di|e evs0 Hd|di l Hstep|di l e Hstep Hne
                  |di l r0 evs0 Hstep Hrest|di l r0 evs0 Hstep Hrest
                  |di l e Hstep]; subst;
    [left; reflexivity | right ..].
  - destruct (daemons_run_calls _ _ _ _ Hd) as (rest & -> & Hrest). eauto.
  - inversion Hstep as [|evs0 Hd]; subst.
    destruct (daemons_run_calls _ _ _ _ Hd) as (rest & -> & Hc).
    exists (rest ++ [EvGather GatherPending]). split; [reflexivity|].
    rewrite calls_app, Hc. reflexivity.
  - inversion Hstep as [|evs0 Hd]; subst.
    destruct (daemons_run_calls _ _ _ _ Hd) as (rest & -> & Hc).
    exists (rest ++ [EvGather (GatherRaises e)]). split; [reflexivity|].
    rewrite calls_app, Hc. reflexivity.
  - inversion Hstep as [|evs1 Hd]; subst.
    destruct (daemons_run_calls _ _ _ _ Hd) as (rest & -> & Hc).
    eexists. split; [reflexivity|].
    rewrite calls_app, Hc. simpl.
    apply (loop_run_initialized_calls _ _ _ _ _ _ _ Hrest eq_refl).
  - inversion Hstep as [|evs1 Hd]; subst.
    destruct (daemons_run_calls _ _ _ _ Hd) as (rest & -> & Hc).
    eexists. split; [reflexivity|].
    rewrite calls_app, Hc. simpl.
    apply (loop_run_initialized_calls _ _ _ _ _ _ _ Hrest eq_refl).
  - inversion Hstep as [|evs0 Hd]; subst.
    destruct (daemons_run_calls _ _ _ _ Hd) as (rest & -> & Hc).
    eexists. split; [reflexivity|].
    rewrite calls_app, Hc. reflexivity.
Qed.

(** C5: in every run of [worker_main], [start_daemons] is called at most
    once; when it is called, this happens in the first iteration of the
    retry loop (one node object was constructed, nothing was awaited yet)
    and no later iteration calls it again, however many connection losses
    follow. *)
Theorem worker_main_starts_daemons_once E fuel dm root retry h r evs :
  worker_main E fuel dm root retry h = (r, evs) ->
  (List.length (calls "start_daemons" evs) <= 1)%nat /\
  (forall pre arg post,
     evs = pre ++ EvCall "start_daemons" arg :: post ->
     count_events is_attempt pre = 1%nat /\
     count_events is_gather pre = 0%nat /\
     calls "start_daemons" post = []).
Proof.
  intros Hrun.
  pose proof (worker_main_worker_run E fuel dm root retry h) as Hshape.
  cbv zeta in Hshape. rewrite Hrun in Hshape. cbn [fst snd] in Hshape.
  assert (Hsd : forall arg, is_call "start_daemons" (EvCall "start_daemons" arg) = true)
    by reflexivity.
  destruct Hshape as [probe Hprobe | probe e pool Hprobe Hpool
                     | probe task_pool pool r evs Hprobe Hpool Hloop].
  - assert (Hnone' : none (is_call "start_daemons") (worker_intro ++ probe) = true).
    { apply (prelude_free_none _ _ (prelude_free_call _)).
      rewrite forallb_app, (probe_run_events _ _ _ Hprobe). reflexivity. }
    split; [rewrite (none_calls _ _ Hnone'); simpl; lia|].
    intros pre arg post Heq.
    pose proof (none_not_in _ _ _ _ _ Hnone' Heq) as Hc. rewrite Hsd in Hc. discriminate.
  - pose proof (prelude_none _ E probe _ pool _ (prelude_free_call "start_daemons")
                  Hprobe Hpool) as Hnone.
    split; [rewrite (none_calls _ _ Hnone); simpl; lia|].
    intros pre arg post Heq.
    pose proof (none_not_in _ _ _ _ _ Hnone Heq) as Hc. rewrite Hsd in Hc. discriminate.
  - pose proof (fun p Hp => prelude_none p E probe _ pool _ Hp Hprobe Hpool) as Hnone.
    set (W := worker_intro ++ probe ++ pool) in *.
    replace (worker_intro ++ probe ++ pool ++ evs) with (W ++ evs)
      by (unfold W; rewrite <- !app_assoc; reflexivity).
    destruct (loop_run_first_call _ _ _ _ _ _ Hloop) as [-> | (rest & -> & Hrest)].
    + rewrite app_nil_r.
      pose proof (Hnone _ (prelude_free_call "start_daemons")) as HW.
      split; [rewrite (none_calls _ _ HW); simpl; lia|].
      intros pre arg post Heq.
      pose proof (none_not_in _ _ _ _ _ HW Heq) as Hc. rewrite Hsd in Hc. discriminate.
    + assert (HWc : calls "start_daemons" (W ++ attempt_head task_pool) = []).
      { rewrite calls_app, (none_calls _ _ (Hnone _ (prelude_free_call "start_daemons"))).
        destruct task_pool; reflexivity. }
      split.
      * rewrite app_assoc, calls_app, HWc. simpl. rewrite Hrest. simpl. lia.
      * intros pre arg post Heq. rewrite app_assoc in Heq.
        assert (HWn : none (is_call "start_daemons") (W ++ attempt_head task_pool) = true).
        { rewrite none_app, (Hnone _ (prelude_free_call "start_daemons")).
          destruct task_pool; reflexivity. }
        destruct (split_after_none _ _ _ _ _ _ HWn (Hsd arg) Heq) as (l & -> & Hl).
        destruct l as [|x l]; simpl in Hl.
        -- injection Hl as _ <-. rewrite app_nil_r.
           rewrite !count_events_app,
             (none_count _ _ (Hnone _ prelude_free_attempt)),
             (none_count _ _ (Hnone _ prelude_free_gather)).
           split; [destruct task_pool; reflexivity|].
           split; [destruct task_pool; reflexivity | exact Hrest].
        -- injection Hl as _ ->. rewrite calls_app in Hrest. simpl in Hrest.
           destruct (calls "start_daemons" l); discriminate Hrest.
Qed.

Lemma worker_main_starts_daemons_once_witness :
  calls "start_daemons" (snd (worker_main env_two_losses 5 0 false 10 [])) = [""] /\
  count_events is_gather (snd (worker_main env_two_losses 5 0 false 10 [])) = 3%nat.
Proof.
  pose (run3 := worker_main env_two_losses 5 0 false 10 []).
  destruct (worker_main_starts_daemons_once env_two_losses 5 0%Z false 10%Z []
              (fst run3) (snd run3) (surjective_pairing run3)) as (Hle & Hpos).
  split; [|vm_compute; reflexivity].
  destruct (calls "start_daemons" (snd run3)) as [|a [|b l]] eqn:Hc.
  - vm_compute in Hc. discriminate Hc.
  - vm_compute in Hc. injection Hc as <-. reflexivity.
  - simpl in Hle. lia.
Defined.

(** ** Retrying on connection loss only *)

Lemma loop_run_begins E root retry task_pool di r evs :
  loop_run E root retry task_pool di r evs ->
  (evs = [] /\ r = Diverge) \/ exists rest, evs = EvNewNode "Worker" task_pool :: rest.
Proof. destruct 1; [left; auto | right; eexists; reflexivity ..]. Qed.

Lemma attempt_none_gather E root task_pool di l :
  daemons_step E root di l -> none is_gather (attempt_head task_pool ++ l) = true.
Proof.
  intros Hstep. rewrite none_app.
  rewrite (daemons_step_none _ _ _ _ _ launch_free_gather eq_refl Hstep).
  destruct task_pool; reflexivity.
Qed.

Lemma attempt_none_async_sleep E root task_pool di l :
  daemons_step E root di l -> none is_async_sleep (attempt_head task_pool ++ l) = true.
Proof.
  intros Hstep. rewrite none_app.
  rewrite (daemons_step_none _ _ _ _ _ launch_free_async_sleep eq_refl Hstep).
  destruct task_pool; reflexivity.
Qed.

Lemma loop_run_gather_raises E root retry task_pool di r evs :
  loop_run E root retry task_pool di r evs ->
  forall pre e post,
    evs = pre ++ EvGather (GatherRaises e) :: post ->
    (e = CancelledError ->
       exists s rest, post = reconnect_line :: EvAsyncSleep retry s :: rest /\
         match s with
         | Some e' => rest = [] /\ r = Raise e'
         | None => (rest = [] /\ r = Diverge) \/
                   exists rest', rest = EvNewNode "Worker" task_pool :: rest'
         end) /\
    (e <> CancelledError -> post = [] /\ r = Raise e).
Proof.
  induction 1 as [di|e0 evs Hd|di l Hstep|di l e0 Hstep Hne
                  |di l r evs Hstep Hrest IH|di l r evs Hstep Hrest IH
                  |di l e0 Hstep];
    intros pre e post Heq.
  - destruct pre; discriminate Heq.
  - assert (Hnone : none is_gather (attempt_head task_pool ++ evs) = true).
    { rewrite none_app, (daemons_run_none _ _ _ _ _ launch_free_gather eq_refl Hd).
      destruct task_pool; reflexivity. }
    pose proof (none_not_in _ _ _ _ _ Hnone Heq) as Hc. discriminate Hc.
  - rewrite app_assoc in Heq.
    destruct (split_after_none is_gather _ _ _ _ (EvGather (GatherRaises e))
                (attempt_none_gather _ _ task_pool _ _ Hstep)
                eq_refl Heq) as (l0 & -> & Hl).
    destruct l0 as [|x l0]; [discriminate Hl|].
    destruct l0; discriminate Hl.
  - rewrite app_assoc in Heq.
    destruct (split_after_none is_gather _ _ _ _ (EvGather (GatherRaises e))
                (attempt_none_gather _ _ task_pool _ _ Hstep)
                eq_refl Heq) as (l0 & -> & Hl).
    destruct l0 as [|x l0]; [|destruct l0; discriminate Hl].
    injection Hl as -> <-. split; [intros Hc; contradiction | auto].
  - rewrite app_assoc in Heq.
    destruct (split_after_none is_gather _ _ _ _ (EvGather (GatherRaises e))
                (attempt_none_gather _ _ task_pool _ _ Hstep)
                eq_refl Heq) as (l0 & -> & Hl).
    destruct l0 as [|x l0].
    + injection Hl as <- <-. split; [|intros Hc; destruct (Hc eq_refl)].
      intros _. exists None, evs. split; [reflexivity|].
      destruct (loop_run_begins _ _ _ _ _ _ _ Hrest) as [[-> ->]|[rest ->]]; eauto.
    + injection Hl as _ Hl.
      destruct l0 as [|y l0]; [discriminate Hl|]. injection Hl as _ Hl.
      destruct l0 as [|z l0]; [discriminate Hl|]. injection Hl as _ Hl.
      apply (IH _ _ _ Hl).
  - rewrite app_assoc in Heq.
    destruct (split_after_none is_gather _ _ _ _ (EvGather (GatherRaises e))
                (attempt_none_gather _ _ task_pool _ _ Hstep)
                eq_refl Heq) as (l0 & -> & Hl).
    destruct l0 as [|x l0]; [discriminate Hl|].
    injection Hl as _ Hl. apply (IH _ _ _ Hl).
  - rewrite app_assoc in Heq.
    destruct (split_after_none is_gather _ _ _ _ (EvGather (GatherRaises e))
                (attempt_none_gather _ _ task_pool _ _ Hstep)
                eq_refl Heq) as (l0 & -> & Hl).
    destruct l0 as [|x l0].
    + injection Hl as <- <-. split; [|intros Hc; destruct (Hc eq_refl)].
      intros _. exists (Some e0), []. auto.
    + injection Hl as _ Hl.
      destruct l0 as [|y l0]; [discriminate Hl|]. injection Hl as _ Hl.
      destruct l0 as [|z l0]; [discriminate Hl|]. injection Hl as _ Hl.
      destruct l0; discriminate Hl.
Qed.

Lemma loop_run_sleeps E root retry task_pool di r evs :
  loop_run E root retry task_pool di r evs ->
  forall pre secs s post,
    evs = pre ++ EvAsyncSleep secs s :: post ->
    secs = retry /\
    exists pre', pre = pre' ++ [EvGather (GatherRaises CancelledError); reconnect_line].
Proof.
  induction 1 as [di|e0 evs Hd|di l Hstep|di l e0 Hstep Hne
                  |di l r evs Hstep Hrest IH|di l r evs Hstep Hrest IH
                  |di l e0 Hstep];
    intros pre secs s post Heq.
  - destruct pre; discriminate Heq.
  - assert (Hnone : none is_async_sleep (attempt_head task_pool ++ evs) = true).
    { rewrite none_app, (daemons_run_none _ _ _ _ _ launch_free_async_sleep eq_refl Hd).
      destruct task_pool; reflexivity. }
    pose proof (none_not_in _ _ _ _ _ Hnone Heq) as Hc. discriminate Hc.
  - rewrite app_assoc in Heq.
    destruct (split_after_none is_async_sleep _ _ _ _ (EvAsyncSleep secs s)
                (attempt_none_async_sleep _ _ task_pool _ _ Hstep)
                eq_refl Heq) as (l0 & -> & Hl).
    destruct l0 as [|x l0]; [discriminate Hl|]. destruct l0; discriminate Hl.
  - rewrite app_assoc in Heq.
    destruct (split_after_none is_async_sleep _ _ _ _ (EvAsyncSleep secs s)
                (attempt_none_async_sleep _ _ task_pool _ _ Hstep)
                eq_refl Heq) as (l0 & -> & Hl).
    destruct l0 as [|x l0]; [discriminate Hl|]. destruct l0; discriminate Hl.
  - rewrite app_assoc in Heq.
    destruct (split_after_none is_async_sleep _ _ _ _ (EvAsyncSleep secs s)
                (attempt_none_async_sleep _ _ task_pool _ _ Hstep)
                eq_refl Heq) as (l0 & -> & Hl).
    destruct l0 as [|x l0]; [discriminate Hl|]. injection Hl as <- Hl.
    destruct l0 as [|y l0]; [discriminate Hl|]. injection Hl as <- Hl.
    destruct l0 as [|z l0].
    + injection Hl as <- _ _. split; [reflexivity|].
      exists (attempt_head task_pool ++ l). rewrite <- !app_assoc. reflexivity.
    + injection Hl as <- Hl.
      destruct (IH _ _ _ _ Hl) as (-> & pre' & ->). split; [reflexivity|].
      exists ((attempt_head task_pool ++ l)
                ++ EvGather (GatherRaises CancelledError) :: reconnect_line
                     :: EvAsyncSleep retry None :: pre').
      rewrite <- !app_assoc. reflexivity.
  - rewrite app_assoc in Heq.
    destruct (split_after_none is_async_sleep _ _ _ _ (EvAsyncSleep secs s)
                (attempt_none_async_sleep _ _ task_pool _ _ Hstep)
                eq_refl Heq) as (l0 & -> & Hl).
    destruct l0 as [|x l0]; [discriminate Hl|]. injection Hl as <- Hl.
    destruct (IH _ _ _ _ Hl) as (-> & pre' & ->). split; [reflexivity|].
    exists ((attempt_head task_pool ++ l) ++ EvGather GatherDone :: pre').
    rewrite <- !app_assoc. reflexivity.
  - rewrite app_assoc in Heq.
    destruct (split_after_none is_async_sleep _ _ _ _ (EvAsyncSleep secs s)
                (attempt_none_async_sleep _ _ task_pool _ _ Hstep)
                eq_refl Heq) as (l0 & -> & Hl).
    destruct l0 as [|x l0]; [discriminate Hl|]. injection Hl as <- Hl.
    destruct l0 as [|y l0]; [discriminate Hl|]. injection Hl as <- Hl.
    destruct l0 as [|z l0]; [|injection Hl as _ Hl; destruct l0; discriminate Hl].
    injection Hl as <- _ _. split; [reflexivity|].
    exists (attempt_head task_pool ++ l). rewrite <- !app_assoc. reflexivity.
Qed.

(** C4: in [worker_main], an await of the two tasks that raises
    [asyncio.CancelledError] (the connection was lost) is followed by the
    reconnect notice and one sleep of the configured retry interval.  When
    the sleep elapses, the next iteration of the loop begins, with the
    construction of a new worker node: the context tag, the listener and
    the readiness loop, which stand before the loop, are not repeated.
    When the sleep is itself interrupted, the exception raised there ends
    [worker_main] and propagates.  An await that raises anything else is
    the last thing [worker_main] does, and that exception propagates.  No
    sleep of the retry loop happens for any other reason. *)
Theorem worker_main_retries_only_on_connection_loss E fuel dm root retry h r evs :
  worker_main E fuel dm root retry h = (r, evs) ->
  (forall pre e post,
     evs = pre ++ EvGather (GatherRaises e) :: post ->
     (e = CancelledError ->
        exists s rest, post = reconnect_line :: EvAsyncSleep retry s :: rest /\
          match s with
          | Some e' => rest = [] /\ r = Raise e'
          | None => (rest = [] /\ r = Diverge) \/
                    exists task_pool rest', rest = EvNewNode "Worker" task_pool :: rest'
          end) /\
     (e <> CancelledError -> post = [] /\ r = Raise e)) /\
  (forall pre secs s post,
     evs = pre ++ EvAsyncSleep secs s :: post ->
     secs = retry /\
     exists pre', pre = pre' ++ [EvGather (GatherRaises CancelledError); reconnect_line]).
Proof.
  intros Hrun.
  pose proof (worker_main_worker_run E fuel dm root retry h) as Hshape.
  cbv zeta in Hshape. rewrite Hrun in Hshape. cbn [fst snd] in Hshape.
  assert (Hcase :
    (forall p, prelude_free p -> none p evs = true) \/
    exists W task_pool loop,
      evs = W ++ loop /\ (forall p, prelude_free p -> none p W = true) /\
      loop_run E root retry task_pool false r loop).
  { destruct Hshape as [probe Hprobe | probe e pool Hprobe Hpool
                       | probe task_pool pool r evs Hprobe Hpool Hloop].
    - left. intros p Hp. apply (prelude_free_none _ _ Hp).
      rewrite forallb_app, (probe_run_events _ _ _ Hprobe). reflexivity.
    - left. intros p Hp. apply (prelude_none _ _ _ _ _ _ Hp Hprobe Hpool).
    - right. exists (worker_intro ++ probe ++ pool), task_pool, evs.
      split; [rewrite <- !app_assoc; reflexivity|].
      split; [|exact Hloop].
      intros p Hp. apply (prelude_none _ _ _ _ _ _ Hp Hprobe Hpool). }
  destruct Hcase as [Hnone | (W & task_pool & loop & -> & HW & Hloop)].
  - split.
    + intros pre e post Heq.
      pose proof (none_not_in _ _ _ _ _ (Hnone _ prelude_free_gather) Heq) as Hc.
      discriminate Hc.
    + intros pre secs s post Heq.
      pose proof (none_not_in _ _ _ _ _ (Hnone _ prelude_free_async_sleep) Heq) as Hc.
      discriminate Hc.
  - split.
    + intros pre e post Heq.
      destruct (split_after_none is_gather _ _ _ _ (EvGather (GatherRaises e))
                  (HW _ prelude_free_gather) eq_refl Heq)
        as (l & -> & Hl).
      destruct (loop_run_gather_raises _ _ _ _ _ _ _ Hloop _ _ _ Hl) as (Hlost & Hfatal).
      split; [|exact Hfatal].
      intros He. destruct (Hlost He) as (s & rest & -> & Hs).
      exists s, rest. split; [reflexivity|].
      destruct s as [e'|]; [exact Hs|].
      destruct Hs as [Hd|(rest' & ->)]; [left; exact Hd | right; eauto].
    + intros pre secs s post Heq.
      destruct (split_after_none is_async_sleep _ _ _ _ (EvAsyncSleep secs s)
                  (HW _ prelude_free_async_sleep) eq_refl Heq)
        as (l & -> & Hl).
      destruct (loop_run_sleeps _ _ _ _ _ _ _ Hloop _ _ _ _ Hl) as (-> & pre' & ->).
      split; [reflexivity|]. exists (W ++ pre'). rewrite <- app_assoc. reflexivity.
Qed.

Lemma worker_main_retries_only_on_connection_loss_witness :
  fst (worker_main env_two_losses 5 0 false 10 []) = Raise (PyException "boom") /\
  count_events is_async_sleep (snd (worker_main env_two_losses 5 0 false 10 [])) = 2%nat /\
  fst (worker_main env_sleep_interrupted 5 0 false 10 []) = Raise KeyboardInterrupt.
Proof.
  pose (run3 := worker_main env_two_losses 5 0 false 10 []).
  pose (run4 := worker_main env_sleep_interrupted 5 0 false 10 []).
  destruct (worker_main_retries_only_on_connection_loss env_two_losses 5 0%Z false 10%Z []
              (fst run3) (snd run3) (surjective_pairing run3)) as (Hraise & _).
  destruct (worker_main_retries_only_on_connection_loss env_sleep_interrupted 5 0%Z false
              10%Z [] (fst run4) (snd run4) (surjective_pairing run4)) as (Hlost & _).
  split; [|split; [vm_compute; reflexivity|]].
  - destruct (Hraise (removelast (snd run3)) (PyException "boom") []) as (_ & Hfatal);
      [vm_compute; reflexivity|].
    destruct Hfatal as (_ & Hr); [discriminate | exact Hr].
  - destruct (Hlost (firstn 26 (snd run4)) CancelledError (skipn 27 (snd run4)))
      as (Hl & _); [vm_compute; reflexivity|].
    destruct (Hl eq_refl) as (s & rest & Hpost & Hs).
    vm_compute in Hpost. injection Hpost as <- <-.
    destruct Hs as (_ & Hr). exact Hr.
Defined.

(** C4, as the spec states it ("a repeat from step 1"), fails: with
    two connection losses the worker sleeps twice and makes three
    attempts, yet the context tag is set, the listener started and the
    configuration channel polled only once: each retry resumes at the
    construction of the node, which follows the sleep directly. *)
Lemma retry_does_not_repeat_from_step_1 :
  let evs := snd (worker_main env_two_losses 5 0 false 10 []) in
  count_events is_async_sleep evs = 2%nat /\
  count_events is_attempt evs = 3%nat /\
  count_events is_step_1 evs = 3%nat /\
  forallb is_step_1 (firstn 3 evs) = true /\
  next_after is_async_sleep evs
  = [Some (EvNewNode "Worker" true); Some (EvNewNode "Worker" true)].
Proof. vm_compute. repeat split. Qed.

(** ** The readiness probe *)

Lemma loop_run_none_ping E root retry task_pool di r evs :
  loop_run E root retry task_pool di r evs -> none is_ping evs = true.
Proof.
  assert (Hhead : none is_ping (attempt_head task_pool) = true)
    by (destruct task_pool; reflexivity).
  induction 1 as [di|e0 evs Hd|di l Hstep|di l e0 Hstep Hne
                  |di l r evs Hstep Hrest IH|di l r evs Hstep Hrest IH
                  |di l e0 Hstep];
    rewrite ?none_app, ?Hhead;
    try rewrite (daemons_step_none _ _ _ _ _ launch_free_ping eq_refl Hstep);
    try rewrite (daemons_run_none _ _ _ _ _ launch_free_ping eq_refl Hd);
    simpl; try reflexivity; exact IH.
Qed.

(** C2, as the code has it: the configuration channel is probed before
    the retry loop only.  Whenever [worker_main] constructs the network and
    local-control processes, the probe that found the channel ready lies
    before that construction, and nothing after the first construction
    probes the channel again: an iteration that follows a connection loss
    starts without a new probe. *)
Theorem worker_main_probes_before_the_loop_only E fuel dm root retry h r evs :
  worker_main E fuel dm root retry h = (r, evs) ->
  forall pre cls task_pool post,
    evs = pre ++ EvNewNode cls task_pool :: post ->
    In (EvPing (CONFIG_SERVER_SOCKET_PATH E) true) pre /\ none is_ping post = true.
Proof.
  intros Hrun pre cls tp post Heq.
  pose proof (worker_main_worker_run E fuel dm root retry h) as Hshape.
  cbv zeta in Hshape. rewrite Hrun in Hshape. cbn [fst snd] in Hshape.
  destruct Hshape as [probe Hprobe | probe e pool Hprobe Hpool
                     | probe task_pool pool r evs Hprobe Hpool Hloop].
  - assert (Hnone : none is_attempt (worker_intro ++ probe) = true).
    { apply (prelude_free_none _ _ prelude_free_attempt).
      rewrite forallb_app, (probe_run_events _ _ _ Hprobe). reflexivity. }
    pose proof (none_not_in _ _ _ _ _ Hnone Heq) as Hc. discriminate Hc.
  - pose proof (prelude_none _ _ _ _ _ _ prelude_free_attempt Hprobe Hpool) as Hnone.
    pose proof (none_not_in _ _ _ _ _ Hnone Heq) as Hc. discriminate Hc.
  - pose proof (prelude_none _ _ _ _ _ _ prelude_free_attempt Hprobe Hpool) as Hnone.
    rewrite !app_assoc in Heq. rewrite <- (app_assoc worker_intro) in Heq.
    destruct (split_after_none is_attempt _ _ _ _ (EvNewNode cls tp) Hnone eq_refl Heq)
      as (l & -> & Hl).
    split.
    + apply in_or_app. left. apply in_or_app. right. apply in_or_app. left.
      inversion Hprobe; subst. apply in_or_app. right. simpl. auto.
    + pose proof (loop_run_none_ping _ _ _ _ _ _ _ Hloop) as Hping.
      rewrite Hl, none_app, none_cons in Hping.
      apply andb_prop in Hping. destruct Hping as [_ Hping].
      apply andb_prop in Hping. destruct Hping as [_ Hping]. exact Hping.
Qed.

Lemma worker_main_probes_before_the_loop_only_witness :
  none is_ping
    (skipn 5 (snd (worker_main env_two_losses 5 0 false 10 []))) = true.
Proof.
  pose (run3 := worker_main env_two_losses 5 0 false 10 []).
  apply (worker_main_probes_before_the_loop_only env_two_losses 5 0%Z false 10%Z []
           (fst run3) (snd run3) (surjective_pairing run3)
           (firstn 4 (snd run3)) "Worker" true).
  vm_compute. reflexivity.
Defined.

(** C2, as the spec states it, fails: with two connection losses the
    channel is probed once, and the second and third attempts are made
    without a probe. *)
Lemma worker_main_reconnects_without_probe :
  probed_before_each_attempt false
    (snd (worker_main env_two_losses 5 0 false 10 [])) = false /\
  count_events is_ping (snd (worker_main env_two_losses 5 0 false 10 [])) = 1%nat /\
  count_events is_attempt (snd (worker_main env_two_losses 5 0 false 10 [])) = 3%nat.
Proof. vm_compute. repeat split; reflexivity. Qed.

(** ** Programs that emit events of one kind only *)

Section EmitsOnly.

Variable q : event -> bool.

Lemma emits_only_ret {A} (a : A) : emits_only q (ret a).
Proof. intros h. reflexivity. Qed.

Lemma emits_only_raise {A} (e : exn) : emits_only q (@raise A e).
Proof. intros h. reflexivity. Qed.

Lemma emits_only_diverge {A} : emits_only q (@diverge A).
Proof. intros h. reflexivity. Qed.

Lemma emits_only_emit ev : q ev = true -> emits_only q (emit ev).
Proof. intros Hq h. simpl. rewrite Hq. reflexivity. Qed.

Lemma emits_only_ask {R} (answer : history -> R) (record : R -> event) :
  (forall r, q (record r) = true) -> emits_only q (ask answer record).
Proof. intros Hq h. simpl. rewrite Hq. reflexivity. Qed.

Lemma emits_only_bind {A B} (m : M A) (k : A -> M B) :
  emits_only q m -> (forall a, emits_only q (k a)) -> emits_only q (bind m k).
Proof.
  intros Hm Hk h. rewrite bind_run. specialize (Hm h).
  destruct (fst (m h)) as [a|e|]; cbn [snd]; try exact Hm.
  rewrite forallb_app, Hm. apply Hk.
Qed.

Lemma emits_only_attempt {A} (m : M A) : emits_only q m -> emits_only q (attempt m).
Proof. intros Hm h. rewrite attempt_run. apply Hm. Qed.

Lemma emits_only_try_except {A} (m : M A) (handler : exn -> option (M A)) :
  emits_only q m ->
  (forall e k, handler e = Some k -> emits_only q k) ->
  emits_only q (try_except m handler).
Proof.
  intros Hm Hh. unfold try_except.
  apply emits_only_bind; [apply emits_only_attempt; exact Hm|].
  intros [e|a]; [|apply emits_only_ret].
  destruct (handler e) as [k|] eqn:Hk; [apply (Hh e k Hk) | apply emits_only_raise].
Qed.

Lemma emits_only_for_each {A} (xs : list A) (body : A -> M unit) :
  (forall x, emits_only q (body x)) -> emits_only q (for_each xs body).
Proof.
  intros Hbody. induction xs as [|x xs IH]; simpl.
  - apply emits_only_ret.
  - apply emits_only_bind; [apply Hbody | intros _; exact IH].
Qed.

Lemma emits_only_while fuel (cond : M bool) (body : M unit) :
  emits_only q cond -> emits_only q body -> emits_only q (while fuel cond body).
Proof.
  intros Hc Hb. induction fuel as [|fuel IH].
  - apply emits_only_diverge.
  - rewrite while_step. apply emits_only_bind; [exact Hc|].
    intros [|]; [|apply emits_only_ret].
    apply emits_only_bind; [exact Hb | intros _; exact IH].
Qed.

End EmitsOnly.

Create HintDb role_events.

Ltac emits_only_step :=
  first
    [ solve [auto with role_events]
    | apply emits_only_ret
    | apply emits_only_raise
    | apply emits_only_diverge
    | apply emits_only_emit; reflexivity
    | apply emits_only_ask; intros; reflexivity
    | apply emits_only_try_except;
      [| let e := fresh "e" in
         let k := fresh "k" in
         let Hk := fresh "Hk" in
         intros e k Hk; destruct e;
         cbv beta iota delta [is_Exception] in Hk;
         first [discriminate Hk | injection Hk as <-] ]
    | apply emits_only_bind; [|intros]
    | apply emits_only_attempt
    | apply emits_only_for_each; intros
    | apply emits_only_while ].

Ltac emits_only_case :=
  match goal with
  | |- emits_only _ (match ?x with _ => _ end) => destruct x
  end.

Ltac emits_only_steps := repeat (emits_only_step || emits_only_case).

Lemma start_daemon_role_events E name args :
  emits_only role_event (start_daemon E name args).
Proof.
  unfold start_daemon, info, log, Popen, p_wait, start_daemon_except, create_pid.
  emits_only_steps.
Qed.
#[local] Hint Resolve start_daemon_role_events : role_events.

Lemma start_daemons_role_events E dm root :
  emits_only role_event (start_daemons E dm root).
Proof. unfold start_daemons, engine_log_level. emits_only_steps. Qed.
#[local] Hint Resolve start_daemons_role_events : role_events.

Lemma wait_for_config_server_role_events E fuel :
  emits_only role_event (wait_for_config_server E fuel).
Proof.
  unfold wait_for_config_server, ping_unix_socket, info, log, time_sleep.
  emits_only_steps.
Qed.
#[local] Hint Resolve wait_for_config_server_role_events : role_events.

Lemma gather_role_events E : emits_only role_event (gather E).
Proof. unfold gather. emits_only_steps. Qed.
#[local] Hint Resolve gather_role_events : role_events.

Lemma master_main_role_events E fuel dm root :
  emits_only role_event (master_main E fuel dm root).
Proof. unfold master_main. emits_only_steps. Qed.
#[local] Hint Resolve master_main_role_events : role_events.

Lemma worker_loop_role_events E fuel dm root retry task_pool di :
  emits_only role_event (worker_loop E fuel dm root retry task_pool di).
Proof.
  revert di. induction fuel as [|fuel IH]; intros di; cbn [worker_loop].
  - apply emits_only_diverge.
  - unfold worker_except, log, asyncio_sleep. emits_only_steps.
Qed.
#[local] Hint Resolve worker_loop_role_events : role_events.

Lemma worker_main_role_events E fuel dm root retry :
  emits_only role_event (worker_main E fuel dm root retry).
Proof.
  unfold worker_main, ProcessPoolExecutor, warning, log. emits_only_steps.
Qed.
#[local] Hint Resolve worker_main_role_events : role_events.

Lemma role_free_none p evs :
  role_free p -> forallb role_event evs = true -> none p evs = true.
Proof.
  intros Hfree Hall. unfold none. rewrite forallb_forall in *.
  intros ev Hin. rewrite (Hfree ev (Hall ev Hin)). reflexivity.
Qed.

Lemma role_free_reap : role_free is_reap.
Proof. intros [] H; try reflexivity; discriminate H. Qed.

Lemma role_free_shutdown_call : role_free (is_call "shutdown_server").
Proof.
  intros [] H; try reflexivity; try discriminate H. simpl in *.
  apply orb_prop in H. destruct H as [H|H]; apply String.eqb_eq in H; subst; reflexivity.
Qed.

(** ** [start] and [stop] *)

Lemma start_except_log e k :
  start_except e = Some k -> exists lvl msg, k = log main_logger lvl msg.
Proof.
  destruct e; simpl; intros H; try discriminate H; injection H as <-;
    eexists _, _; reflexivity.
Qed.

Lemma start_run_events E r evs evs' :
  start_run E r evs -> evs = evs' -> start_run E r evs'.
Proof. intros H <-. exact H. Qed.

Lemma finally_step E fuel server_pid (rh : outcome unit) (hd : history) :
  rh <> Diverge ->
  exists rs down,
    shutdown_run E hd server_pid rs down /\
    (shutdown_server E fuel server_pid;;
     match rh with Ret a => ret a | Raise e => raise e | Diverge => diverge end) hd
    = (finally_outcome rh rs, down).
Proof.
  intros Hnd. rewrite bind_run.
  pose proof (shutdown_server_shutdown_run E fuel server_pid hd) as Hs.
  destruct (shutdown_server E fuel server_pid hd) as [rs down]. cbn [fst snd] in *.
  exists rs, down. split; [exact Hs|].
  destruct rs as [[]|e|]; cbn [finally_outcome]; try reflexivity.
  destruct rh as [[]|e|]; cbn [fst snd ret raise diverge]; rewrite ?app_nil_r;
    reflexivity.
Qed.

Lemma run_phase_cases E fuel server_pid (main : M unit) h :
  emits_only role_event main ->
  let run := try_finally
               (try_except
                  (emit (EvExt "asyncio.new_event_loop()");;
                   emit (EvExt "loop.create_task(get_orders(main_logger))");;
                   main)
                  start_except)
               (shutdown_server E fuel server_pid) h in
  (fst run = Diverge /\ forallb role_event (snd run) = true) \/
  exists role rr rh handled h' rs down,
    forallb role_event role = true /\ In new_event_loop role /\
    except_run rr rh handled /\ shutdown_run E h' server_pid rs down /\
    run = (finally_outcome rh rs, role ++ handled ++ down).
Proof.
  intros Hmain. cbv zeta. unfold try_finally, try_except.
  rewrite bind_run, attempt_run, bind_run, attempt_run, !bind_emit. cbn [fst snd].
  set (h3 := (h ++ [EvExt "asyncio.new_event_loop()"])
               ++ [EvExt "loop.create_task(get_orders(main_logger))"]).
  specialize (Hmain h3).
  destruct (main h3) as [rr role]. cbn [fst snd] in *.
  set (intro := EvExt "asyncio.new_event_loop()"
                :: EvExt "loop.create_task(get_orders(main_logger))" :: role).
  assert (Hrole : forallb role_event intro = true) by (simpl; exact Hmain).
  assert (Hin : In new_event_loop intro) by (left; reflexivity).
  destruct rr as [[]|e|]; cbn [fst snd ret app].
  - match goal with
    | |- context [bind (shutdown_server E fuel server_pid) _ ?hd] =>
        destruct (finally_step E fuel server_pid (Ret tt) hd) as (rs & down & Hs & Heq);
          [discriminate|]
    end.
    cbv beta iota in Heq. rewrite Heq. right.
    eexists intro, (Ret tt), (Ret tt), [], _, rs, down.
    split; [exact Hrole|]. split; [exact Hin|]. split; [constructor|].
    split; [exact Hs|]. rewrite app_nil_r. reflexivity.
  - destruct (start_except e) as [k|] eqn:Hk.
    + destruct (start_except_log _ _ Hk) as (lvl & msg & ->).
      cbn [log emit fst snd].
      match goal with
      | |- context [bind (shutdown_server E fuel server_pid) _ ?hd] =>
          destruct (finally_step E fuel server_pid (Ret tt) hd) as (rs & down & Hs & Heq);
            [discriminate|]
      end.
      cbv beta iota in Heq. rewrite Heq. right.
      eexists intro, (Raise e), (Ret tt), [EvLog main_logger lvl msg], _, rs, down.
      split; [exact Hrole|]. split; [exact Hin|].
      split; [apply except_handled; exact Hk|].
      split; [exact Hs|]. rewrite <- app_assoc. reflexivity.
    + cbn [raise fst snd].
      match goal with
      | |- context [bind (shutdown_server E fuel server_pid) _ ?hd] =>
          destruct (finally_step E fuel server_pid (Raise e) hd) as (rs & down & Hs & Heq);
            [discriminate|]
      end.
      cbv beta iota in Heq. rewrite Heq. right.
      eexists intro, (Raise e), (Raise e), [], _, rs, down.
      split; [exact Hrole|]. split; [exact Hin|].
      split; [apply except_unhandled; exact Hk|].
      split; [exact Hs|]. rewrite app_nil_r. reflexivity.
  - left. split; [reflexivity | exact Hrole].
Qed.





Ltac prefix_of l :=
  match l with
  | snd _ => constr:(@nil event)
  | ?a :: ?rest => let r := prefix_of rest in constr:(a :: r)
  end.

Lemma start_start_run E fuel dm root h :
  start_run E (fst (start E fuel dm root h)) (snd (start E fuel dm root h)).
Proof.
  unfold start.
  match goal with |- context [bind ?m ?k h] => set (P1 := m); set (K1 := k) end.
  assert (H1 :
    (exists pid, pid <> 0%Z /\
       P1 h = (Raise (SystemExit 1), [EvServerPid (inr pid); already_running_line pid])) \/
    (exists e, e <> StopIteration /\ P1 h = (Raise e, [EvServerPid (inl e)])) \/
    (exists lookup, lookup_passed lookup /\ P1 h = (Ret tt, [EvServerPid lookup]))).
  { unfold P1, try_except, get_wazuh_server_pid, print, sys_exit.
    cbv [bind attempt ask emit ret raise].
    destruct (wazuh_server_pid E h) as [e|pid]; cbn.
    - assert (He : e = StopIteration \/ e <> StopIteration)
        by (destruct e; auto; right; discriminate).
      destruct He as [->|He].
      + right. right. exists (inl StopIteration). split; [left|]; reflexivity.
      + right. left. exists e. split; [exact He|]. destruct e; try reflexivity.
        contradiction.
    - destruct (Z.eqb_spec pid 0) as [->|Hpid]; cbn.
      + right. right. exists (inr 0%Z). split; [right|]; reflexivity.
      + left. exists pid. split; [exact Hpid | reflexivity]. }
  rewrite bind_run.
  destruct H1 as [(pid & Hpid & ->)|[(e & He & ->)|(lookup & Hl & ->)]]; cbn [fst snd].
  - apply start_already_running; exact Hpid.
  - apply start_lookup_error; exact He.
  - unfold K1. clear P1 K1.
    set (h1 := h ++ [EvServerPid lookup]).
    match goal with |- context [bind ?m ?k h1] => set (P2 := m); set (K2 := k) end.
    assert (H2 :
      (exists e, is_Exception e = true /\
         P2 h1 = (Raise (SystemExit 1),
                  [EvGetServerConfig (inl e); EvLog main_logger ERROR (exn_str e)])) \/
      (exists e, is_Exception e = false /\ P2 h1 = (Raise e, [EvGetServerConfig (inl e)])) \/
      (exists cfg, P2 h1 = (Ret cfg, [EvGetServerConfig (inr cfg)]))).
    { unfold P2, try_except, get_server_config, error, log, sys_exit.
      cbv [bind attempt ask emit ret raise].
      destruct (server_config_answer E h1) as [e|cfg]; cbn.
      - destruct (is_Exception e) eqn:He; cbn; [left | right; left]; eauto.
      - right. right. eauto. }
    rewrite bind_run.
    destruct H2 as [(e & He & ->)|[(e & He & ->)|(cfg & ->)]]; cbn [fst snd app].
    + apply start_config_error; assumption.
    + apply start_config_interrupted; assumption.
    + unfold K2. clear P2 K2.
      assert (Hfin : forall (main : M unit) setup hx,
        emits_only role_event main ->
        forallb role_event setup = true ->
        let run := try_finally
                     (try_except
                        (emit (EvExt "asyncio.new_event_loop()");;
                         emit (EvExt "loop.create_task(get_orders(main_logger))");;
                         main)
                        start_except)
                     (shutdown_server E fuel (os_getpid E)) hx in
        start_run E (fst run)
          (EvServerPid lookup :: EvGetServerConfig (inr cfg) :: setup ++ snd run)).
      { intros main setup hx Hmain Hsetup. cbv zeta.
        destruct (run_phase_cases E fuel (os_getpid E) main hx Hmain)
          as [[Hd Hr] | (role & rr & rh & handled & h' & rs & down
                         & Hrole & Hin & Hex & Hs & Heq)];
          cbv zeta in *.
        - rewrite Hd. apply start_role_running; [exact Hl|].
          rewrite forallb_app, Hsetup, Hr. reflexivity.
        - rewrite Heq. cbn [fst snd].
          eapply start_run_events;
            [apply (start_shut_down E lookup cfg (setup ++ role) rr rh handled h' rs down);
             [exact Hl | rewrite forallb_app, Hsetup, Hrole; reflexivity
              | apply in_or_app; right; exact Hin | exact Hex | exact Hs]|].
          rewrite <- !app_assoc. reflexivity. }
      unfold create_pid, info, log.
      destruct root, (node_type cfg); cbn [negb];
        repeat first [rewrite bind_bind | rewrite bind_emit_prepend | rewrite bind_ret
                     | rewrite bind_ask_prepend];
        try match goal with
            | |- context [keypair_present ?E' ?hk] => destruct (keypair_present E' hk)
            end;
        cbn [negb];
        repeat first [rewrite bind_bind | rewrite bind_emit_prepend | rewrite bind_ret];
        repeat rewrite prepend_prepend;
        unfold prepend; cbn [fst snd app];
        match goal with
        | Hf : forall main : M unit, _
          |- start_run _ (fst (try_finally (try_except (_;; _;; ?main) _) _ ?hx))
               (_ :: _ :: ?l) =>
            let setup := prefix_of l in
            eapply start_run_events;
              [apply (Hf main setup hx);
               [auto with role_events | reflexivity] | reflexivity]
        end.
Qed.

Lemma signal_run_raise name e evs :
  signal_run name (Raise e) evs ->
  exists pre ppid k, evs = pre ++ [EvKill ppid k] /\ k <> Delivered /\ kill_result k = Raise e.
Proof.
  inversion 1; subst.
  - exists [EvCall "shutdown_daemon" name; EvGetParentPid name (Some ppid);
            shutting_down_line name ppid], ppid, NoSuchProcess.
    repeat split; discriminate.
  - exists [EvCall "shutdown_daemon" name; EvGetParentPid name (Some ppid);
            shutting_down_line name ppid], ppid, NotPermitted.
    repeat split; discriminate.
Qed.

Lemma signal_run_no_shutdown_call name r evs :
  signal_run name r evs -> none (is_call "shutdown_server") evs = true.
Proof.
  destruct 1 as [|ppid|ppid|ppid]; simpl;
    try (destruct (unrecord_if_engine_cases name ppid) as [-> | ->]);
    destruct (name =? "shutdown_server")%string eqn:Hn; try reflexivity.
Qed.

Lemma signal_seq_raise ds e evs :
  each_run signal_run ds (Raise e) evs ->
  exists pre ppid k, evs = pre ++ [EvKill ppid k] /\ k <> Delivered /\ kill_result k = Raise e.
Proof.
  remember (Raise e) as r eqn:Hr.
  induction 1 as [|name ds e0 evs Hone|name ds evs Hone|name ds evs r evs' Hone Hrest IH];
    try discriminate Hr.
  - injection Hr as ->. apply (signal_run_raise _ _ _ Hone).
  - destruct (IH Hr) as (pre & ppid & k & -> & Hk & Hres).
    exists (evs ++ pre), ppid, k. rewrite <- app_assoc. auto.
Qed.

Lemma signal_seq_no_shutdown_call ds r evs :
  each_run signal_run ds r evs -> none (is_call "shutdown_server") evs = true.
Proof.
  induction 1 as [|name ds e0 evs Hone|name ds evs Hone|name ds evs r evs' Hone Hrest IH];
    try reflexivity; try apply (signal_run_no_shutdown_call _ _ _ Hone).
  rewrite none_app, (signal_run_no_shutdown_call _ _ _ Hone), IH. reflexivity.
Qed.

Lemma shutdown_run_facts E h server_pid rs down :
  shutdown_run E h server_pid rs down ->
  calls "shutdown_server" down = [string_of_Z server_pid] /\
  (rs <> Ret tt -> none is_reap down = true) /\
  (forall e, rs = Raise e ->
     exists pre ppid k, down = pre ++ [EvKill ppid k] /\ k <> Delivered /\
                        kill_result k = Raise e).
Proof.
  assert (Hpolls : forall n, calls "shutdown_server" (waiting_polls n) = [])
    by (induction n; simpl; auto).
  destruct 1 as [e sig Hsig | sig n Hsig | sig n Hsig Hgone];
    pose proof (none_calls _ _ (signal_seq_no_shutdown_call _ _ _ Hsig)) as Hc;
    destruct (signal_seq_facts _ _ _ Hsig) as (_ & _ & _ & Hnr & _);
    simpl; rewrite ?calls_app; simpl; rewrite ?calls_app, ?Hc, ?Hpolls; simpl.
  - split; [reflexivity|]. split; [intros _; exact Hnr|].
    intros e' He'. injection He' as <-.
    destruct (signal_seq_raise _ _ _ Hsig) as (pre & ppid & k & -> & Hk & Hres).
    exists (EvCall "shutdown_server" (string_of_Z server_pid) :: pre), ppid, k. auto.
  - split; [reflexivity|]. split; [|discriminate].
    intros _. unfold none in *. rewrite forallb_app, Hnr. simpl.
    apply (proj2 (proj2 (waiting_polls_facts n))).
  - split; [reflexivity|]. split; [|discriminate].
    intros Hne. destruct (Hne eq_refl).
Qed.

Lemma stop_stop_run E fuel h :
  stop_run E (fst (stop E fuel h)) (snd (stop E fuel h)).
Proof.
  unfold stop.
  match goal with |- context [bind ?m ?k h] => set (P1 := m); set (K1 := k) end.
  assert (H1 :
    P1 h = (Raise (SystemExit 0), [EvServerPid (inl StopIteration); not_running_line]) \/
    (exists e, e <> StopIteration /\ P1 h = (Raise e, [EvServerPid (inl e)])) \/
    (exists pid, P1 h = (Ret pid, [EvServerPid (inr pid)]))).
  { unfold P1, try_except, get_wazuh_server_pid, warning, log, sys_exit.
    cbv [bind attempt ask emit ret raise].
    destruct (wazuh_server_pid E h) as [e|pid]; cbn.
    - assert (He : e = StopIteration \/ e <> StopIteration)
        by (destruct e; auto; right; discriminate).
      destruct He as [->|He]; [left; reflexivity|].
      right. left. exists e. split; [exact He|]. destruct e; try reflexivity.
      contradiction.
    - right. right. eauto. }
  rewrite bind_run.
  destruct H1 as [-> | [(e & He & ->) | (pid & ->)]]; cbn [fst snd].
  - apply stop_not_running.
  - apply stop_lookup_error; exact He.
  - unfold K1. clear P1 K1. rewrite bind_run.
    match goal with
    | |- context [shutdown_server E fuel pid ?hd] =>
        pose proof (shutdown_server_shutdown_run E fuel pid hd) as Hs;
        destruct (shutdown_server E fuel pid hd) as [rs down]
    end.
    cbn [fst snd] in *.
    destruct rs as [[]|e|].
    + unfold os_kill. rewrite bind_ask. cbn [fst snd].
      match goal with
      | |- context [os_kill_answer E ?hk pid] => destruct (os_kill_answer E hk pid)
      end; cbn [fst snd ret raise].
      * apply (stop_signalled E pid _ down Delivered Hs).
      * apply (stop_signalled E pid _ down NoSuchProcess Hs).
      * apply (stop_signalled E pid _ down NotPermitted Hs).
    + apply (stop_shutdown_unfinished E pid _ _ _ Hs). discriminate.
    + apply (stop_shutdown_unfinished E pid _ _ _ Hs). discriminate.
Qed.

Lemma start_except_none e :
  start_except e = None -> is_Exception e = false /\ e <> KeyboardInterrupt.
Proof. destruct e; simpl; intros H; try discriminate H; split; (reflexivity || discriminate). Qed.

Lemma last_event_kind p (evs pre : list event) ev :
  none p evs = true -> evs = pre ++ [ev] -> p ev = false.
Proof. intros Hn Heq. apply (none_not_in _ _ _ _ _ Hn Heq). Qed.

Lemma shutdown_run_returned_shape E h server_pid down :
  shutdown_run E h server_pid (Ret tt) down ->
  exists mid,
    down = mid ++ [EvCheckDaemons shutdown_order false;
                   EvDeleteChildPids SERVER_DAEMON_NAME server_pid;
                   EvDeletePid SERVER_DAEMON_NAME server_pid] /\
    none is_reap mid = true /\ map fst (lookups mid) = shutdown_order.
Proof.
  inversion 1 as [| |sig n Hsig Hgone]; subst.
  destruct (signal_seq_facts _ _ _ Hsig) as (_ & Hall & _ & Hnr & _).
  destruct (waiting_polls_facts n) as (Hpl & _ & Hpr).
  exists (EvCall "shutdown_server" (string_of_Z server_pid) :: sig
            ++ waiting_line :: waiting_polls n).
  split; [simpl; rewrite <- app_assoc; reflexivity|]. split.
  - pose proof (Hnr : none is_reap sig = true) as Hnr'.
    pose proof (Hpr : none is_reap (waiting_polls n) = true) as Hpr'.
    rewrite none_cons, none_app, none_cons, Hnr', Hpr'. reflexivity.
  - change (lookups (EvCall "shutdown_server" (string_of_Z server_pid) :: sig
                       ++ waiting_line :: waiting_polls n))
      with (lookups (sig ++ [waiting_line] ++ waiting_polls n)).
    rewrite !lookups_app, Hpl, !map_app, (Hall eq_refl). reflexivity.
Qed.

(** ** [start], step by step *)

Lemma start_already_running_at E fuel dm root h pid :
  wazuh_server_pid E h = inr pid -> pid <> 0%Z ->
  start E fuel dm root h
  = (Raise (SystemExit 1), [EvServerPid (inr pid); already_running_line pid]).
Proof.
  intros Hl Hpid. unfold start. rewrite bind_prepend.
  match goal with
  | |- context [fst (?m h)] =>
      assert (H1 : m h = (Raise (SystemExit 1),
                          [EvServerPid (inr pid); already_running_line pid]))
  end.
  { unfold try_except, get_wazuh_server_pid, print, sys_exit.
    cbv [bind attempt ask emit ret raise]. rewrite Hl.
    destruct (Z.eqb_spec pid 0) as [Hz|_]; [contradiction | reflexivity]. }
  rewrite H1. reflexivity.
Qed.

Lemma start_lookup_error_at E fuel dm root h e :
  wazuh_server_pid E h = inl e -> e <> StopIteration ->
  start E fuel dm root h = (Raise e, [EvServerPid (inl e)]).
Proof.
  intros Hl He. unfold start. rewrite bind_prepend.
  match goal with
  | |- context [fst (?m h)] => assert (H1 : m h = (Raise e, [EvServerPid (inl e)]))
  end.
  { unfold try_except, get_wazuh_server_pid, print, sys_exit.
    cbv [bind attempt ask emit ret raise]. rewrite Hl.
    destruct e; try reflexivity. contradiction. }
  rewrite H1. reflexivity.
Qed.

Lemma start_config_error_at E fuel dm root h e :
  lookup_passed (wazuh_server_pid E h) ->
  server_config_answer E (h ++ [EvServerPid (wazuh_server_pid E h)]) = inl e ->
  start E fuel dm root h
  = if is_Exception e
    then (Raise (SystemExit 1),
          [EvServerPid (wazuh_server_pid E h); EvGetServerConfig (inl e);
           EvLog main_logger ERROR (exn_str e)])
    else (Raise e, [EvServerPid (wazuh_server_pid E h); EvGetServerConfig (inl e)]).
Proof.
  intros Hl Hcfg. unfold start. rewrite bind_prepend.
  match goal with
  | |- context [fst (?m h)] =>
      assert (H1 : m h = (Ret tt, [EvServerPid (wazuh_server_pid E h)]))
  end.
  { unfold try_except, get_wazuh_server_pid, print, sys_exit.
    cbv [bind attempt ask emit ret raise].
    destruct Hl as [Hl|Hl]; rewrite Hl; reflexivity. }
  rewrite H1. cbn [fst snd]. clear H1.
  rewrite bind_prepend.
  match goal with
  | |- context [fst (?m ?h1)] =>
      assert (H2 : m h1
                   = if is_Exception e
                     then (Raise (SystemExit 1),
                           [EvGetServerConfig (inl e); EvLog main_logger ERROR (exn_str e)])
                     else (Raise e, [EvGetServerConfig (inl e)]))
  end.
  { unfold try_except, get_server_config, error, log, sys_exit.
    cbv [bind attempt ask emit ret raise]. rewrite Hcfg.
    destruct (is_Exception e); reflexivity. }
  rewrite H2. destruct (is_Exception e); reflexivity.
Qed.

(** Past the two lookups, [start] does its setup and enters the run phase
    at the history that the setup leaves. *)
Lemma start_enters_run_phase E fuel dm root h cfg :
  lookup_passed (wazuh_server_pid E h) ->
  server_config_answer E (h ++ [EvServerPid (wazuh_server_pid E h)]) = inr cfg ->
  exists present,
    let setup := EvServerPid (wazuh_server_pid E h) :: EvGetServerConfig (inr cfg)
                   :: start_setup E root cfg present in
    start E fuel dm root h
    = prepend setup
        (try_finally
           (try_except
              (emit (EvExt "asyncio.new_event_loop()");;
               emit (EvExt "loop.create_task(get_orders(main_logger))");;
               match node_type cfg with
               | MASTER => master_main E fuel dm root
               | WORKER => worker_main E fuel dm root (connection_retry cfg)
               end)
              start_except)
           (shutdown_server E fuel (os_getpid E)) (h ++ setup)).
Proof.
  intros Hl Hcfg. unfold start. rewrite bind_prepend.
  match goal with
  | |- context [fst (?m h)] =>
      assert (H1 : m h = (Ret tt, [EvServerPid (wazuh_server_pid E h)]))
  end.
  { unfold try_except, get_wazuh_server_pid, print, sys_exit.
    cbv [bind attempt ask emit ret raise].
    destruct Hl as [Hl|Hl]; rewrite Hl; reflexivity. }
  rewrite H1. cbn [fst snd]. clear H1.
  rewrite bind_prepend.
  match goal with
  | |- context [fst (?m ?h1)] =>
      assert (H2 : m h1 = (Ret cfg, [EvGetServerConfig (inr cfg)]))
  end.
  { unfold try_except, get_server_config, error, log, sys_exit.
    cbv [bind attempt ask emit ret raise]. rewrite Hcfg. reflexivity. }
  rewrite H2. cbn [fst snd]. clear H2.
  unfold create_pid, info, log, start_setup.
  destruct root, (node_type cfg); cbn [negb];
    repeat first [rewrite bind_bind | rewrite bind_emit_prepend | rewrite bind_ret
                 | rewrite bind_ask_prepend];
    try match goal with
        | |- context [keypair_present ?E' ?hk] => destruct (keypair_present E' hk) eqn:Hkp
        end;
    cbn [negb];
    repeat first [rewrite bind_bind | rewrite bind_emit_prepend | rewrite bind_ret];
    repeat rewrite prepend_prepend;
    first [ exists true; cbv zeta; rewrite <- ?app_assoc, ?app_nil_r; cbn [app];
            reflexivity
          | exists false; cbv zeta; rewrite <- ?app_assoc, ?app_nil_r; cbn [app];
            reflexivity ].
Qed.

(** The run phase of [start] entered at history [h], from the run of the
    role: while the role runs, nothing else happens; when it ends, the
    [except] clauses are applied to its outcome and [shutdown_server] runs
    at the history reached then. *)
Lemma run_phase_at E fuel server_pid (main : M unit) h :
  let hr := h ++ [new_event_loop; create_task] in
  let run := try_finally
               (try_except
                  (emit (EvExt "asyncio.new_event_loop()");;
                   emit (EvExt "loop.create_task(get_orders(main_logger))");;
                   main)
                  start_except)
               (shutdown_server E fuel server_pid) h in
  (fst (main hr) = Diverge /\
   run = (Diverge, new_event_loop :: create_task :: snd (main hr))) \/
  exists rh handled,
    except_run (fst (main hr)) rh handled /\
    let entered := new_event_loop :: create_task :: snd (main hr) ++ handled in
    run = (finally_outcome rh (fst (shutdown_server E fuel server_pid (h ++ entered))),
           entered ++ snd (shutdown_server E fuel server_pid (h ++ entered))).
Proof.
  cbv zeta. unfold try_finally, try_except.
  rewrite bind_run, attempt_run, bind_run, attempt_run, !bind_emit. cbn [fst snd].
  unfold new_event_loop, create_task.
  replace ((h ++ [EvExt "asyncio.new_event_loop()"])
             ++ [EvExt "loop.create_task(get_orders(main_logger))"])
    with (h ++ [EvExt "asyncio.new_event_loop()";
                EvExt "loop.create_task(get_orders(main_logger))"])
    by (rewrite <- app_assoc; reflexivity).
  set (hr := h ++ [EvExt "asyncio.new_event_loop()";
                   EvExt "loop.create_task(get_orders(main_logger))"]).
  destruct (main hr) as [rr role]. cbn [fst snd] in *.
  assert (Hfin : forall (rh : outcome unit) hd,
            rh <> Diverge ->
            (shutdown_server E fuel server_pid;;
             match rh with Ret a => ret a | Raise e => raise e | Diverge => diverge end) hd
            = (finally_outcome rh (fst (shutdown_server E fuel server_pid hd)),
               snd (shutdown_server E fuel server_pid hd))).
  { intros rh hd Hnd. rewrite bind_run.
    destruct (shutdown_server E fuel server_pid hd) as [rs down]. cbn [fst snd].
    destruct rs as [[]|e|]; cbn [finally_outcome]; try reflexivity.
    destruct rh as [[]|e|]; cbn [fst snd ret raise diverge]; rewrite ?app_nil_r;
      [reflexivity | reflexivity | destruct (Hnd eq_refl)]. }
  destruct rr as [[]|e|]; cbn [fst snd ret app].
  - right. exists (Ret tt), []. split; [constructor|]. cbv zeta.
    rewrite (Hfin (Ret tt)) by discriminate. rewrite !app_nil_r. reflexivity.
  - destruct (start_except e) as [k|] eqn:Hk.
    + destruct (start_except_log _ _ Hk) as (lvl & msg & ->).
      cbn [log emit fst snd].
      right. exists (Ret tt), [EvLog main_logger lvl msg].
      split; [apply except_handled; exact Hk|]. cbv zeta.
      rewrite (Hfin (Ret tt)) by discriminate.
      rewrite <- !app_assoc. reflexivity.
    + cbn [raise fst snd].
      right. exists (Raise e), []. split; [apply except_unhandled; exact Hk|]. cbv zeta.
      rewrite (Hfin (Raise e)) by discriminate. rewrite !app_nil_r. reflexivity.
  - left. split; reflexivity.
Qed.

(** [start] from the two lookups on: the setup, the role, the [except]
    clauses and [shutdown_server], each at the history it runs at. *)
Lemma start_run_phase E fuel dm root h cfg :
  lookup_passed (wazuh_server_pid E h) ->
  server_config_answer E (h ++ [EvServerPid (wazuh_server_pid E h)]) = inr cfg ->
  exists present,
    let setup := EvServerPid (wazuh_server_pid E h) :: EvGetServerConfig (inr cfg)
                   :: start_setup E root cfg present in
    let role := match node_type cfg with
                | MASTER => master_main E fuel dm root
                | WORKER => worker_main E fuel dm root (connection_retry cfg)
                end (h ++ setup ++ [new_event_loop; create_task]) in
    (fst role = Diverge /\
     start E fuel dm root h
     = (Diverge, setup ++ new_event_loop :: create_task :: snd role)) \/
    exists rh handled,
      except_run (fst role) rh handled /\
      let entered := setup ++ new_event_loop :: create_task :: snd role ++ handled in
      let down := shutdown_server E fuel (os_getpid E) (h ++ entered) in
      start E fuel dm root h = (finally_outcome rh (fst down), entered ++ snd down).
Proof.
  intros Hl Hcfg.
  destruct (start_enters_run_phase E fuel dm root h cfg Hl Hcfg) as [present Hstart].
  exists present. cbv zeta in *.
  set (setup := EvServerPid (wazuh_server_pid E h) :: EvGetServerConfig (inr cfg)
                  :: start_setup E root cfg present) in *.
  set (main := match node_type cfg with
               | MASTER => master_main E fuel dm root
               | WORKER => worker_main E fuel dm root (connection_retry cfg)
               end) in *.
  destruct (run_phase_at E fuel (os_getpid E) main (h ++ setup))
    as [[Hd Hrun]|(rh & handled & Hex & Hrun)]; cbv zeta in *;
    rewrite <- !app_assoc in *.
  - left. split; [exact Hd|]. rewrite Hstart, Hrun. reflexivity.
  - right. exists rh, handled. split; [exact Hex|].
    rewrite Hstart, Hrun. unfold prepend. cbn [fst snd].
    rewrite <- !app_assoc. reflexivity.
Qed.

(** What a run of [shutdown_server] has done, by its outcome. *)
Lemma shutdown_server_outcomes E fuel server_pid h :
  let down := shutdown_server E fuel server_pid h in
  calls "shutdown_server" (snd down) = [string_of_Z server_pid] /\
  (fst down = Ret tt ->
     map fst (lookups (snd down)) = shutdown_order /\
     exists mid,
       snd down = mid ++ [EvCheckDaemons shutdown_order false;
                          EvDeleteChildPids SERVER_DAEMON_NAME server_pid;
                          EvDeletePid SERVER_DAEMON_NAME server_pid] /\
       none is_reap mid = true) /\
  (forall e, fst down = Raise e ->
     none is_reap (snd down) = true /\
     exists pre ppid k, snd down = pre ++ [EvKill ppid k] /\ k <> Delivered /\
                        kill_result k = Raise e) /\
  (fst down = Diverge -> none is_reap (snd down) = true).
Proof.
  cbv zeta.
  pose proof (shutdown_server_shutdown_run E fuel server_pid h) as Hs.
  destruct (shutdown_server E fuel server_pid h) as [rs down]. cbn [fst snd] in *.
  destruct (shutdown_run_facts _ _ _ _ _ Hs) as (Hc & Hnr & Hraise).
  split; [exact Hc|]. split; [|split].
  - intros ->. destruct (shutdown_run_returned_shape _ _ _ _ Hs) as (mid & -> & Hmid & Hl).
    split; [|exists mid; auto].
    rewrite lookups_app, map_app, Hl. reflexivity.
  - intros e ->. split; [apply Hnr; discriminate | apply (Hraise e eq_refl)].
  - intros ->. apply Hnr. discriminate.
Qed.

(** C7, as the code has it: once [start] has entered its run phase, every
    way out of the role (it returns, or raises [KeyboardInterrupt],
    [MemoryError], [WazuhDaemonError], any other exception) leads, after
    the [except] clause that matches, to exactly one call of
    [shutdown_server], for the supervisor's own pid; [start] never calls it
    twice, and the only runs that entered the run phase without calling it
    are those whose role is still running.  That call goes through the
    whole sequence (the three daemons looked up, the wait, the
    supervisor's children and record reaped) when it returns; a
    termination signal that the system refuses ends it at that signal, with
    nothing reaped, and the error of the signal is the outcome of
    [start]. *)
Theorem start_calls_shutdown_server_once E fuel dm root h r evs :
  start E fuel dm root h = (r, evs) ->
  (List.length (calls "shutdown_server" evs) <= 1)%nat /\
  (In new_event_loop evs -> r <> Diverge ->
     calls "shutdown_server" evs = [string_of_Z (os_getpid E)]) /\
  (In new_event_loop evs -> calls "shutdown_server" evs = [] -> r = Diverge) /\
  (forall cfg,
     lookup_passed (wazuh_server_pid E h) ->
     server_config_answer E (h ++ [EvServerPid (wazuh_server_pid E h)]) = inr cfg ->
     exists present,
       let setup := EvServerPid (wazuh_server_pid E h) :: EvGetServerConfig (inr cfg)
                      :: start_setup E root cfg present in
       let role := match node_type cfg with
                   | MASTER => master_main E fuel dm root
                   | WORKER => worker_main E fuel dm root (connection_retry cfg)
                   end (h ++ setup ++ [new_event_loop; create_task]) in
       (fst role = Diverge /\ r = Diverge /\
        evs = setup ++ new_event_loop :: create_task :: snd role) \/
       exists rh handled,
         except_run (fst role) rh handled /\
         let entered := setup ++ new_event_loop :: create_task :: snd role ++ handled in
         let down := shutdown_server E fuel (os_getpid E) (h ++ entered) in
         r = finally_outcome rh (fst down) /\
         evs = entered ++ snd down /\
         calls "shutdown_server" entered = [] /\
         calls "shutdown_server" (snd down) = [string_of_Z (os_getpid E)] /\
         (fst down = Ret tt ->
            r = rh /\ map fst (lookups (snd down)) = shutdown_order /\
            exists mid,
              snd down = mid ++ [EvCheckDaemons shutdown_order false;
                                 EvDeleteChildPids SERVER_DAEMON_NAME (os_getpid E);
                                 EvDeletePid SERVER_DAEMON_NAME (os_getpid E)] /\
              none is_reap mid = true) /\
         (forall e, fst down = Raise e ->
            r = Raise e /\ none is_reap (snd down) = true /\
            exists pre ppid k, snd down = pre ++ [EvKill ppid k] /\ k <> Delivered /\
                               kill_result k = Raise e) /\
         (fst down = Diverge -> r = Diverge /\ none is_reap (snd down) = true)).
Proof.
  intros Hrun.
  pose proof (start_start_run E fuel dm root h) as Hshape.
  rewrite Hrun in Hshape. cbn [fst snd] in Hshape.
  assert (Hrole : forall role, forallb role_event role = true ->
                               calls "shutdown_server" role = []).
  { intros role Hr. apply none_calls.
    apply (role_free_none _ _ role_free_shutdown_call Hr). }
  assert (Hcount : (List.length (calls "shutdown_server" evs) <= 1)%nat /\
            (In new_event_loop evs -> r <> Diverge ->
               calls "shutdown_server" evs = [string_of_Z (os_getpid E)]) /\
            (In new_event_loop evs -> calls "shutdown_server" evs = [] -> r = Diverge)).
  { destruct Hshape as [pid Hpid | e He | lookup e Hl He | lookup e Hl He
                       | lookup cfg role Hl Hr
                       | lookup cfg role rr rh handled h' rs down Hl Hr Hin Hex Hs].
    - split; [simpl; lia|]. split; intros [H|[H|[]]]; discriminate H.
    - split; [simpl; lia|]. split; intros [H|[]]; discriminate H.
    - split; [simpl; lia|]. split; intros [H|[H|[H|[]]]]; discriminate H.
    - split; [simpl; lia|]. split; intros [H|[H|[]]]; discriminate H.
    - simpl. rewrite (Hrole _ Hr). split; [simpl; lia|].
      split; [intros _ Hd; destruct (Hd eq_refl) | reflexivity].
    - destruct (shutdown_run_facts _ _ _ _ _ Hs) as (Hc & _).
      assert (Hh : calls "shutdown_server" handled = [])
        by (destruct Hex; reflexivity).
      simpl. rewrite !calls_app, (Hrole _ Hr), Hh, Hc. simpl.
      split; [lia|]. split; [reflexivity | discriminate]. }
  destruct Hcount as (Hmost & Honce & Hnone).
  split; [exact Hmost|]. split; [exact Honce|]. split; [exact Hnone|].
  intros cfg Hl Hcfg.
  destruct (start_run_phase E fuel dm root h cfg Hl Hcfg) as [present Hphase].
  exists present. cbv zeta in *. rewrite Hrun in Hphase.
  destruct Hphase as [[Hd Heq]|(rh & handled & Hex & Heq)].
  - left. split; [exact Hd|].
    split; [exact (f_equal fst Heq) | exact (f_equal snd Heq)].
  - right. exists rh, handled. split; [exact Hex|].
    pose proof (f_equal fst Heq) as Hr. pose proof (f_equal snd Heq) as Hevs.
    cbn [fst snd] in Hr, Hevs.
    match type of Hevs with
    | evs = ?entered ++ snd (shutdown_server E fuel ?pid ?hd) =>
        destruct (shutdown_server_outcomes E fuel pid hd) as (Hc & Hret & Hraise & Hdiv);
        set (down := shutdown_server E fuel pid hd) in *;
        set (pre := entered) in *
    end.
    cbv zeta in Hc, Hret, Hraise, Hdiv.
    split; [exact Hr|]. split; [exact Hevs|].
    split.
    { rewrite Hevs, calls_app, Hc, length_app in Hmost. revert Hmost.
      destruct (calls "shutdown_server" pre) as [|c cs]; [reflexivity|].
      cbn [List.length]. lia. }
    split; [exact Hc|]. split; [|split].
    + intros Hdown. destruct (Hret Hdown) as (Hlook & mid & Hmid & Hnr).
      rewrite Hdown in Hr. cbn [finally_outcome] in Hr.
      split; [exact Hr|]. split; [exact Hlook|]. exists mid. auto.
    + intros e Hdown. destruct (Hraise e Hdown) as (Hnr & Hkill).
      rewrite Hdown in Hr. cbn [finally_outcome] in Hr. auto.
    + intros Hdown. rewrite Hdown in Hr. cbn [finally_outcome] in Hr. auto.
Qed.

Lemma start_calls_shutdown_server_once_witness :
  calls "shutdown_server" (snd (start (env_role_raises MemoryError) 5 0 false []))
  = ["4242"] /\
  calls "shutdown_server" (snd (start (env_exits 3) 5 0 false [])) = ["4242"] /\
  calls "shutdown_server" (snd (start (env_role_raises (PyException "boom")) 5 0 false []))
  = ["4242"] /\
  fst (start (env_role_raises KeyboardInterrupt) 5 0 false []) = Ret tt /\
  exists mid,
    snd (start (env_role_raises KeyboardInterrupt) 5 0 false [])
    = mid ++ [EvCheckDaemons shutdown_order false;
              EvDeleteChildPids SERVER_DAEMON_NAME 4242;
              EvDeletePid SERVER_DAEMON_NAME 4242].
Proof.
  assert (Hgen : forall E, In new_event_loop (snd (start E 5 0 false [])) ->
                           fst (start E 5 0 false []) <> Diverge ->
                           calls "shutdown_server" (snd (start E 5 0 false []))
                           = [string_of_Z (os_getpid E)]).
  { intros E.
    apply (start_calls_shutdown_server_once E 5 0%Z false []
             (fst (start E 5 0 false [])) (snd (start E 5 0 false []))
             (surjective_pairing _)). }
  split; [apply (Hgen (env_role_raises MemoryError));
          [vm_compute; tauto | vm_compute; discriminate]|].
  split; [apply (Hgen (env_exits 3)); [vm_compute; tauto | vm_compute; discriminate]|].
  split; [apply (Hgen (env_role_raises (PyException "boom")));
          [vm_compute; tauto | vm_compute; discriminate]|].
  pose (run0 := start (env_role_raises KeyboardInterrupt) 5 0 false []).
  destruct (start_calls_shutdown_server_once (env_role_raises KeyboardInterrupt) 5 0%Z
              false [] (fst run0) (snd run0) (surjective_pairing run0))
    as (_ & _ & _ & Hphase).
  destruct (Hphase worker_config) as [present Hcases];
    [left; reflexivity | reflexivity |].
  cbv zeta in Hcases.
  destruct Hcases as [(Hd & _)|(rh & handled & Hex & Hr & Hevs & _ & _ & Hret & _)].
  - vm_compute in Hd. discriminate Hd.
  - assert (Hh : rh = Ret tt /\
                 handled = [EvLog main_logger INFO "SIGINT received. Shutting down..."]).
    { vm_compute in Hex. inversion Hex as [|e Hnone|e lvl msg Hsome]; subst.
      - discriminate Hnone.
      - injection Hsome as Hk.
        apply (f_equal (fun m : M unit => snd (m []))) in Hk.
        cbv [info log emit snd app] in Hk. injection Hk as <- <-.
        split; reflexivity. }
    destruct Hh as [-> ->].
    destruct Hret as (Hr' & _ & mid & Hmid & _); [vm_compute; reflexivity|].
    split; [exact Hr'|].
    eexists. fold run0. rewrite Hevs, Hmid, app_assoc. reflexivity.
Defined.

(** C7, as the spec states it, fails: the engine has died while the
    supervisor ran, and the operator interrupts the role.  [start] logs the
    interrupt and calls [shutdown_server] once, but the call ends at the
    signal to the dead engine: the two API daemons are neither looked up
    nor signalled, there is no wait, the supervisor's children and its
    record are not reaped, and [start] ends with [ProcessLookupError]. *)
Lemma shutdown_cut_short_after_interrupt :
  let evs := snd (start env_engine_died 5 0 false []) in
  In (EvLog main_logger INFO "SIGINT received. Shutting down...") evs /\
  calls "shutdown_server" evs = ["4242"] /\
  map fst (lookups evs) = [ENGINE_DAEMON_NAME] /\
  signals evs = [101%Z] /\
  none is_poll evs = true /\
  none is_reap evs = true /\
  fst (start env_engine_died 5 0 false [])
  = Raise (ProcessLookupError "[Errno 3] No such process").
Proof. vm_compute. repeat split. tauto. Qed.

(** ** Exit codes *)

Lemma stop_not_running_at E fuel h :
  wazuh_server_pid E h = inl StopIteration ->
  stop E fuel h
  = (Raise (SystemExit 0), [EvServerPid (inl StopIteration); not_running_line]).
Proof.
  intros Hl. unfold stop. rewrite bind_prepend.
  match goal with
  | |- context [fst (?m h)] =>
      assert (H1 : m h = (Raise (SystemExit 0),
                          [EvServerPid (inl StopIteration); not_running_line]))
  end.
  { unfold try_except, get_wazuh_server_pid, warning, log, sys_exit.
    cbv [bind attempt ask emit ret raise]. rewrite Hl. reflexivity. }
  rewrite H1. reflexivity.
Qed.

Lemma log_line_eq lg lvl msg lvl' msg' :
  log lg lvl msg = log lg lvl' msg' -> lvl = lvl' /\ msg = msg'.
Proof.
  intros H. apply (f_equal (fun m : M unit => snd (m []))) in H.
  cbv [log emit snd app] in H. injection H as -> ->. split; reflexivity.
Qed.

(** The clause of [start] that handles an exception other than the three
    it names logs it as unhandled. *)
Lemma start_except_unnamed e lvl msg :
  start_except e = Some (log main_logger lvl msg) ->
  e = KeyboardInterrupt \/ e = MemoryError \/ (exists m, e = WazuhDaemonError m) \/
  (lvl = ERROR /\ msg = ("Unhandled exception: " ++ exn_str e)%string).
Proof.
  destruct e; eauto; simpl; intros H; try discriminate H;
    injection H as H; apply log_line_eq in H; destruct H as [<- <-]; auto.
Qed.

(** The exit codes of [start] and [stop], read off a run. *)
Lemma exit_codes_by_trace E fuel dm root h :
  (forall r evs, start E fuel dm root h = (r, evs) ->
     (forall pid rest,
        evs = EvServerPid (inr pid) :: rest -> pid <> 0%Z ->
        exit_status r = Exited 1 /\ rest = [already_running_line pid]) /\
     (forall lookup e rest,
        evs = EvServerPid lookup :: EvGetServerConfig (inl e) :: rest ->
        is_Exception e = true ->
        exit_status r = Exited 1 /\ rest = [EvLog main_logger ERROR (exn_str e)]) /\
     (forall pre,
        evs = pre ++ [EvDeletePid SERVER_DAEMON_NAME (os_getpid E)] ->
        r = Ret tt \/
        exists e, r = Raise e /\ is_Exception e = false /\ e <> KeyboardInterrupt)) /\
  (forall r evs, stop E fuel h = (r, evs) ->
     forall rest,
       evs = EvServerPid (inl StopIteration) :: rest ->
       exit_status r = Exited 0 /\ rest = [not_running_line]).
Proof.
  split.
  - intros r evs Hrun.
    pose proof (start_start_run E fuel dm root h) as Hshape.
    rewrite Hrun in Hshape. cbn [fst snd] in Hshape.
    assert (Hreap : is_reap (EvDeletePid SERVER_DAEMON_NAME (os_getpid E)) = true)
      by reflexivity.
    split; [|split].
    + intros pid rest Heq Hpid.
      destruct Hshape as [pid' Hpid' | e He | lookup e Hl He | lookup e Hl He
                         | lookup cfg role Hl Hr
                         | lookup cfg role rr rh handled h' rs down Hl Hr Hin Hex Hs];
        try (injection Heq as <- <-; auto; fail);
        try discriminate Heq;
        injection Heq as -> _; destruct Hl as [Hl|Hl]; try discriminate Hl;
        injection Hl as ->; contradiction.
    + intros lookup0 e0 rest Heq He0.
      destruct Hshape as [pid' Hpid' | e He | lookup e Hl He | lookup e Hl He
                         | lookup cfg role Hl Hr
                         | lookup cfg role rr rh handled h' rs down Hl Hr Hin Hex Hs];
        try discriminate Heq.
      * injection Heq as _ <- <-. auto.
      * injection Heq as _ <- _. rewrite He in He0. discriminate.
    + intros pre Heq.
      destruct Hshape as [pid' Hpid' | e He | lookup e Hl He | lookup e Hl He
                         | lookup cfg role Hl Hr
                         | lookup cfg role rr rh handled h' rs down Hl Hr Hin Hex Hs].
      * assert (Hn : none is_reap [EvServerPid (inr pid'); already_running_line pid'] = true)
          by reflexivity.
        rewrite (last_event_kind _ _ _ _ Hn Heq) in Hreap. discriminate.
      * assert (Hn : none is_reap [EvServerPid (inl e)] = true) by reflexivity.
        rewrite (last_event_kind _ _ _ _ Hn Heq) in Hreap. discriminate.
      * assert (Hn : none is_reap [EvServerPid lookup; EvGetServerConfig (inl e);
                                   EvLog main_logger ERROR (exn_str e)] = true)
          by reflexivity.
        rewrite (last_event_kind _ _ _ _ Hn Heq) in Hreap. discriminate.
      * assert (Hn : none is_reap [EvServerPid lookup; EvGetServerConfig (inl e)] = true)
          by reflexivity.
        rewrite (last_event_kind _ _ _ _ Hn Heq) in Hreap. discriminate.
      * assert (Hn : none is_reap (EvServerPid lookup :: EvGetServerConfig (inr cfg) :: role)
                     = true)
          by (rewrite !none_cons; apply (role_free_none _ _ role_free_reap Hr)).
        rewrite (last_event_kind _ _ _ _ Hn Heq) in Hreap. discriminate.
      * assert (Hhandled : none is_reap handled = true) by (destruct Hex; reflexivity).
        assert (Hrs : rs = Ret tt \/ rs <> Ret tt)
          by (destruct rs as [[]|e|]; auto; right; discriminate).
        destruct Hrs as [-> | Hne].
        -- cbn [finally_outcome].
           destruct Hex as [|e Hnone|e lvl msg Hsome]; auto.
           right. exists e. split; [reflexivity|]. apply (start_except_none _ Hnone).
        -- destruct (shutdown_run_facts _ _ _ _ _ Hs) as (_ & Hnr & _).
           assert (Hn : none is_reap (EvServerPid lookup :: EvGetServerConfig (inr cfg)
                                        :: role ++ handled ++ down) = true).
           { rewrite !none_cons, !none_app,
               (role_free_none _ _ role_free_reap Hr), Hhandled, (Hnr Hne).
             reflexivity. }
           rewrite (last_event_kind _ _ _ _ Hn Heq) in Hreap. discriminate.
  - intros r evs Hrun rest Heq.
    pose proof (stop_stop_run E fuel h) as Hshape.
    rewrite Hrun in Hshape. cbn [fst snd] in Hshape.
    destruct Hshape as [|e He|pid h' rs down Hs Hne|pid h' down k Hs];
      try discriminate Heq.
    + injection Heq as <-. auto.
    + injection Heq as He' _. destruct (He He').
Qed.

(** C8, as the code has it: [start] ends with exit code 1 when it finds a
    supervisor already running and when loading the configuration raises
    an [Exception], in both cases through [sys.exit(1)] and before any
    setup.  An error of the role that one of the clauses of [start]
    handles ([KeyboardInterrupt] and every [Exception]; one that is
    neither [MemoryError] nor [WazuhDaemonError] is logged as unhandled) is
    logged and followed by [shutdown_server], and once that has returned
    [start] returns: the exit code is 0.  [stop] ends with exit code 0, by
    [sys.exit(0)] after a warning, when no supervisor is found. *)
Theorem start_and_stop_exit_codes E fuel dm root h :
  (forall pid,
     wazuh_server_pid E h = inr pid -> pid <> 0%Z ->
     start E fuel dm root h
     = (Raise (SystemExit 1), [EvServerPid (inr pid); already_running_line pid]) /\
     exit_status (fst (start E fuel dm root h)) = Exited 1) /\
  (forall e,
     lookup_passed (wazuh_server_pid E h) ->
     server_config_answer E (h ++ [EvServerPid (wazuh_server_pid E h)]) = inl e ->
     is_Exception e = true ->
     start E fuel dm root h
     = (Raise (SystemExit 1),
        [EvServerPid (wazuh_server_pid E h); EvGetServerConfig (inl e);
         EvLog main_logger ERROR (exn_str e)]) /\
     exit_status (fst (start E fuel dm root h)) = Exited 1) /\
  (forall cfg,
     lookup_passed (wazuh_server_pid E h) ->
     server_config_answer E (h ++ [EvServerPid (wazuh_server_pid E h)]) = inr cfg ->
     exists present,
       let setup := EvServerPid (wazuh_server_pid E h) :: EvGetServerConfig (inr cfg)
                      :: start_setup E root cfg present in
       let role := match node_type cfg with
                   | MASTER => master_main E fuel dm root
                   | WORKER => worker_main E fuel dm root (connection_retry cfg)
                   end (h ++ setup ++ [new_event_loop; create_task]) in
       forall e,
         fst role = Raise e ->
         is_Exception e = true \/ e = KeyboardInterrupt ->
         exists lvl msg,
           start_except e = Some (log main_logger lvl msg) /\
           (e = KeyboardInterrupt \/ e = MemoryError \/ (exists m, e = WazuhDaemonError m) \/
            (lvl = ERROR /\ msg = ("Unhandled exception: " ++ exn_str e)%string)) /\
           let entered := setup ++ new_event_loop :: create_task :: snd role
                            ++ [EvLog main_logger lvl msg] in
           let down := shutdown_server E fuel (os_getpid E) (h ++ entered) in
           snd (start E fuel dm root h) = entered ++ snd down /\
           fst (start E fuel dm root h) = fst down /\
           (fst down = Ret tt ->
              fst (start E fuel dm root h) = Ret tt /\
              exit_status (fst (start E fuel dm root h)) = Exited 0)) /\
  (wazuh_server_pid E h = inl StopIteration ->
   stop E fuel h
   = (Raise (SystemExit 0), [EvServerPid (inl StopIteration); not_running_line]) /\
   exit_status (fst (stop E fuel h)) = Exited 0) /\
  (forall r evs, start E fuel dm root h = (r, evs) ->
     (forall pid rest,
        evs = EvServerPid (inr pid) :: rest -> pid <> 0%Z ->
        exit_status r = Exited 1 /\ rest = [already_running_line pid]) /\
     (forall lookup e rest,
        evs = EvServerPid lookup :: EvGetServerConfig (inl e) :: rest ->
        is_Exception e = true ->
        exit_status r = Exited 1 /\ rest = [EvLog main_logger ERROR (exn_str e)]) /\
     (forall pre,
        evs = pre ++ [EvDeletePid SERVER_DAEMON_NAME (os_getpid E)] ->
        r = Ret tt \/
        exists e, r = Raise e /\ is_Exception e = false /\ e <> KeyboardInterrupt)) /\
  (forall r evs, stop E fuel h = (r, evs) ->
     forall rest,
       evs = EvServerPid (inl StopIteration) :: rest ->
       exit_status r = Exited 0 /\ rest = [not_running_line]).
Proof.
  split; [|split; [|split; [|split; [|apply exit_codes_by_trace]]]].
  - intros pid Hl Hpid.
    rewrite (start_already_running_at E fuel dm root h pid Hl Hpid).
    split; reflexivity.
  - intros e Hl Hcfg He.
    rewrite (start_config_error_at E fuel dm root h e Hl Hcfg), He.
    split; reflexivity.
  - intros cfg Hl Hcfg.
    destruct (start_run_phase E fuel dm root h cfg Hl Hcfg) as [present Hphase].
    exists present. cbv zeta in *. intros e Hrole He.
    destruct Hphase as [[Hd _]|(rh & handled & Hex & Heq)];
      [rewrite Hrole in Hd; discriminate Hd|].
    rewrite Hrole in Hex.
    assert (Hh : exists lvl msg,
              start_except e = Some (log main_logger lvl msg) /\
              rh = Ret tt /\ handled = [EvLog main_logger lvl msg]).
    { inversion Hex as [|e' Hnone|e' lvl msg Hsome]; subst.
      - destruct (start_except_none _ Hnone) as [Hf Hk].
        destruct He as [He|He]; [rewrite He in Hf; discriminate Hf | contradiction].
      - exists lvl, msg. auto. }
    destruct Hh as (lvl & msg & Hsome & -> & ->).
    exists lvl, msg. split; [exact Hsome|].
    split; [apply (start_except_unnamed _ _ _ Hsome)|].
    rewrite Heq. cbn [fst snd].
    split; [reflexivity|].
    split; [destruct (fst (shutdown_server _ _ _ _)) as [[]|e'|]; reflexivity|].
    intros Hdown. rewrite Hdown. split; reflexivity.
  - intros Hl. rewrite (stop_not_running_at E fuel h Hl). split; reflexivity.
Qed.

Lemma start_and_stop_exit_codes_witness :
  exit_status (fst (start (env_role_raises (PyException "boom")) 5 0 false []))
  = Exited 0 /\
  In (EvLog main_logger ERROR "Unhandled exception: boom")
     (snd (start (env_role_raises (PyException "boom")) 5 0 false [])) /\
  exit_status (fst (start env_stale_record 5 0 false [])) = Exited 1 /\
  exit_status (fst (stop env_healthy 5 [])) = Exited 0.
Proof.
  set (E0 := env_role_raises (PyException "boom")).
  destruct (start_and_stop_exit_codes E0 5 0%Z false []) as (_ & _ & Hrole & _).
  destruct (start_and_stop_exit_codes env_stale_record 5 0%Z false []) as (Hbusy & _).
  destruct (start_and_stop_exit_codes env_healthy 5 0%Z false [])
    as (_ & _ & _ & Hstop & _).
  destruct (Hrole worker_config) as [present Hraised];
    [left; reflexivity | reflexivity |].
  cbv zeta in Hraised.
  destruct (Hraised (PyException "boom")) as (lvl & msg & _ & Hline & Hevs & _ & Hret);
    [vm_compute; reflexivity | left; reflexivity |].
  destruct Hline as [Hk|[Hk|[[m Hk]|[-> ->]]]]; try discriminate Hk.
  destruct Hret as [_ Hcode]; [vm_compute; reflexivity|].
  split; [exact Hcode|]. split.
  - rewrite Hevs. apply in_or_app. left. apply in_or_app. right.
    right. right. apply in_or_app. right. left. reflexivity.
  - split; [apply (Hbusy 4242%Z); [reflexivity | lia]|].
    apply Hstop. reflexivity.
Defined.

(** C8, as the spec states it, fails in both directions: when the role
    raises [RuntimeError('boom')], [start] logs it as an unhandled
    exception, shuts down, and the script ends with exit code 0, not 1;
    and [stop], which is none of the three cases of the claim, ends with
    exit code 1 when a termination signal is refused. *)
Lemma exit_code_not_as_claimed :
  In (EvLog main_logger ERROR "Unhandled exception: boom")
     (snd (run (script (env_role_raises (PyException "boom")) 5 start_args))) /\
  exit_status (fst (run (script (env_role_raises (PyException "boom")) 5 start_args)))
  = Exited 0 /\
  exit_status (fst (run (script env_stale_record 5 stop_args))) = Exited 1.
Proof. vm_compute. split; [tauto | split; reflexivity]. Qed.

(** ** Errors of [stop] and [status] *)

Lemma status_returns E h : fst (status E h) = Ret tt.
Proof.
  unfold status, get_running_processes, print. cbv zeta.
  rewrite bind_ask. cbn [fst]. simpl for_each.
  rewrite !bind_emit. reflexivity.
Qed.

(** [shutdown_daemon] from the answers of the record store and of the
    system. *)
Lemma shutdown_daemon_at E name h :
  shutdown_daemon E name h
  = match parent_pid E (h ++ [EvCall "shutdown_daemon" name]) name with
    | None => (Ret tt, [EvCall "shutdown_daemon" name; EvGetParentPid name None])
    | Some ppid =>
        let k := os_kill_answer E
                   (h ++ [EvCall "shutdown_daemon" name; EvGetParentPid name (Some ppid);
                          shutting_down_line name ppid]) ppid in
        (kill_result k,
         [EvCall "shutdown_daemon" name; EvGetParentPid name (Some ppid);
          shutting_down_line name ppid; EvKill ppid k]
           ++ match k with
              | Delivered => unrecord_if_engine name ppid
              | _ => []
              end)
    end.
Proof.
  unfold shutdown_daemon, get_parent_pid, info, log, os_kill, delete_pid,
    shutting_down_line, unrecord_if_engine.
  cbv [bind ask emit ret raise].
  destruct (parent_pid E _ name) as [ppid|]; cbn; [|reflexivity].
  rewrite <- !app_assoc. cbn [app].
  destruct (os_kill_answer E _ ppid); cbn; try reflexivity.
  destruct (name =? ENGINE_DAEMON_NAME)%string; reflexivity.
Qed.

Lemma for_each_app {A} (xs ys : list A) (body : A -> M unit) h :
  for_each (xs ++ ys) body h
  = match fst (for_each xs body h) with
    | Ret _ => prepend (snd (for_each xs body h))
                 (for_each ys body (h ++ snd (for_each xs body h)))
    | Raise e => (Raise e, snd (for_each xs body h))
    | Diverge => (Diverge, snd (for_each xs body h))
    end.
Proof.
  revert h. induction xs as [|x xs IH]; intros h.
  - cbn [app for_each ret fst snd]. rewrite app_nil_r. unfold prepend.
    destruct (for_each ys body h); reflexivity.
  - cbn [app for_each]. rewrite !bind_prepend.
    destruct (body x h) as [[[]|e|] evs]; cbn [fst snd]; try reflexivity.
    rewrite IH.
    destruct (for_each xs body (h ++ evs)) as [[[]|e|] evs']; cbn [prepend fst snd];
      try reflexivity.
    unfold prepend. cbn [fst snd]. rewrite <- !app_assoc. reflexivity.
Qed.

(** [shutdown_server] when the daemons [done] were dealt with and the
    system refuses the signal to the next one. *)
Lemma shutdown_server_refused_at E fuel server_pid h done name rest evs1 ppid :
  shutdown_order = done ++ name :: rest ->
  let h1 := h ++ [EvCall "shutdown_server" (string_of_Z server_pid)] in
  for_each done (shutdown_daemon E) h1 = (Ret tt, evs1) ->
  parent_pid E (h1 ++ evs1 ++ [EvCall "shutdown_daemon" name]) name = Some ppid ->
  let k := os_kill_answer E
             (h1 ++ evs1 ++ [EvCall "shutdown_daemon" name; EvGetParentPid name (Some ppid);
                             shutting_down_line name ppid]) ppid in
  k <> Delivered ->
  shutdown_server E fuel server_pid h
  = (kill_result k,
     EvCall "shutdown_server" (string_of_Z server_pid)
       :: evs1 ++ [EvCall "shutdown_daemon" name; EvGetParentPid name (Some ppid);
                   shutting_down_line name ppid; EvKill ppid k]).
Proof.
  intros Horder h1 Hdone Hppid k Hk.
  unfold shutdown_server. cbv zeta. rewrite bind_emit_prepend. fold h1.
  rewrite bind_prepend, Horder, for_each_app, Hdone. cbn [fst snd].
  cbn [for_each]. rewrite bind_prepend, shutdown_daemon_at.
  rewrite <- !app_assoc, Hppid. cbv zeta. rewrite <- !app_assoc. cbn [app]. fold k.
  destruct k; [destruct (Hk eq_refl) | |]; cbn [kill_result prepend fst snd app];
    rewrite ?app_nil_r; reflexivity.
Qed.

Lemma stop_lookup_error_at E fuel h e :
  wazuh_server_pid E h = inl e -> e <> StopIteration ->
  stop E fuel h = (Raise e, [EvServerPid (inl e)]).
Proof.
  intros Hl He. unfold stop. rewrite bind_prepend.
  match goal with
  | |- context [fst (?m h)] => assert (H1 : m h = (Raise e, [EvServerPid (inl e)]))
  end.
  { unfold try_except, get_wazuh_server_pid, warning, log, sys_exit.
    cbv [bind attempt ask emit ret raise]. rewrite Hl.
    destruct e; try reflexivity. contradiction. }
  rewrite H1. reflexivity.
Qed.

(** [stop] when a supervisor is found: [shutdown_server], then the signal
    to the supervisor itself. *)
Lemma stop_found_at E fuel h spid :
  wazuh_server_pid E h = inr spid ->
  let down := shutdown_server E fuel spid (h ++ [EvServerPid (inr spid)]) in
  stop E fuel h
  = match fst down with
    | Ret _ =>
        let k := os_kill_answer E (h ++ EvServerPid (inr spid) :: snd down) spid in
        (kill_result k, EvServerPid (inr spid) :: snd down ++ [EvKill spid k])
    | Raise e => (Raise e, EvServerPid (inr spid) :: snd down)
    | Diverge => (Diverge, EvServerPid (inr spid) :: snd down)
    end.
Proof.
  intros Hl. cbv zeta. unfold stop. rewrite bind_prepend.
  match goal with
  | |- context [fst (?m h)] => assert (H1 : m h = (Ret spid, [EvServerPid (inr spid)]))
  end.
  { unfold try_except, get_wazuh_server_pid, warning, log, sys_exit.
    cbv [bind attempt ask emit ret raise]. rewrite Hl. reflexivity. }
  rewrite H1. cbn [fst snd]. clear H1.
  rewrite bind_prepend.
  destruct (shutdown_server E fuel spid (h ++ [EvServerPid (inr spid)])) as [[[]|e|] down];
    cbn [fst snd prepend app]; try reflexivity.
  unfold os_kill. rewrite bind_ask_prepend. rewrite <- !app_assoc. cbn [app].
  destruct (os_kill_answer E _ spid); reflexivity.
Qed.

(** How [stop] may raise, read off a run. *)
Lemma stop_raises_by_trace E fuel h :
  fst (status E h) = Ret tt /\
  (forall r evs, stop E fuel h = (r, evs) ->
     forall e, r = Raise e ->
       (e = SystemExit 0 /\ evs = [EvServerPid (inl StopIteration); not_running_line]) \/
       (e <> StopIteration /\ evs = [EvServerPid (inl e)]) \/
       (exists pre pid k,
          evs = pre ++ [EvKill pid k] /\ k <> Delivered /\ kill_result k = Raise e)).
Proof.
  split; [apply status_returns|].
  intros r evs Hrun e ->.
  pose proof (stop_stop_run E fuel h) as Hshape.
  rewrite Hrun in Hshape. cbn [fst snd] in Hshape.
  inversion Hshape as [|e' He'|pid h' rs down Hs Hne|pid h' down k Hs]; subst.
  - left. auto.
  - right. left. auto.
  - right. right.
    destruct (shutdown_run_facts _ _ _ _ _ Hs) as (_ & _ & Hraise).
    destruct (Hraise e eq_refl) as (pre & ppid & k & -> & Hk & Hres).
    exists (EvServerPid (inr pid) :: pre), ppid, k. auto.
  - right. right.
    exists (EvServerPid (inr pid) :: down), pid, k.
    match goal with Hres : kill_result k = Raise e |- _ =>
      split; [reflexivity|]; split; [|reflexivity];
      intros ->; discriminate Hres
    end.
Qed.

(** C9, as the code has it: [status] always returns.  [stop] ends through
    [SystemExit(0)] after the warning that no supervisor is running, and
    with the exception of the supervisor lookup when that raises another
    one.  When a supervisor is found, a termination signal that the system
    refuses is not caught anywhere in [shutdown_daemon], [shutdown_server]
    or [stop]: the signal to a daemon whose record holds a pid that the
    system refuses ends [stop] there, with the error of the signal
    ([ProcessLookupError] for a pid that has exited), and so does the final
    signal to the supervisor.  [stop] raises in no other way. *)
Theorem status_returns_and_stop_raises E fuel h :
  fst (status E h) = Ret tt /\
  (wazuh_server_pid E h = inl StopIteration ->
   stop E fuel h
   = (Raise (SystemExit 0), [EvServerPid (inl StopIteration); not_running_line])) /\
  (forall e,
     wazuh_server_pid E h = inl e -> e <> StopIteration ->
     stop E fuel h = (Raise e, [EvServerPid (inl e)])) /\
  (forall spid done name rest evs1 ppid,
     wazuh_server_pid E h = inr spid ->
     shutdown_order = done ++ name :: rest ->
     let h1 := h ++ [EvServerPid (inr spid);
                     EvCall "shutdown_server" (string_of_Z spid)] in
     for_each done (shutdown_daemon E) h1 = (Ret tt, evs1) ->
     parent_pid E (h1 ++ evs1 ++ [EvCall "shutdown_daemon" name]) name = Some ppid ->
     let k := os_kill_answer E
                (h1 ++ evs1 ++ [EvCall "shutdown_daemon" name;
                                EvGetParentPid name (Some ppid);
                                shutting_down_line name ppid]) ppid in
     k <> Delivered ->
     (exists e, kill_result k = Raise e) /\
     stop E fuel h
     = (kill_result k,
        EvServerPid (inr spid) :: EvCall "shutdown_server" (string_of_Z spid)
          :: evs1 ++ [EvCall "shutdown_daemon" name; EvGetParentPid name (Some ppid);
                      shutting_down_line name ppid; EvKill ppid k])) /\
  (forall spid,
     wazuh_server_pid E h = inr spid ->
     let down := shutdown_server E fuel spid (h ++ [EvServerPid (inr spid)]) in
     fst down = Ret tt ->
     let k := os_kill_answer E (h ++ EvServerPid (inr spid) :: snd down) spid in
     stop E fuel h = (kill_result k, EvServerPid (inr spid) :: snd down ++ [EvKill spid k])) /\
  (forall r evs, stop E fuel h = (r, evs) ->
     forall e, r = Raise e ->
       (e = SystemExit 0 /\ evs = [EvServerPid (inl StopIteration); not_running_line]) \/
       (e <> StopIteration /\ evs = [EvServerPid (inl e)]) \/
       (exists pre pid k,
          evs = pre ++ [EvKill pid k] /\ k <> Delivered /\ kill_result k = Raise e)).
Proof.
  split; [apply status_returns|].
  split; [apply stop_not_running_at|].
  split; [apply stop_lookup_error_at|].
  split; [|split; [|apply stop_raises_by_trace]].
  - intros spid done name rest evs1 ppid Hl Horder h1 Hdone Hppid k Hk.
    split; [destruct k; [destruct (Hk eq_refl) | |]; eexists; reflexivity|].
    pose proof (stop_found_at E fuel h spid Hl) as Hstop. cbv zeta in Hstop.
    assert (Hh1 : h1 = (h ++ [EvServerPid (inr spid)])
                         ++ [EvCall "shutdown_server" (string_of_Z spid)])
      by (unfold h1; rewrite <- app_assoc; reflexivity).
    pose proof (shutdown_server_refused_at E fuel spid (h ++ [EvServerPid (inr spid)])
                  done name rest evs1 ppid Horder) as Hdown.
    cbv zeta in Hdown. rewrite <- Hh1 in Hdown.
    specialize (Hdown Hdone Hppid Hk). fold k in Hdown.
    rewrite Hdown in Hstop. cbn [fst snd] in Hstop. rewrite Hstop.
    destruct k; [destruct (Hk eq_refl) | |]; reflexivity.
  - intros spid Hl down Hret k.
    pose proof (stop_found_at E fuel h spid Hl) as Hstop. cbv zeta in Hstop.
    fold down in Hstop. rewrite Hret in Hstop. exact Hstop.
Qed.

Lemma status_returns_and_stop_raises_witness :
  stop env_stale_record 5 []
  = (Raise (ProcessLookupError "[Errno 3] No such process"),
     [EvServerPid (inr 4242%Z); EvCall "shutdown_server" "4242";
      EvCall "shutdown_daemon" ENGINE_DAEMON_NAME;
      EvGetParentPid ENGINE_DAEMON_NAME (Some 301%Z);
      shutting_down_line ENGINE_DAEMON_NAME 301; EvKill 301 NoSuchProcess]) /\
  fst (stop env_healthy 5 []) = Raise (SystemExit 0).
Proof.
  destruct (status_returns_and_stop_raises env_stale_record 5 [])
    as (_ & _ & _ & Hrefused & _).
  destruct (status_returns_and_stop_raises env_healthy 5 []) as (_ & Hnone & _).
  split.
  - pose proof (Hrefused 4242%Z [] ENGINE_DAEMON_NAME
                  [MANAGEMENT_API_DAEMON_NAME; COMMS_API_DAEMON_NAME] [] 301%Z
                  eq_refl eq_refl eq_refl eq_refl) as Hstale.
    cbv zeta in Hstale.
    destruct Hstale as (_ & Hstop); [vm_compute; discriminate|].
    rewrite Hstop. reflexivity.
  - rewrite Hnone; reflexivity.
Defined.

(** C9, as the spec states it, fails: with a stale record of the engine,
    the termination signal to the dead pid raises [ProcessLookupError],
    which propagates out of [stop]; the script ends with a traceback and
    exit code 1. *)
Lemma stop_raises_on_stale_record :
  fst (run (script env_stale_record 5 stop_args))
  = Raise (ProcessLookupError "[Errno 3] No such process") /\
  exit_status (fst (run (script env_stale_record 5 stop_args))) = Exited 1.
Proof. vm_compute. split; reflexivity. Qed.

(** * Further properties *)

(** ** Launching one daemon *)

Lemma in_record_if_engine name pid ev :
  In ev (record_if_engine name pid) ->
  name = ENGINE_DAEMON_NAME /\ ev = EvCreatePid ENGINE_DAEMON_NAME pid.
Proof.
  unfold record_if_engine.
  destruct (String.eqb_spec name ENGINE_DAEMON_NAME) as [->|Hne]; simpl;
    [intros [H|[]]; auto | intros []].
Qed.

(** X1: when the spawn itself fails, [start_daemon] raises the
    [WazuhDaemonError] that wraps the message of the [OSError]; the
    process is not waited for and nothing else happens. *)
Theorem start_daemon_spawn_failure E name args h r evs args' msg :
  start_daemon E name args h = (r, evs) ->
  In (EvPopen args' (SpawnError msg)) evs ->
  args' = args /\
  r = Raise (WazuhDaemonError ("Error starting " ++ name ++ ": " ++ msg)%string) /\
  evs = launch_prefix name ++ [EvPopen args (SpawnError msg)].
Proof.
  intros Hrun Hin.
  pose proof (start_daemon_launch_run E name args h) as Hshape.
  rewrite Hrun in Hshape. cbn [fst snd] in Hshape.
  destruct Hshape as [msg0|pid|pid rc Hrc|pid]; simpl in Hin.
  - destruct Hin as [H|[H|[H|[]]]]; try discriminate H.
    injection H as <- <-. auto.
  - destruct Hin as [H|[H|[H|[H|[]]]]]; discriminate H.
  - destruct Hin as [H|[H|[H|[H|[]]]]]; discriminate H.
  - destruct Hin as [H|[H|[H|[H|H]]]]; try discriminate H.
    apply in_app_or in H. destruct H as [H|[H|[]]]; [|discriminate H].
    apply in_record_if_engine in H. destruct H as [_ H]. discriminate H.
Qed.

Lemma start_daemon_spawn_failure_witness :
  fst (start_daemon
         (sample_env (fun _ _ => SpawnError "[Errno 2] No such file or directory")
            (fun _ _ => StillRunning) (fun _ _ => Delivered) (fun _ _ => None)
            (fun _ => []) (fun _ => inl StopIteration) (fun _ => inr worker_config)
            (fun _ _ => true) (fun _ => GatherPending))
         COMMS_API_DAEMON_NAME ["python3"] [])
  = Raise (WazuhDaemonError
             "Error starting wazuh-comms-apid: [Errno 2] No such file or directory").
Proof.
  set (E := sample_env _ _ _ _ _ _ _ _ _).
  pose (run0 := start_daemon E COMMS_API_DAEMON_NAME ["python3"] []).
  destruct (start_daemon_spawn_failure E COMMS_API_DAEMON_NAME ["python3"] []
              (fst run0) (snd run0) ["python3"] "[Errno 2] No such file or directory"
              (surjective_pairing run0)) as (_ & Hr & _).
  - vm_compute. tauto.
  - exact Hr.
Defined.

(** X2: whatever happens, one [start_daemon] spawns one process and waits
    for it at most once; a lifecycle record it writes is the engine's, for
    the pid it spawned, written after the window elapsed with the process
    still running. *)
Theorem start_daemon_spawns_once_records_engine_only E name args h r evs :
  start_daemon E name args h = (r, evs) ->
  spawned_commands evs = [args] /\
  (count_events is_wait evs <= 1)%nat /\
  (forall n p,
     In (EvCreatePid n p) evs ->
     name = ENGINE_DAEMON_NAME /\ n = ENGINE_DAEMON_NAME /\ r = Ret tt /\
     In (EvPopen args (Spawned p)) evs /\ In (EvWait p 2 StillRunning) evs).
Proof.
  intros Hrun.
  pose proof (start_daemon_launch_run E name args h) as Hshape.
  rewrite Hrun in Hshape. cbn [fst snd] in Hshape.
  destruct Hshape as [msg0|pid|pid rc Hrc|pid].
  - split; [reflexivity|]. split; [unfold count_events; simpl; lia|].
    intros n p H. simpl in H.
    repeat (destruct H as [H|H]; [discriminate H|]). destruct H.
  - split; [reflexivity|]. split; [unfold count_events; simpl; lia|].
    intros n p H. simpl in H.
    repeat (destruct H as [H|H]; [discriminate H|]). destruct H.
  - split; [reflexivity|]. split; [unfold count_events; simpl; lia|].
    intros n p H. simpl in H.
    repeat (destruct H as [H|H]; [discriminate H|]). destruct H.
  - assert (Hshape : spawned_commands (record_if_engine name pid) = [] /\
                     count_events is_wait (record_if_engine name pid) = 0%nat)
      by (destruct (record_if_engine_cases name pid) as [-> | ->]; split; reflexivity).
    destruct Hshape as (Hsc & Hcw).
    split; [|split].
    + unfold spawned_commands in *. simpl. rewrite flat_map_app, Hsc. reflexivity.
    + unfold count_events in *. simpl. rewrite filter_app, length_app, Hcw.
      simpl. lia.
    + intros n p Hin. simpl in Hin.
      destruct Hin as [H|[H|[H|[H|H]]]]; try discriminate H.
      apply in_app_or in H. destruct H as [H|[H|[]]]; [|discriminate H].
      apply in_record_if_engine in H. destruct H as [-> H].
      injection H as <- <-.
      repeat split; simpl; auto.
Qed.

Lemma start_daemon_spawns_once_records_engine_only_witness :
  spawned_commands (snd (start_daemon env_healthy ENGINE_DAEMON_NAME ["wazuh-engine"] []))
  = [["wazuh-engine"]] /\
  In (EvWait 101 2 StillRunning)
     (snd (start_daemon env_healthy ENGINE_DAEMON_NAME ["wazuh-engine"] [])).
Proof.
  pose (run0 := start_daemon env_healthy ENGINE_DAEMON_NAME ["wazuh-engine"] []).
  destruct (start_daemon_spawns_once_records_engine_only env_healthy ENGINE_DAEMON_NAME
              ["wazuh-engine"] [] (fst run0) (snd run0) (surjective_pairing run0))
    as (Hs & _ & Hrec).
  split; [exact Hs|].
  destruct (Hrec ENGINE_DAEMON_NAME 101%Z) as (_ & _ & _ & _ & Hw);
    [vm_compute; tauto | exact Hw].
Defined.

(** ** Launching the three daemons *)

Lemma engine_log_level_known dm :
  has_engine_log_level dm = true -> engine_log_level dm = ret (engine_level_name dm).
Proof.
  unfold has_engine_log_level, engine_log_level, engine_level_name.
  destruct dm as [|p|p]; try reflexivity; try discriminate;
    destruct p as [[p|p|]|[p|p|]|]; try reflexivity; discriminate.
Qed.

Lemma engine_log_level_unknown dm :
  has_engine_log_level dm = false ->
  engine_log_level dm = raise (KeyError (string_of_Z dm)).
Proof.
  unfold has_engine_log_level, engine_log_level.
  destruct dm as [|p|p]; try reflexivity; try discriminate;
    destruct p as [[p|p|]|[p|p|]|]; try reflexivity; discriminate.
Qed.

Lemma start_daemons_known E dm root h :
  has_engine_log_level dm = true ->
  start_daemons E dm root h
  = prepend [EvCall "start_daemons" ""]
      (for_each (daemon_commands E (engine_level_name dm) root)
         (fun d => start_daemon E (fst d) (snd d)) (h ++ [EvCall "start_daemons" ""])).
Proof.
  intros Hdm. unfold start_daemons.
  rewrite bind_emit_prepend, (engine_log_level_known dm Hdm), bind_ret, app_nil_r.
  reflexivity.
Qed.

Lemma start_daemons_unknown E dm root h :
  has_engine_log_level dm = false ->
  start_daemons E dm root h = (Raise (KeyError (string_of_Z dm)), [EvCall "start_daemons" ""]).
Proof.
  intros Hdm. unfold start_daemons.
  rewrite bind_emit_prepend, (engine_log_level_unknown dm Hdm). reflexivity.
Qed.

Lemma spawned_commands_app evs1 evs2 :
  spawned_commands (evs1 ++ evs2) = spawned_commands evs1 ++ spawned_commands evs2.
Proof. apply flat_map_app. Qed.

Lemma launch_run_spawned name args r evs :
  launch_run name args r evs -> spawned_commands evs = [args].
Proof.
  destruct 1 as [msg|pid|pid rc Hrc|pid]; try reflexivity.
  destruct (record_if_engine_cases name pid) as [-> | ->]; reflexivity.
Qed.

Lemma launch_seq_spawned ds r evs :
  launch_seq ds r evs ->
  exists k, spawned_commands evs = firstn k (map snd ds) /\
            (r = Ret tt -> spawned_commands evs = map snd ds).
Proof.
  induction 1 as [|[name args] ds e evs Hone|[name args] ds evs Hone
                  |[name args] ds evs r evs' Hone Hrest IH]; simpl in *.
  - exists 0%nat. split; reflexivity.
  - exists 1%nat. rewrite (launch_run_spawned _ _ _ _ Hone).
    split; [reflexivity | discriminate].
  - destruct (launch_run_not_diverge _ _ _ Hone).
  - destruct IH as (k & Hk & Hret). exists (S k).
    rewrite spawned_commands_app, (launch_run_spawned _ _ _ _ Hone).
    simpl. rewrite Hk. split; [reflexivity|].
    intros Hr. rewrite <- Hk, (Hret Hr). reflexivity.
Qed.

(** X3: [start_daemons] fails with a [KeyError] exactly when the debug
    mode is no key of its log-level table (0, 1, 2); it then fails on entry,
    with the debug mode as the missing key and before any daemon is
    launched. *)
Theorem start_daemons_unknown_debug_mode E dm root h r evs :
  start_daemons E dm root h = (r, evs) ->
  ((exists key, r = Raise (KeyError key)) <-> has_engine_log_level dm = false) /\
  (has_engine_log_level dm = false ->
     r = Raise (KeyError (string_of_Z dm)) /\ evs = [EvCall "start_daemons" ""]).
Proof.
  intros Hrun.
  destruct (has_engine_log_level dm) eqn:Hdm.
  - rewrite (start_daemons_known E dm root h Hdm) in Hrun.
    pose proof (for_each_launch_seq E (daemon_commands E (engine_level_name dm) root)
                  (h ++ [EvCall "start_daemons" ""])) as Hseq.
    cbv zeta in Hseq.
    destruct (for_each _ _ _) as [r' evs']. unfold prepend in Hrun.
    cbn [fst snd] in Hrun, Hseq. injection Hrun as <- <-.
    apply launch_seq_outcome in Hseq.
    split; [|discriminate].
    split; [|discriminate].
    intros [key ->]. destruct Hseq as [H|(n & reason & _ & H)]; discriminate H.
  - rewrite (start_daemons_unknown E dm root h Hdm) in Hrun.
    injection Hrun as <- <-.
    split; [split; eauto|]. auto.
Qed.

Lemma start_daemons_unknown_debug_mode_witness :
  fst (start_daemons env_healthy 3 true []) = Raise (KeyError "3") /\
  snd (start_daemons env_healthy 3 true []) = [EvCall "start_daemons" ""].
Proof.
  pose (run0 := start_daemons env_healthy 3 true []).
  destruct (start_daemons_unknown_debug_mode env_healthy 3%Z true []
              (fst run0) (snd run0) (surjective_pairing run0)) as (_ & Hkey).
  apply Hkey. reflexivity.
Defined.

(** X4: the command lines [start_daemons] hands to [subprocess.Popen] are,
    in order, those of the engine (with the log level of the debug mode),
    of the communications API and of the management API, the two APIs with
    [-r] when running as root; the run stops at the first launch that
    fails, and all three were spawned when it returns. *)
Theorem start_daemons_command_lines E dm root h r evs :
  start_daemons E dm root h = (r, evs) ->
  (exists k,
     spawned_commands evs
     = firstn k (map snd (daemon_commands E (engine_level_name dm) root))) /\
  (r = Ret tt ->
     spawned_commands evs = map snd (daemon_commands E (engine_level_name dm) root)).
Proof.
  intros Hrun.
  destruct (has_engine_log_level dm) eqn:Hdm.
  - rewrite (start_daemons_known E dm root h Hdm) in Hrun.
    pose proof (for_each_launch_seq E (daemon_commands E (engine_level_name dm) root)
                  (h ++ [EvCall "start_daemons" ""])) as Hseq.
    cbv zeta in Hseq.
    destruct (for_each _ _ _) as [r' evs']. unfold prepend in Hrun.
    cbn [fst snd] in Hrun, Hseq. injection Hrun as <- <-.
    apply launch_seq_spawned in Hseq. destruct Hseq as (k & Hk & Hret).
    split; [exists k; exact Hk | exact Hret].
  - rewrite (start_daemons_unknown E dm root h Hdm) in Hrun.
    injection Hrun as <- <-.
    split; [exists 0%nat; reflexivity | discriminate].
Qed.

Lemma start_daemons_command_lines_witness :
  spawned_commands (snd (start_daemons env_healthy 1 true []))
  = [ ["/usr/share/wazuh-server/bin/wazuh-engine"; "server"; "-l"; "debug"; "start"];
      ["/usr/share/wazuh-server/framework/python/bin/python3";
       "/usr/share/wazuh-server/apis/scripts/wazuh_comms_apid.py"; "-r"];
      ["/usr/share/wazuh-server/framework/python/bin/python3";
       "/usr/share/wazuh-server/api/scripts/wazuh_apid.py"; "-r"] ].
Proof.
  pose (run0 := start_daemons env_healthy 1 true []).
  destruct (start_daemons_command_lines env_healthy 1%Z true []
              (fst run0) (snd run0) (surjective_pairing run0)) as (_ & Hall).
  etransitivity; [apply Hall; vm_compute; reflexivity | vm_compute; reflexivity].
Defined.

(** ** Signalling the daemons *)

Lemma in_unrecord_if_engine name ppid ev :
  In ev (unrecord_if_engine name ppid) ->
  name = ENGINE_DAEMON_NAME /\ ev = EvDeletePid ENGINE_DAEMON_NAME ppid.
Proof.
  unfold unrecord_if_engine.
  destruct (String.eqb_spec name ENGINE_DAEMON_NAME) as [->|Hne]; simpl;
    [intros [H|[]]; auto | intros []].
Qed.

(** X5: [shutdown_daemon] deletes a lifecycle record only for the engine,
    and only after the signal to the pid of that record was delivered; a
    daemon without a record is not signalled; a refused signal is raised to
    the caller and leaves the record in place. *)
Theorem shutdown_daemon_record_removal E name h r evs :
  shutdown_daemon E name h = (r, evs) ->
  (forall n p, In (EvDeletePid n p) evs ->
     name = ENGINE_DAEMON_NAME /\ n = ENGINE_DAEMON_NAME /\ r = Ret tt /\
     In (EvGetParentPid name (Some p)) evs /\ In (EvKill p Delivered) evs) /\
  (In (EvGetParentPid name None) evs -> r = Ret tt /\ signals evs = []) /\
  (forall p k, In (EvKill p k) evs -> k <> Delivered ->
     r = kill_result k /\ forall n q, ~ In (EvDeletePid n q) evs) /\
  (name = ENGINE_DAEMON_NAME ->
   forall p, In (EvKill p Delivered) evs -> In (EvDeletePid ENGINE_DAEMON_NAME p) evs).
Proof.
  intros Hrun.
  pose proof (shutdown_daemon_signal_run E name h) as Hshape.
  rewrite Hrun in Hshape. cbn [fst snd] in Hshape.
  destruct Hshape as [|ppid|ppid|ppid].
  - split; [|split; [|split]].
    + intros n p [H|[H|[]]]; discriminate H.
    + intros _. split; reflexivity.
    + intros p k [H|[H|[]]]; discriminate H.
    + intros _ p [H|[H|[]]]; discriminate H.
  - split; [|split; [|split]].
    + intros n p Hin. simpl in Hin.
      destruct Hin as [H|[H|[H|[H|H]]]]; try discriminate H.
      apply in_unrecord_if_engine in H. destruct H as [-> H].
      injection H as <- <-. repeat split; simpl; auto.
    + intros Hin. simpl in Hin.
      destruct Hin as [H|[H|[H|[H|H]]]]; try discriminate H.
      apply in_unrecord_if_engine in H. destruct H as [_ H]. discriminate H.
    + intros p k Hin Hk. simpl in Hin.
      destruct Hin as [H|[H|[H|[H|H]]]]; try discriminate H.
      * injection H as _ <-. contradiction.
      * apply in_unrecord_if_engine in H. destruct H as [_ H]. discriminate H.
    + intros -> p Hin. simpl in Hin. simpl.
      destruct Hin as [H|[H|[H|[H|H]]]]; try discriminate H.
      * injection H as <-. auto 10.
      * destruct H as [H|[]]. discriminate H.
  - split; [|split; [|split]].
    + intros n p [H|[H|[H|[H|[]]]]]; discriminate H.
    + intros [H|[H|[H|[H|[]]]]]; discriminate H.
    + intros p k [H|[H|[H|[H|[]]]]] Hk; try discriminate H.
      injection H as _ <-. split; [reflexivity|].
      intros n q [H|[H|[H|[H|[]]]]]; discriminate H.
    + intros _ p [H|[H|[H|[H|[]]]]]; discriminate H.
  - split; [|split; [|split]].
    + intros n p [H|[H|[H|[H|[]]]]]; discriminate H.
    + intros [H|[H|[H|[H|[]]]]]; discriminate H.
    + intros p k [H|[H|[H|[H|[]]]]] Hk; try discriminate H.
      injection H as _ <-. split; [reflexivity|].
      intros n q [H|[H|[H|[H|[]]]]]; discriminate H.
    + intros _ p [H|[H|[H|[H|[]]]]]; discriminate H.
Qed.

Lemma shutdown_daemon_record_removal_witness :
  In (EvKill 301 Delivered) (snd (shutdown_daemon env_engine_lingers ENGINE_DAEMON_NAME [])) /\
  fst (shutdown_daemon env_stale_record ENGINE_DAEMON_NAME [])
  = Raise (ProcessLookupError "[Errno 3] No such process").
Proof.
  pose (run0 := shutdown_daemon env_engine_lingers ENGINE_DAEMON_NAME []).
  pose (run1 := shutdown_daemon env_stale_record ENGINE_DAEMON_NAME []).
  destruct (shutdown_daemon_record_removal env_engine_lingers ENGINE_DAEMON_NAME []
              (fst run0) (snd run0) (surjective_pairing run0)) as (Hdel & _).
  destruct (shutdown_daemon_record_removal env_stale_record ENGINE_DAEMON_NAME []
              (fst run1) (snd run1) (surjective_pairing run1)) as (_ & _ & Href & _).
  split.
  - destruct (Hdel ENGINE_DAEMON_NAME 301%Z) as (_ & _ & _ & _ & Hk);
      [vm_compute; tauto | exact Hk].
  - destruct (Href 301%Z NoSuchProcess) as (Hr & _);
      [vm_compute; tauto | discriminate | exact Hr].
Defined.

(** ** Shutting the server down *)

Lemma each_run_first_bad {X} (one : X -> outcome unit -> list event -> Prop)
    (bad : event -> bool) (P : outcome unit -> event -> Prop) :
  (forall x evs, one x (Ret tt) evs -> none bad evs = true) ->
  (forall x r evs pre ev post,
     one x r evs -> evs = pre ++ ev :: post -> bad ev = true -> post = [] /\ P r ev) ->
  forall xs r evs, each_run one xs r evs ->
  forall pre ev post, evs = pre ++ ev :: post -> bad ev = true -> post = [] /\ P r ev.
Proof.
  intros Hret Hone xs r evs Hrun.
  induction Hrun as [|x xs e evs H1|x xs evs H1|x xs evs r evs' H1 Hrest IH];
    intros pre ev post Heq Hbad.
  - destruct pre; discriminate.
  - eapply Hone; eauto.
  - eapply Hone; eauto.
  - pose proof (Hret _ _ H1) as Hnone.
    destruct (split_after_none bad evs evs' pre post ev Hnone Hbad Heq) as (l & -> & Hl).
    eapply IH; eauto.
Qed.

Lemma each_run_none {X} (one : X -> outcome unit -> list event -> Prop)
    (p : event -> bool) :
  (forall x r evs, one x r evs -> none p evs = true) ->
  forall xs r evs, each_run one xs r evs -> none p evs = true.
Proof.
  intros Hone xs r evs Hrun.
  induction Hrun as [|x xs e evs H1|x xs evs H1|x xs evs r evs' H1 Hrest IH]; eauto.
  rewrite none_app, (Hone _ _ _ H1), IH. reflexivity.
Qed.

Lemma each_run_returned_none {X} (one : X -> outcome unit -> list event -> Prop)
    (p : event -> bool) :
  (forall x evs, one x (Ret tt) evs -> none p evs = true) ->
  forall xs evs, each_run one xs (Ret tt) evs -> none p evs = true.
Proof.
  intros Hone xs evs Hrun. remember (Ret tt) as r eqn:Hr in Hrun.
  induction Hrun as [|x xs e evs H1|x xs evs H1|x xs evs r evs' H1 Hrest IH];
    try discriminate; [reflexivity|].
  rewrite none_app, (Hone _ _ H1), (IH Hr). reflexivity.
Qed.

Lemma signal_run_returned name evs :
  signal_run name (Ret tt) evs -> none refused_kill evs = true.
Proof.
  inversion 1; subst; try reflexivity.
  destruct (unrecord_if_engine_cases name ppid) as [-> | ->]; reflexivity.
Qed.

Lemma signal_run_refused name r evs pre ev post :
  signal_run name r evs -> evs = pre ++ ev :: post -> refused_kill ev = true ->
  post = [] /\ exists p k, ev = EvKill p k /\ r = kill_result k.
Proof.
  intros Hrun Heq Hbad.
  destruct Hrun as [|ppid|ppid|ppid].
  - pose proof (signal_run_returned _ _ (signal_no_record name)) as Hn.
    rewrite (none_not_in _ _ _ _ _ Hn Heq) in Hbad. discriminate.
  - pose proof (signal_run_returned _ _ (signal_delivered name ppid)) as Hn.
    rewrite (none_not_in _ _ _ _ _ Hn Heq) in Hbad. discriminate.
  - do 4 (destruct pre as [|? pre]; simpl in Heq; injection Heq as <- Heq;
          try discriminate Hbad).
    + subst post. split; [reflexivity|]. exists ppid, NoSuchProcess. auto.
    + destruct pre; discriminate Heq.
  - do 4 (destruct pre as [|? pre]; simpl in Heq; injection Heq as <- Heq;
          try discriminate Hbad).
    + subst post. split; [reflexivity|]. exists ppid, NotPermitted. auto.
    + destruct pre; discriminate Heq.
Qed.

Lemma signal_run_none_poll name r evs : signal_run name r evs -> none is_poll evs = true.
Proof.
  destruct 1 as [|ppid|ppid|ppid]; try reflexivity.
  destruct (unrecord_if_engine_cases name ppid) as [-> | ->]; reflexivity.
Qed.

Lemma waiting_polls_none_refused n : none refused_kill (waiting_polls n) = true.
Proof. induction n as [|n IH]; simpl; auto. Qed.

(** X6: the first termination signal that the system refuses ends
    [shutdown_server] with the error of that signal: the daemons after it
    are neither looked up nor signalled, the wait for the daemons does not
    begin, and the supervisor's children and record are not reaped. *)
Theorem shutdown_server_stops_at_refused_signal E fuel server_pid h r evs :
  shutdown_server E fuel server_pid h = (r, evs) ->
  forall pre ev post,
    evs = pre ++ ev :: post -> refused_kill ev = true ->
    post = [] /\ (exists p k, ev = EvKill p k /\ r = kill_result k) /\
    none is_poll evs = true /\ none is_reap evs = true.
Proof.
  intros Hrun pre ev post Heq Hbad.
  pose proof (shutdown_server_shutdown_run E fuel server_pid h) as Hshape.
  rewrite Hrun in Hshape. cbn [fst snd] in Hshape.
  pose proof (shutdown_run_facts _ _ _ _ _ Hshape) as (_ & Hreap & _).
  destruct Hshape as [e sig Hsig|sig n Hsig|sig n Hsig Hgone].
  - destruct pre as [|ev0 pre]; simpl in Heq; injection Heq as <- Heq;
      [discriminate Hbad|].
    destruct (each_run_first_bad signal_run refused_kill
                (fun r ev => exists p k, ev = EvKill p k /\ r = kill_result k)
                signal_run_returned signal_run_refused _ _ _ Hsig _ _ _ Heq Hbad)
      as (-> & Hev).
    split; [reflexivity|]. split; [exact Hev|].
    split; [|apply Hreap; discriminate].
    rewrite none_cons.
    rewrite (each_run_none signal_run is_poll signal_run_none_poll _ _ _ Hsig).
    reflexivity.
  - assert (Hn : none refused_kill
                   (EvCall "shutdown_server" (string_of_Z server_pid) :: sig
                      ++ waiting_line :: waiting_polls n) = true).
    { rewrite none_cons, none_app, none_cons, waiting_polls_none_refused,
        (each_run_returned_none signal_run refused_kill signal_run_returned _ _ Hsig).
      reflexivity. }
    rewrite (none_not_in _ _ _ _ _ Hn Heq) in Hbad. discriminate.
  - assert (Hn : none refused_kill
                   (EvCall "shutdown_server" (string_of_Z server_pid) :: sig
                      ++ waiting_line :: waiting_polls n
                      ++ [EvCheckDaemons shutdown_order false;
                          EvDeleteChildPids SERVER_DAEMON_NAME server_pid;
                          EvDeletePid SERVER_DAEMON_NAME server_pid]) = true).
    { rewrite none_cons, none_app, none_cons, none_app, waiting_polls_none_refused,
        (each_run_returned_none signal_run refused_kill signal_run_returned _ _ Hsig).
      reflexivity. }
    rewrite (none_not_in _ _ _ _ _ Hn Heq) in Hbad. discriminate.
Qed.

Lemma shutdown_server_stops_at_refused_signal_witness :
  fst (shutdown_server env_stale_record 5 4242 [])
  = Raise (ProcessLookupError "[Errno 3] No such process") /\
  lookups (snd (shutdown_server env_stale_record 5 4242 []))
  = [(ENGINE_DAEMON_NAME, Some 301%Z)] /\
  none is_reap (snd (shutdown_server env_stale_record 5 4242 [])) = true.
Proof.
  pose (run0 := shutdown_server env_stale_record 5 4242 []).
  destruct (shutdown_server_stops_at_refused_signal env_stale_record 5 4242%Z []
              (fst run0) (snd run0) (surjective_pairing run0)
              (removelast (snd run0)) (EvKill 301 NoSuchProcess) [])
    as (_ & _ & _ & Hreap); [vm_compute; reflexivity | reflexivity |].
  split; [vm_compute; reflexivity|]. split; [vm_compute; reflexivity | exact Hreap].
Defined.

Lemma shutdown_daemon_delivered E name h :
  (forall h' pid, os_kill_answer E h' pid = Delivered) ->
  fst (shutdown_daemon E name h) = Ret tt /\
  none is_time_sleep (snd (shutdown_daemon E name h)) = true.
Proof.
  intros Hk.
  unfold shutdown_daemon, get_parent_pid, os_kill, info, log, delete_pid.
  cbv [bind ask emit ret raise].
  destruct (parent_pid E _ name) as [ppid|]; cbn; [|split; reflexivity].
  rewrite Hk. cbn.
  destruct (name =? ENGINE_DAEMON_NAME)%string; cbn; split; reflexivity.
Qed.

Lemma for_each_shutdown_delivered E ds :
  (forall h' pid, os_kill_answer E h' pid = Delivered) ->
  forall h,
    fst (for_each ds (shutdown_daemon E) h) = Ret tt /\
    none is_time_sleep (snd (for_each ds (shutdown_daemon E) h)) = true.
Proof.
  intros Hk. induction ds as [|d ds IH]; intros h; simpl.
  - split; reflexivity.
  - rewrite bind_run.
    destruct (shutdown_daemon_delivered E d h Hk) as [-> Hn]. cbn [fst snd].
    destruct (IH (h ++ snd (shutdown_daemon E d h))) as [-> Hn'].
    rewrite none_app, Hn, Hn'. split; reflexivity.
Qed.

Lemma wait_for_shutdown_completes E n :
  (forall h', (n <= count_events is_time_sleep h')%nat ->
              tracked_daemon_running E h' = false) ->
  forall fuel h,
    (n - count_events is_time_sleep h < fuel)%nat ->
    let run := while fuel (check_for_daemons_shutdown E shutdown_order) (time_sleep 1) h in
    fst run = Ret tt /\
    (count_events is_time_sleep (snd run) <= n - count_events is_time_sleep h)%nat.
Proof.
  intros Hgone.
  change (check_for_daemons_shutdown E shutdown_order)
    with (ask (tracked_daemon_running E) (EvCheckDaemons shutdown_order)).
  change (time_sleep 1) with (emit (EvTimeSleep 1)).
  induction fuel as [|fuel IH]; intros h Hlt; [lia|].
  cbv zeta. rewrite while_step, bind_ask.
  destruct (tracked_daemon_running E h) eqn:Hrun.
  - assert (Hc : (count_events is_time_sleep h < n)%nat).
    { destruct (Nat.lt_ge_cases (count_events is_time_sleep h) n) as [Hl|Hg]; [exact Hl|].
      rewrite (Hgone h Hg) in Hrun. discriminate. }
    rewrite bind_emit.
    specialize (IH ((h ++ [EvCheckDaemons shutdown_order true]) ++ [EvTimeSleep 1])).
    cbv zeta in IH. rewrite !count_events_app in IH.
    change (count_events is_time_sleep [EvCheckDaemons shutdown_order true]) with 0%nat in IH.
    change (count_events is_time_sleep [EvTimeSleep 1]) with 1%nat in IH.
    destruct IH as [Hr Hs]; [lia|].
    set (rest := while fuel _ _ _) in *.
    cbn [fst snd]. split; [exact Hr|].
    change (count_events is_time_sleep (_ :: _ :: snd rest))
      with (S (count_events is_time_sleep (snd rest))).
    lia.
  - cbn [fst snd ret]. split; [reflexivity|].
    unfold count_events at 1. simpl. lia.
Qed.

(** X7: when the system delivers every signal and the three daemons are
    gone once [n] seconds were slept, [shutdown_server] returns (with fuel
    for more than [n] rounds), after at most [n] sleeps of its own. *)
Theorem shutdown_server_completes E fuel server_pid h n :
  (forall h' pid, os_kill_answer E h' pid = Delivered) ->
  (forall h', (n <= count_events is_time_sleep h')%nat ->
              tracked_daemon_running E h' = false) ->
  (n < fuel)%nat ->
  fst (shutdown_server E fuel server_pid h) = Ret tt /\
  (count_events is_time_sleep (snd (shutdown_server E fuel server_pid h)) <= n)%nat.
Proof.
  intros Hk Hgone Hfuel.
  unfold shutdown_server. cbv zeta. rewrite bind_emit, bind_run.
  set (h1 := h ++ [EvCall "shutdown_server" (string_of_Z server_pid)]).
  destruct (for_each_shutdown_delivered E shutdown_order Hk h1) as [Hr Hn].
  rewrite Hr. set (sig := snd (for_each shutdown_order (shutdown_daemon E) h1)) in *.
  unfold info, log. rewrite bind_emit, bind_run.
  set (h2 := (h1 ++ sig) ++ [EvLog main_logger INFO "Waiting for daemons shutdown."]).
  destruct (wait_for_shutdown_completes E n Hgone fuel h2) as [Hw Hc]; [lia|].
  cbv zeta in Hw, Hc. rewrite Hw.
  set (polls := snd (while fuel (check_for_daemons_shutdown E shutdown_order)
                       (time_sleep 1) h2)) in *.
  unfold delete_child_pids, delete_pid. rewrite bind_emit. cbn [fst snd emit].
  split; [reflexivity|].
  change (EvCall "shutdown_server" (string_of_Z server_pid) :: ?l)
    with ([EvCall "shutdown_server" (string_of_Z server_pid)] ++ l).
  rewrite !count_events_app.
  change (?a :: polls ++ ?l) with ([a] ++ polls ++ l).
  rewrite !count_events_app, (none_count _ _ Hn).
  unfold count_events at 1 2 4. simpl. lia.
Qed.

Lemma shutdown_server_completes_witness :
  fst (shutdown_server env_engine_lingers 5 4242 []) = Ret tt /\
  (count_events is_time_sleep (snd (shutdown_server env_engine_lingers 5 4242 [])) <= 2)%nat.
Proof.
  apply (shutdown_server_completes env_engine_lingers 5 4242%Z [] 2).
  - intros h' pid. reflexivity.
  - intros h' Hn. unfold tracked_daemon_running. simpl.
    destruct (Nat.ltb_spec (count_events is_time_sleep h') 2); [lia | reflexivity].
  - lia.
Defined.

(** ** [master_main] *)


Lemma master_run_events E root r evs evs' :
  master_run E root r evs -> evs = evs' -> master_run E root r evs'.
Proof. intros H <-. exact H. Qed.

Lemma master_main_master_run E fuel dm root h :
  let run := master_main E fuel dm root h in
  master_run E root (fst run) (snd run).
Proof.
  cbv zeta. unfold master_main.
  rewrite !bind_emit_prepend, prepend_prepend, bind_prepend.
  match goal with
  | |- context [wait_for_config_server E fuel ?h'] =>
      pose proof (wait_for_config_server_probe_run E fuel h') as Hprobe;
      destruct (wait_for_config_server E fuel h') as [rp probe]
  end.
  cbn [fst snd] in Hprobe |- *.
  destruct rp as [[]|e|];
    [| inversion Hprobe | apply (master_probing _ _ _ Hprobe)].
  rewrite bind_ask_prepend.
  match goal with
  | |- context [node_has_task_pool E ?h'] => set (has_pool := node_has_task_pool E h')
  end.
  rewrite bind_prepend.
  assert (Hpool : forall hp, (if has_pool then emit EvSpawnPool else ret tt) hp
                  = (Ret tt, if has_pool then [EvSpawnPool] else []))
    by (intros hp; destruct has_pool; reflexivity).
  rewrite Hpool. cbn [fst snd].
  rewrite !bind_emit_prepend, bind_prepend.
  match goal with
  | |- context [start_daemons E dm root ?h'] =>
      pose proof (start_daemons_daemons_run E dm root h') as Hd;
      destruct (start_daemons E dm root h') as [rd evs]
  end.
  cbn [fst snd] in Hd |- *.
  destruct (daemons_run_outcome _ _ _ _ Hd) as [Hr|[(key & Hr)|(n & reason & Hr)]];
    subst rd; cbn [prepend fst snd].
  - unfold gather. rewrite bind_ask_prepend.
    match goal with
    | |- context [gather_answer E ?h'] => set (g := gather_answer E h')
    end.
    eapply master_run_events.
    + replace (fst _) with (gather_result g) by (destruct g; reflexivity).
      apply (master_awaited E root probe has_pool evs g Hprobe Hd).
    + unfold master_intro, master_setup, prepend. destruct g; cbn [fst snd app];
        rewrite <- ?app_assoc; cbn [app]; rewrite ?app_nil_r; reflexivity.
  - eapply master_run_events; [apply (master_launch_failed E root probe has_pool _ evs Hprobe Hd)|].
    unfold master_intro, master_setup. cbn [app]. rewrite <- ?app_assoc. reflexivity.
  - eapply master_run_events; [apply (master_launch_failed E root probe has_pool _ evs Hprobe Hd)|].
    unfold master_intro, master_setup. cbn [app]. rewrite <- ?app_assoc. reflexivity.
Qed.

Lemma launch_free_attempt : launch_free is_attempt.
Proof. intros [] H; try reflexivity; discriminate H. Qed.

Lemma prelude_free_absent p evs :
  prelude_free p -> forallb prelude_event evs = true ->
  forall pre ev post, evs = pre ++ ev :: post -> p ev = false.
Proof.
  intros Hfree Hall pre ev post Heq.
  apply (none_not_in p evs pre ev post (prelude_free_none p evs Hfree Hall) Heq).
Qed.

(** The shape of a run of [master_main]: the readiness loop, then, once
    the channel answered, the one attempt, closed by the await when the
    daemons were launched. *)
Lemma master_run_shape E root r evs :
  master_run E root r evs ->
  exists pre0,
    forallb prelude_event pre0 = true /\
    ((r = Diverge /\ evs = pre0) \/
     exists has_pool tail fin,
       evs = pre0 ++ EvNewNode "Master" has_pool :: tail ++ fin /\
       In (EvPing (CONFIG_SERVER_SOCKET_PATH E) true) pre0 /\
       none is_attempt tail = true /\ none is_ping tail = true /\
       none is_gather tail = true /\ none is_async_sleep tail = true /\
       calls "start_daemons" tail = [""] /\
       ((fin = [] /\ exists e, r = Raise e) \/
        (exists g, fin = [EvGather g] /\ r = gather_result g))).
Proof.
  assert (Htail : forall r devs has_pool,
    daemons_run E root r devs ->
    exists tail,
      master_setup has_pool ++ devs = EvNewNode "Master" has_pool :: tail /\
      none is_attempt tail = true /\ none is_ping tail = true /\
      none is_gather tail = true /\ none is_async_sleep tail = true /\
      calls "start_daemons" tail = [""]).
  { intros r0 devs has_pool Hd.
    exists ((if has_pool then [EvSpawnPool] else [])
              ++ [EvNewLocalServer "LocalServerMaster";
                  EvExt "my_server.start()"; EvExt "my_local_server.start()"] ++ devs).
    split; [unfold master_setup; rewrite <- !app_assoc; reflexivity|].
    rewrite !none_app, !calls_app.
    rewrite (daemons_run_none is_attempt _ _ _ _ launch_free_attempt eq_refl Hd),
      (daemons_run_none is_ping _ _ _ _ launch_free_ping eq_refl Hd),
      (daemons_run_none is_gather _ _ _ _ launch_free_gather eq_refl Hd),
      (daemons_run_none is_async_sleep _ _ _ _ launch_free_async_sleep eq_refl Hd).
    destruct (daemons_run_calls _ _ _ _ Hd) as (rest & -> & Hcalls).
    destruct has_pool; simpl; rewrite Hcalls; repeat split; reflexivity. }
  assert (Hpre : forall rp probe,
    probe_run (CONFIG_SERVER_SOCKET_PATH E) rp probe ->
    forallb prelude_event (master_intro ++ probe) = true).
  { intros rp probe Hp. rewrite forallb_app, (probe_run_events _ _ _ Hp). reflexivity. }
  assert (Hping : forall probe,
    probe_run (CONFIG_SERVER_SOCKET_PATH E) (Ret tt) probe ->
    In (EvPing (CONFIG_SERVER_SOCKET_PATH E) true) (master_intro ++ probe)).
  { intros probe Hp. inversion Hp; subst.
    apply in_or_app. right. apply in_or_app. right. left. reflexivity. }
  destruct 1 as [probe Hp|probe has_pool e devs Hp Hd|probe has_pool devs g Hp Hd].
  - exists (master_intro ++ probe). split; [apply (Hpre _ _ Hp)|]. left. auto.
  - exists (master_intro ++ probe). split; [apply (Hpre _ _ Hp)|]. right.
    destruct (Htail _ _ has_pool Hd) as (tail & Heq & Ha & Hpg & Hg & Hs & Hc).
    exists has_pool, tail, []. rewrite app_nil_r, <- Heq, <- app_assoc.
    split; [reflexivity|]. split; [apply (Hping _ Hp)|].
    repeat (split; [assumption|]). left. eauto.
  - exists (master_intro ++ probe). split; [apply (Hpre _ _ Hp)|]. right.
    destruct (Htail _ _ has_pool Hd) as (tail & Heq & Ha & Hpg & Hg & Hs & Hc).
    exists has_pool, tail, [EvGather g].
    split.
    { change (EvNewNode "Master" has_pool :: tail ++ [EvGather g])
        with ((EvNewNode "Master" has_pool :: tail) ++ [EvGather g]).
      rewrite <- Heq, <- !app_assoc. reflexivity. }
    split; [apply (Hping _ Hp)|].
    repeat (split; [assumption|]). right. eauto.
Qed.

(** X8: [master_main] makes one attempt and does not retry.  The node is
    built once, after the configuration channel answered, and the channel
    is not polled again; the await over the two tasks is the last thing it
    does, after the daemons were started, and whatever the await gives is
    the outcome of [master_main]: an exception, a lost connection
    included, propagates, and no retry sleep is ever made. *)
Theorem master_main_single_attempt E fuel dm root h r evs :
  master_main E fuel dm root h = (r, evs) ->
  (count_events is_attempt evs <= 1)%nat /\
  none is_async_sleep evs = true /\
  (forall pre cls task_pool post,
     evs = pre ++ EvNewNode cls task_pool :: post ->
     cls = "Master" /\ In (EvPing (CONFIG_SERVER_SOCKET_PATH E) true) pre /\
     none is_ping post = true /\ calls "start_daemons" pre = []) /\
  (forall pre g post,
     evs = pre ++ EvGather g :: post ->
     post = [] /\ r = gather_result g /\
     calls "start_daemons" pre = [""] /\ count_events is_attempt pre = 1%nat) /\
  (r = Ret tt -> exists pre, evs = pre ++ [EvGather GatherDone]).
Proof.
  intros Hrun.
  pose proof (master_main_master_run E fuel dm root h) as Hshape.
  cbv zeta in Hshape. rewrite Hrun in Hshape. cbn [fst snd] in Hshape.
  apply master_run_shape in Hshape.
  destruct Hshape as (pre0 & Hpre & [[-> ->] | Hatt]).
  - split; [rewrite (none_count _ _ (prelude_free_none _ _ prelude_free_attempt Hpre)); lia|].
    split; [apply (prelude_free_none _ _ prelude_free_async_sleep Hpre)|].
    split; [|split].
    + intros pre cls task_pool post Heq.
      pose proof (prelude_free_absent _ _ prelude_free_attempt Hpre _ _ _ Heq) as H.
      discriminate H.
    + intros pre g post Heq.
      pose proof (prelude_free_absent _ _ prelude_free_gather Hpre _ _ _ Heq) as H.
      discriminate H.
    + discriminate.
  - destruct Hatt as (has_pool & tail & fin & -> & Hping & Ha & Hpg & Hg & Hs & Hc & Hfin).
    assert (Hfin' : none is_attempt fin = true /\ none is_ping fin = true /\
                    none is_async_sleep fin = true /\ calls "start_daemons" fin = [] /\
                    count_events is_attempt fin = 0%nat)
      by (destruct Hfin as [[-> _]|(g & -> & _)]; repeat split; reflexivity).
    destruct Hfin' as (Hfa & Hfp & Hfs & Hfc & Hfn).
    pose proof (prelude_free_none _ _ prelude_free_attempt Hpre) as Hpa.
    split; [|split; [|split; [|split]]].
    + change (EvNewNode "Master" has_pool :: tail ++ fin)
        with ([EvNewNode "Master" has_pool] ++ tail ++ fin).
      rewrite !count_events_app, (none_count _ _ Hpa), (none_count _ _ Ha), Hfn.
      unfold count_events. simpl. lia.
    + rewrite none_app, none_cons, none_app, Hs, Hfs,
        (prelude_free_none _ _ prelude_free_async_sleep Hpre). reflexivity.
    + intros pre cls task_pool post Heq.
      destruct (split_after_none is_attempt _ _ _ _ (EvNewNode cls task_pool) Hpa eq_refl Heq)
        as (l & -> & Hl).
      destruct l as [|ev l]; simpl in Hl.
      * injection Hl as <- <- <-. rewrite app_nil_r.
        split; [reflexivity|]. split; [exact Hping|].
        rewrite none_app, Hpg, Hfp.
        split; [reflexivity|].
        apply none_calls. apply (prelude_free_none _ _ (prelude_free_call _) Hpre).
      * injection Hl as _ Hl.
        assert (Hn : none is_attempt (tail ++ fin) = true)
          by (rewrite none_app, Ha, Hfa; reflexivity).
        pose proof (none_not_in _ _ _ _ _ Hn Hl) as H. discriminate H.
    + intros pre g post Heq.
      destruct Hfin as [[-> _]|(g0 & -> & Hr)].
      * assert (Hn : none is_gather (pre0 ++ EvNewNode "Master" has_pool :: tail ++ []) = true).
        { rewrite none_app, none_cons, none_app, Hg,
            (prelude_free_none _ _ prelude_free_gather Hpre). reflexivity. }
        pose proof (none_not_in _ _ _ _ _ Hn Heq) as H. discriminate H.
      * assert (Hn : none is_gather (pre0 ++ EvNewNode "Master" has_pool :: tail) = true).
        { rewrite none_app, none_cons, Hg,
            (prelude_free_none _ _ prelude_free_gather Hpre). reflexivity. }
        change (pre0 ++ EvNewNode "Master" has_pool :: tail ++ [EvGather g0])
          with (pre0 ++ (EvNewNode "Master" has_pool :: tail) ++ [EvGather g0]) in Heq.
        rewrite app_assoc in Heq.
        destruct (split_after_none is_gather _ _ _ _ (EvGather g) Hn eq_refl Heq)
          as (l & -> & Hl).
        destruct l as [|ev l]; simpl in Hl;
          [| injection Hl as _ Hl; destruct l; discriminate Hl].
        injection Hl as <- <-. rewrite app_nil_r.
        split; [reflexivity|]. split; [exact Hr|].
        change (EvNewNode "Master" has_pool :: tail)
          with ([EvNewNode "Master" has_pool] ++ tail).
        rewrite !calls_app, !count_events_app, Hc, (none_count _ _ Hpa), (none_count _ _ Ha),
          (none_calls _ _ (prelude_free_none _ _ (prelude_free_call _) Hpre)).
        split; reflexivity.
    + intros ->. destruct Hfin as [[_ [e He]]|(g & -> & Hr)]; [discriminate He|].
      destruct g; try discriminate Hr.
      exists (pre0 ++ EvNewNode "Master" has_pool :: tail).
      rewrite <- app_assoc. reflexivity.
Qed.

Lemma master_main_single_attempt_witness :
  fst (master_main (env_role_raises CancelledError) 5 0 false []) = Raise CancelledError /\
  count_events is_attempt (snd (master_main (env_role_raises CancelledError) 5 0 false []))
  = 1%nat.
Proof.
  pose (run0 := master_main (env_role_raises CancelledError) 5 0 false []).
  destruct (master_main_single_attempt (env_role_raises CancelledError) 5 0%Z false []
              (fst run0) (snd run0) (surjective_pairing run0))
    as (_ & _ & _ & Hg & _).
  destruct (Hg (removelast (snd run0)) (GatherRaises CancelledError) [])
    as (_ & Hr & _ & Hn); [vm_compute; reflexivity|].
  split; [exact Hr|]. vm_compute. reflexivity.
Defined.

(** ** The readiness loop *)

Lemma wait_for_config_server_silent E :
  (forall h', socket_answers E h' (CONFIG_SERVER_SOCKET_PATH E) = false) ->
  forall fuel h,
    wait_for_config_server E fuel h
    = (Diverge, failed_pings (CONFIG_SERVER_SOCKET_PATH E) fuel).
Proof.
  intros Hsilent. unfold wait_for_config_server, ping_unix_socket, info, log, time_sleep.
  induction fuel as [|fuel IH]; intros h; [reflexivity|].
  rewrite while_step, bind_bind, bind_ask_prepend. cbv beta.
  rewrite Hsilent, bind_ret. cbn [negb].
  rewrite bind_bind, !bind_emit_prepend, IH. reflexivity.
Qed.

(** X9: while the configuration channel stays silent, both roles poll it
    without end: every round is one ping, one notice and a sleep of one
    second, there is no limit on the rounds, and nothing else is done: no
    node is built and no daemon is launched. *)
Theorem roles_poll_a_silent_channel_forever E fuel dm root retry h :
  (forall h', socket_answers E h' (CONFIG_SERVER_SOCKET_PATH E) = false) ->
  master_main E fuel dm root h
  = (Diverge, master_intro ++ failed_pings (CONFIG_SERVER_SOCKET_PATH E) fuel) /\
  worker_main E fuel dm root retry h
  = (Diverge, worker_intro ++ failed_pings (CONFIG_SERVER_SOCKET_PATH E) fuel).
Proof.
  intros Hsilent. split.
  - unfold master_main.
    rewrite !bind_emit_prepend, prepend_prepend, bind_prepend,
      (wait_for_config_server_silent E Hsilent).
    reflexivity.
  - unfold worker_main.
    rewrite !bind_emit_prepend, prepend_prepend, bind_prepend,
      (wait_for_config_server_silent E Hsilent).
    reflexivity.
Qed.

Lemma roles_poll_a_silent_channel_forever_witness :
  fst (master_main env_silent_channel 3 0 false []) = Diverge /\
  count_events is_ping (snd (master_main env_silent_channel 3 0 false [])) = 3%nat /\
  count_events is_attempt (snd (worker_main env_silent_channel 3 0 false 10 [])) = 0%nat.
Proof.
  destruct (roles_poll_a_silent_channel_forever env_silent_channel 3 0%Z false 10%Z [])
    as [Hm Hw]; [intros h'; reflexivity|].
  rewrite Hm, Hw. repeat split.
Defined.

(** X10: the readiness loop returns as soon as the configuration channel
    answers: when the channel answers once [n] seconds were slept, the loop
    (with fuel for more than [n] rounds) returns after at most [n] silent
    rounds, the successful ping being the last thing it does. *)
Theorem wait_for_config_server_returns E n fuel h :
  (forall h', (n <= count_events is_time_sleep h')%nat ->
              socket_answers E h' (CONFIG_SERVER_SOCKET_PATH E) = true) ->
  (n - count_events is_time_sleep h < fuel)%nat ->
  exists k,
    (k <= n - count_events is_time_sleep h)%nat /\
    wait_for_config_server E fuel h
    = (Ret tt, failed_pings (CONFIG_SERVER_SOCKET_PATH E) k
                 ++ [EvPing (CONFIG_SERVER_SOCKET_PATH E) true]).
Proof.
  intros Hans. revert h.
  unfold wait_for_config_server, ping_unix_socket, info, log, time_sleep.
  induction fuel as [|fuel IH]; intros h Hlt; [lia|].
  rewrite while_step, bind_bind, bind_ask_prepend. cbv beta.
  destruct (socket_answers E h (CONFIG_SERVER_SOCKET_PATH E)) eqn:Hs.
  - rewrite bind_ret. cbn [negb]. exists 0%nat. split; [lia | reflexivity].
  - assert (Hc : (count_events is_time_sleep h < n)%nat).
    { destruct (Nat.lt_ge_cases (count_events is_time_sleep h) n) as [Hl|Hg]; [exact Hl|].
      rewrite (Hans h Hg) in Hs. discriminate. }
    rewrite bind_ret. cbn [negb].
    rewrite bind_bind, !bind_emit_prepend.
    match goal with
    | |- context [while fuel ?c ?b ?h'] =>
        assert (Hh' : count_events is_time_sleep h' = S (count_events is_time_sleep h))
    end.
    { rewrite !count_events_app. unfold count_events. simpl. lia. }
    match goal with
    | |- context [while fuel ?c ?b ?h'] => destruct (IH h') as (k & Hk & ->)
    end.
    + rewrite Hh'. lia.
    + exists (S k). split; [rewrite Hh' in Hk; lia | reflexivity].
Qed.

Lemma wait_for_config_server_returns_witness :
  exists k,
    (k <= 2)%nat /\
    wait_for_config_server env_late_channel 5 []
    = (Ret tt, failed_pings (CONFIG_SERVER_SOCKET_PATH env_late_channel) k
                 ++ [EvPing (CONFIG_SERVER_SOCKET_PATH env_late_channel) true]).
Proof.
  apply (wait_for_config_server_returns env_late_channel 2 5 []).
  - intros h' Hn.
    change (Nat.leb 2 (count_events is_time_sleep h') = true).
    apply Nat.leb_le. exact Hn.
  - simpl. lia.
Defined.

(** ** How [worker_main] ends *)

Lemma attempt_head_counts task_pool :
  count_events is_attempt (attempt_head task_pool) = 1%nat /\
  count_events is_spawn_pool (attempt_head task_pool) = (if task_pool then 1 else 0)%nat.
Proof. destruct task_pool; split; reflexivity. Qed.

Lemma loop_run_never_returns E root retry task_pool di r evs :
  loop_run E root retry task_pool di r evs -> r <> Ret tt.
Proof. induction 1; try discriminate; assumption. Qed.

Lemma daemons_run_returned_none_failed E root evs :
  daemons_run E root (Ret tt) evs -> none failed_launch evs = true.
Proof.
  inversion 1 as [|lvl r0 evs0 Hseq]; subst.
  rewrite none_cons. cbn [failed_launch negb andb].
  refine (each_run_returned_none _ failed_launch _ _ _ Hseq).
  intros [name args] evs1 H1. apply (launch_run_returned _ _ _ H1).
Qed.

Lemma daemons_step_none_failed E root di l :
  daemons_step E root di l -> none failed_launch l = true.
Proof.
  intros [|evs Hrun]; [reflexivity | apply (daemons_run_returned_none_failed _ _ _ Hrun)].
Qed.

Lemma prelude_free_failed_launch : prelude_free failed_launch.
Proof. intros [] H; try reflexivity; discriminate H. Qed.

(** A failed launch occurs in the retry loop only where [start_daemons]
    raised, in an iteration that had still to initialize the daemons. *)
Lemma loop_run_failed_launch E root retry task_pool di r evs :
  loop_run E root retry task_pool di r evs ->
  (exists e devs, di = false /\ r = Raise e /\ evs = attempt_head task_pool ++ devs /\
                  daemons_run E root (Raise e) devs) \/
  none failed_launch evs = true.
Proof.
  assert (Hhead : none failed_launch (attempt_head task_pool) = true)
    by (destruct task_pool; reflexivity).
  induction 1 as [di|e0 evs Hd|di l Hstep|di l e0 Hstep Hne
                  |di l r evs Hstep Hrest IH|di l r evs Hstep Hrest IH
                  |di l e0 Hstep].
  - right. reflexivity.
  - left. exists e0, evs. auto.
  - right. rewrite !none_app, Hhead, (daemons_step_none_failed _ _ _ _ Hstep). reflexivity.
  - right. rewrite !none_app, Hhead, (daemons_step_none_failed _ _ _ _ Hstep). reflexivity.
  - right. destruct IH as [(e & devs & Hdi & _)|IH]; [discriminate Hdi|].
    rewrite !none_app, !none_cons, Hhead, (daemons_step_none_failed _ _ _ _ Hstep), IH.
    reflexivity.
  - right. destruct IH as [(e & devs & Hdi & _)|IH]; [discriminate Hdi|].
    rewrite !none_app, !none_cons, Hhead, (daemons_step_none_failed _ _ _ _ Hstep), IH.
    reflexivity.
  - right. rewrite !none_app, Hhead, (daemons_step_none_failed _ _ _ _ Hstep). reflexivity.
Qed.

(** X11: [worker_main] never returns: its loop has no exit but an
    exception.  A failed launch of a daemon is such an exit: it is the
    last thing [worker_main] does, the [WazuhDaemonError] of that launch is
    the outcome, and it happens in the first attempt, before anything was
    awaited and before any retry sleep. *)
Theorem worker_main_never_returns E fuel dm root retry h r evs :
  worker_main E fuel dm root retry h = (r, evs) ->
  r <> Ret tt /\
  forall pre ev post,
    evs = pre ++ ev :: post -> failed_launch ev = true ->
    post = [] /\ (exists name reason, r = Raise (start_error name reason)) /\
    count_events is_attempt evs = 1%nat /\
    none is_gather evs = true /\ none is_async_sleep evs = true.
Proof.
  intros Hrun.
  pose proof (worker_main_worker_run E fuel dm root retry h) as Hshape.
  cbv zeta in Hshape. rewrite Hrun in Hshape. cbn [fst snd] in Hshape.
  destruct Hshape as [probe Hprobe | probe e pool Hprobe Hpool
                     | probe task_pool pool r evs Hprobe Hpool Hloop].
  - split; [discriminate|]. intros pre ev post Heq Hbad.
    assert (Hn : none failed_launch (worker_intro ++ probe) = true).
    { apply (prelude_free_none _ _ prelude_free_failed_launch).
      rewrite forallb_app, (probe_run_events _ _ _ Hprobe). reflexivity. }
    rewrite (none_not_in _ _ _ _ _ Hn Heq) in Hbad. discriminate Hbad.
  - split; [discriminate|]. intros pre ev post Heq Hbad.
    pose proof (prelude_none _ _ _ _ _ _ prelude_free_failed_launch Hprobe Hpool) as Hn.
    rewrite (none_not_in _ _ _ _ _ Hn Heq) in Hbad. discriminate Hbad.
  - split; [apply (loop_run_never_returns _ _ _ _ _ _ _ Hloop)|].
    intros pre ev post Heq Hbad.
    pose proof (prelude_none _ _ _ _ _ _ prelude_free_failed_launch Hprobe Hpool) as Hn.
    pose proof (prelude_none _ _ _ _ _ _ prelude_free_attempt Hprobe Hpool) as Hna.
    pose proof (prelude_none _ _ _ _ _ _ prelude_free_gather Hprobe Hpool) as Hng.
    pose proof (prelude_none _ _ _ _ _ _ prelude_free_async_sleep Hprobe Hpool) as Hns.
    rewrite !app_assoc, <- (app_assoc worker_intro) in Heq |- *.
    destruct (split_after_none failed_launch _ _ _ _ ev Hn Hbad Heq) as (l0 & -> & Hl).
    destruct (loop_run_failed_launch _ _ _ _ _ _ _ Hloop)
      as [(e & devs & _ & -> & -> & Hd)|Hnone];
      [|rewrite (none_not_in _ _ _ _ _ Hnone Hl) in Hbad; discriminate Hbad].
    assert (Hhead : none failed_launch (attempt_head task_pool) = true)
      by (destruct task_pool; reflexivity).
    destruct (split_after_none failed_launch _ _ _ _ ev Hhead Hbad Hl) as (l1 & -> & Hl1).
    assert (Hfail : post = [] /\ exists name reason, e = start_error name reason).
    { revert Hl1. inversion Hd as [key|lvl r0 evs0 Hseq]; subst; intros Hl1.
      - destruct l1 as [|x l1]; simpl in Hl1; injection Hl1 as <- Hl1;
          [discriminate Hbad | destruct l1; discriminate Hl1].
      - destruct l1 as [|x l1]; simpl in Hl1; injection Hl1 as <- Hl1;
          [discriminate Hbad|].
        destruct (launch_seq_failed _ _ _ _ _ _ Hseq Hl1 Hbad)
          as (-> & done & name & reason & _ & Hr).
        injection Hr as ->. eauto. }
    destruct Hfail as (-> & Hname). split; [reflexivity|].
    split; [destruct Hname as (name & reason & ->); eauto|].
    set (pre0 := worker_intro ++ probe ++ pool) in *.
    rewrite !count_events_app, !none_app, (none_count _ _ Hna), Hng, Hns.
    rewrite (none_count _ _ (daemons_run_none is_attempt _ _ _ _
                               launch_free_attempt eq_refl Hd)),
      (daemons_run_none _ _ _ _ _ launch_free_gather eq_refl Hd),
      (daemons_run_none _ _ _ _ _ launch_free_async_sleep eq_refl Hd).
    destruct task_pool; repeat split; reflexivity.
Qed.

Lemma worker_main_never_returns_witness :
  fst (worker_main env_second_fails 5 0 false 10 [])
  = Raise (start_error COMMS_API_DAEMON_NAME "return code 3") /\
  count_events is_attempt (snd (worker_main env_second_fails 5 0 false 10 [])) = 1%nat.
Proof.
  pose (run0 := worker_main env_second_fails 5 0 false 10 []).
  destruct (worker_main_never_returns env_second_fails 5 0%Z false 10%Z []
              (fst run0) (snd run0) (surjective_pairing run0)) as (_ & Hfail).
  destruct (Hfail (removelast (snd run0)) (EvWait 102 2 (Exits 3)) [])
    as (_ & _ & Hn & _); [vm_compute; reflexivity | reflexivity |].
  split; [vm_compute; reflexivity | exact Hn].
Defined.

Lemma loop_run_gather_done E root retry task_pool di r evs :
  loop_run E root retry task_pool di r evs ->
  forall pre post,
    evs = pre ++ EvGather GatherDone :: post ->
    (post = [] /\ r = Diverge) \/ exists rest, post = EvNewNode "Worker" task_pool :: rest.
Proof.
  induction 1 as [di|e0 evs Hd|di l Hstep|di l e0 Hstep Hne
                  |di l r evs Hstep Hrest IH|di l r evs Hstep Hrest IH
                  |di l e0 Hstep];
    intros pre post Heq.
  - destruct pre; discriminate Heq.
  - assert (Hnone : none is_gather (attempt_head task_pool ++ evs) = true).
    { rewrite none_app, (daemons_run_none _ _ _ _ _ launch_free_gather eq_refl Hd).
      destruct task_pool; reflexivity. }
    pose proof (none_not_in _ _ _ _ _ Hnone Heq) as Hc. discriminate Hc.
  - rewrite app_assoc in Heq.
    destruct (split_after_none is_gather _ _ _ _ (EvGather GatherDone)
                (attempt_none_gather _ _ task_pool _ _ Hstep)
                eq_refl Heq) as (l0 & -> & Hl).
    destruct l0 as [|x l0]; [discriminate Hl|]. destruct l0; discriminate Hl.
  - rewrite app_assoc in Heq.
    destruct (split_after_none is_gather _ _ _ _ (EvGather GatherDone)
                (attempt_none_gather _ _ task_pool _ _ Hstep)
                eq_refl Heq) as (l0 & -> & Hl).
    destruct l0 as [|x l0]; [discriminate Hl|]. destruct l0; discriminate Hl.
  - rewrite app_assoc in Heq.
    destruct (split_after_none is_gather _ _ _ _ (EvGather GatherDone)
                (attempt_none_gather _ _ task_pool _ _ Hstep)
                eq_refl Heq) as (l0 & -> & Hl).
    destruct l0 as [|x l0]; [discriminate Hl|].
    injection Hl as _ Hl.
    destruct l0 as [|y l0]; [discriminate Hl|]. injection Hl as _ Hl.
    destruct l0 as [|z l0]; [discriminate Hl|]. injection Hl as _ Hl.
    apply (IH _ _ Hl).
  - rewrite app_assoc in Heq.
    destruct (split_after_none is_gather _ _ _ _ (EvGather GatherDone)
                (attempt_none_gather _ _ task_pool _ _ Hstep)
                eq_refl Heq) as (l0 & -> & Hl).
    destruct l0 as [|x l0].
    + injection Hl as <-.
      destruct (loop_run_begins _ _ _ _ _ _ _ Hrest) as [[-> ->]|[rest ->]]; eauto.
    + injection Hl as _ Hl. apply (IH _ _ Hl).
  - rewrite app_assoc in Heq.
    destruct (split_after_none is_gather _ _ _ _ (EvGather GatherDone)
                (attempt_none_gather _ _ task_pool _ _ Hstep)
                eq_refl Heq) as (l0 & -> & Hl).
    destruct l0 as [|x l0]; [discriminate Hl|]. injection Hl as _ Hl.
    destruct l0 as [|y l0]; [discriminate Hl|]. injection Hl as _ Hl.
    destruct l0 as [|z l0]; [discriminate Hl|]. injection Hl as _ Hl.
    destruct l0; discriminate Hl.
Qed.

(** X12: when an await of the two tasks of [worker_main] returns (both
    tasks finished without error), the next iteration begins at once: the
    next thing done is the construction of a new worker node, with no
    notice and no retry sleep. *)
Theorem worker_main_reconnects_at_once_after_completion E fuel dm root retry h r evs :
  worker_main E fuel dm root retry h = (r, evs) ->
  forall pre post,
    evs = pre ++ EvGather GatherDone :: post ->
    (post = [] /\ r = Diverge) \/
    exists task_pool rest, post = EvNewNode "Worker" task_pool :: rest.
Proof.
  intros Hrun pre post Heq.
  pose proof (worker_main_worker_run E fuel dm root retry h) as Hshape.
  cbv zeta in Hshape. rewrite Hrun in Hshape. cbn [fst snd] in Hshape.
  destruct Hshape as [probe Hprobe | probe e pool Hprobe Hpool
                     | probe task_pool pool r evs Hprobe Hpool Hloop].
  - assert (Hn : none is_gather (worker_intro ++ probe) = true).
    { apply (prelude_free_none _ _ prelude_free_gather).
      rewrite forallb_app, (probe_run_events _ _ _ Hprobe). reflexivity. }
    pose proof (none_not_in _ _ _ _ _ Hn Heq) as Hc. discriminate Hc.
  - pose proof (prelude_none is_gather _ _ _ _ _ prelude_free_gather Hprobe Hpool) as Hn.
    pose proof (none_not_in _ _ _ _ _ Hn Heq) as Hc. discriminate Hc.
  - pose proof (prelude_none is_gather _ _ _ _ _ prelude_free_gather Hprobe Hpool) as Hn.
    rewrite !app_assoc, <- (app_assoc worker_intro) in Heq.
    destruct (split_after_none is_gather _ _ _ _ (EvGather GatherDone) Hn eq_refl Heq)
      as (l & -> & Hl).
    destruct (loop_run_gather_done _ _ _ _ _ _ _ Hloop _ _ Hl) as [Hd|(rest & ->)];
      [left; exact Hd | right; eauto].
Qed.

Lemma worker_main_reconnects_at_once_after_completion_witness :
  count_events is_attempt (snd (worker_main env_tasks_finish 5 0 false 10 [])) = 2%nat /\
  count_events is_async_sleep (snd (worker_main env_tasks_finish 5 0 false 10 [])) = 0%nat /\
  exists task_pool rest,
    skipn 27 (snd (worker_main env_tasks_finish 5 0 false 10 []))
    = EvNewNode "Worker" task_pool :: rest.
Proof.
  pose (run0 := worker_main env_tasks_finish 5 0 false 10 []).
  split; [vm_compute; reflexivity|]. split; [vm_compute; reflexivity|].
  destruct (worker_main_reconnects_at_once_after_completion env_tasks_finish 5 0%Z false
              10%Z [] (fst run0) (snd run0) (surjective_pairing run0)
              (firstn 26 (snd run0)) (skipn 27 (snd run0)))
    as [[Hp _]|Hnext].
  - vm_compute. reflexivity.
  - vm_compute in Hp. discriminate Hp.
  - exact Hnext.
Defined.

(** ** The process pool of [worker_main] *)

Lemma none_In p evs ev : none p evs = true -> In ev evs -> p ev = false.
Proof.
  intros Hn Hin. apply in_split in Hin. destruct Hin as (pre & post & Heq).
  apply (none_not_in _ _ _ _ _ Hn Heq).
Qed.

Lemma forallb_none (q p : event -> bool) evs :
  (forall ev, q ev = true -> p ev = false) -> forallb q evs = true -> none p evs = true.
Proof.
  intros Hqp Hall. unfold none. rewrite forallb_forall in *.
  intros ev Hin. rewrite (Hqp ev (Hall ev Hin)). reflexivity.
Qed.

Lemma launch_free_spawn_pool : launch_free is_spawn_pool.
Proof. intros [] H; try reflexivity; discriminate H. Qed.

Lemma prelude_free_spawn_pool : prelude_free is_spawn_pool.
Proof. intros [] H; try reflexivity; discriminate H. Qed.

Lemma launch_event_loop_event task_pool ev :
  launch_event ev = true -> loop_event task_pool ev = true.
Proof. destruct ev; intros H; try reflexivity; discriminate H. Qed.

Lemma daemons_run_loop_events task_pool E root r evs :
  daemons_run E root r evs -> forallb (loop_event task_pool) evs = true.
Proof.
  intros [key | lvl r' evs' Hseq]; [reflexivity|].
  cbn [forallb loop_event andb].
  pose proof (launch_seq_events _ _ _ Hseq) as Hall.
  rewrite forallb_forall in *. intros ev Hin.
  apply launch_event_loop_event, Hall, Hin.
Qed.

Lemma daemons_step_loop_events task_pool E root di l :
  daemons_step E root di l -> forallb (loop_event task_pool) l = true.
Proof.
  intros [|evs Hrun]; [reflexivity | apply (daemons_run_loop_events _ _ _ _ _ Hrun)].
Qed.

Lemma attempt_head_loop_events task_pool :
  forallb (loop_event task_pool) (attempt_head task_pool) = true.
Proof. destruct task_pool; reflexivity. Qed.

Lemma loop_run_loop_events E root retry task_pool di r evs :
  loop_run E root retry task_pool di r evs -> forallb (loop_event task_pool) evs = true.
Proof.
  induction 1 as [di|e0 evs Hd|di l Hstep|di l e0 Hstep Hne
                  |di l r evs Hstep Hrest IH|di l r evs Hstep Hrest IH
                  |di l e0 Hstep];
    rewrite ?forallb_app, ?attempt_head_loop_events,
      ?(daemons_step_loop_events task_pool _ _ _ _ Hstep); try reflexivity.
  - apply (daemons_run_loop_events _ _ _ _ _ Hd).
  - cbn [forallb loop_event andb]. exact IH.
  - cbn [forallb loop_event andb]. exact IH.
Qed.

Lemma loop_run_spawns E root retry task_pool di r evs :
  loop_run E root retry task_pool di r evs ->
  count_events is_spawn_pool evs
  = if task_pool then count_events is_attempt evs else 0%nat.
Proof.
  assert (Hstep0 : forall b l, daemons_step E root b l ->
            count_events is_spawn_pool l = 0%nat /\ count_events is_attempt l = 0%nat).
  { intros b l Hstep. split; apply none_count.
    - apply (daemons_step_none _ _ _ _ _ launch_free_spawn_pool eq_refl Hstep).
    - apply (daemons_step_none _ _ _ _ _ launch_free_attempt eq_refl Hstep). }
  induction 1 as [di0|e0 evs Hd|di0 l Hstep|di0 l e0 Hstep Hne
                  |di0 l r evs Hstep Hrest IH|di0 l r evs Hstep Hrest IH
                  |di0 l e0 Hstep].
  - destruct task_pool; reflexivity.
  - rewrite !count_events_app.
    rewrite (none_count _ _ (daemons_run_none is_spawn_pool _ _ _ _
                               launch_free_spawn_pool eq_refl Hd)),
      (none_count _ _ (daemons_run_none is_attempt _ _ _ _ launch_free_attempt eq_refl Hd)).
    destruct task_pool; reflexivity.
  - destruct (Hstep0 _ _ Hstep) as [Hs Ha].
    rewrite !count_events_app, Hs, Ha. destruct task_pool; reflexivity.
  - destruct (Hstep0 _ _ Hstep) as [Hs Ha].
    rewrite !count_events_app, Hs, Ha. destruct task_pool; reflexivity.
  - destruct (Hstep0 _ _ Hstep) as [Hs Ha].
    change (EvGather (GatherRaises CancelledError) :: reconnect_line
              :: EvAsyncSleep retry None :: evs)
      with ([EvGather (GatherRaises CancelledError); reconnect_line;
             EvAsyncSleep retry None] ++ evs).
    rewrite !count_events_app, Hs, Ha, IH. destruct task_pool; reflexivity.
  - destruct (Hstep0 _ _ Hstep) as [Hs Ha].
    change (EvGather GatherDone :: evs) with ([EvGather GatherDone] ++ evs).
    rewrite !count_events_app, Hs, Ha, IH. destruct task_pool; reflexivity.
  - destruct (Hstep0 _ _ Hstep) as [Hs Ha].
    rewrite !count_events_app, Hs, Ha. destruct task_pool; reflexivity.
Qed.

Lemma probe_run_none p path r probe :
  p (EvPing path false) = false -> p (EvLog main_logger INFO not_available) = false ->
  p (EvTimeSleep 1) = false -> p (EvPing path true) = false ->
  probe_run path r probe -> none p probe = true.
Proof.
  intros H1 H2 H3 H4.
  assert (Hf : forall n, none p (failed_pings path n) = true).
  { induction n as [|n IH]; [reflexivity|].
    cbn [failed_pings]. rewrite !none_cons, H1, H2, H3, IH. reflexivity. }
  destruct 1; [apply Hf|].
  rewrite none_app, Hf, none_cons, H4. reflexivity.
Qed.

Lemma loop_event_facts task_pool evs :
  forallb (loop_event task_pool) evs = true ->
  none is_process_pool evs = true /\
  forall cls tp, In (EvNewNode cls tp) evs -> cls = "Worker" /\ tp = task_pool.
Proof.
  intros Hall. split.
  - apply (forallb_none (loop_event task_pool)); [|exact Hall].
    intros [] H; try reflexivity; discriminate H.
  - intros cls tp Hin. rewrite forallb_forall in Hall.
    specialize (Hall _ Hin). cbn [loop_event] in Hall.
    apply andb_prop in Hall. destruct Hall as [Hc Ht].
    apply String.eqb_eq in Hc. apply Bool.eqb_prop in Ht. auto.
Qed.

(** X13: [worker_main] creates its process pool at most once, before the
    first connection attempt, and every worker node is built with the
    outcome of that one creation: with the pool when it was created, and
    without one, after the two warnings, when [/dev/shm] was denied.  The
    pool processes are spawned once per attempt with a pool and never
    without (the node holds the pool it was built with); any other error
    of the creation ends [worker_main] before a node is built. *)
Theorem worker_main_process_pool E fuel dm root retry h r evs :
  worker_main E fuel dm root retry h = (r, evs) ->
  (count_events is_process_pool evs <= 1)%nat /\
  (forall pre cls task_pool post,
     evs = pre ++ EvNewNode cls task_pool :: post ->
     cls = "Worker" /\ none is_process_pool post = true /\
     if task_pool then In (EvProcessPool None) pre
     else exists e, pool_denied e = true /\ In (EvProcessPool (Some e)) pre /\
                    In (EvLog main_logger WARNING dev_shm_warning) pre /\
                    In (EvLog main_logger WARNING no_improvements_warning) pre) /\
  (forall e, In (EvProcessPool (Some e)) evs ->
     count_events is_spawn_pool evs = 0%nat /\
     (pool_denied e = false -> r = Raise e /\ none is_attempt evs = true)) /\
  (In (EvProcessPool None) evs ->
     count_events is_spawn_pool evs = count_events is_attempt evs).
Proof.
  intros Hrun.
  pose proof (worker_main_worker_run E fuel dm root retry h) as Hshape.
  cbv zeta in Hshape. rewrite Hrun in Hshape. cbn [fst snd] in Hshape.
  assert (HW : forall p rp probe,
    p (EvExt "context_tag.set('Worker')") = false ->
    p (EvExt "start_unix_server('Worker')") = false ->
    p (EvPing (CONFIG_SERVER_SOCKET_PATH E) false) = false ->
    p (EvLog main_logger INFO not_available) = false ->
    p (EvTimeSleep 1) = false -> p (EvPing (CONFIG_SERVER_SOCKET_PATH E) true) = false ->
    probe_run (CONFIG_SERVER_SOCKET_PATH E) rp probe ->
    none p (worker_intro ++ probe) = true).
  { intros p rp probe H1 H2 H3 H4 H5 H6 Hp.
    rewrite none_app, (probe_run_none p _ _ _ H3 H4 H5 H6 Hp).
    unfold worker_intro. rewrite !none_cons, H1, H2. reflexivity. }
  destruct Hshape as [probe Hprobe | probe e pool Hprobe Hpool
                     | probe task_pool pool r evs Hprobe Hpool Hloop].
  - pose proof (HW is_process_pool _ _ eq_refl eq_refl eq_refl eq_refl eq_refl eq_refl Hprobe)
      as Hnp.
    pose proof (HW is_attempt _ _ eq_refl eq_refl eq_refl eq_refl eq_refl eq_refl Hprobe)
      as Hna.
    split; [rewrite (none_count _ _ Hnp); lia|]. split; [|split].
    + intros pre cls tp post Heq.
      pose proof (none_not_in _ _ _ _ _ Hna Heq) as Hc. discriminate Hc.
    + intros e Hin. pose proof (none_In _ _ _ Hnp Hin) as Hc. discriminate Hc.
    + intros Hin. pose proof (none_In _ _ _ Hnp Hin) as Hc. discriminate Hc.
  - pose proof (HW is_process_pool _ _ eq_refl eq_refl eq_refl eq_refl eq_refl eq_refl Hprobe)
      as Hnp.
    pose proof (prelude_none is_attempt _ _ _ _ _ prelude_free_attempt Hprobe Hpool) as Hna.
    pose proof (prelude_none is_spawn_pool _ _ _ _ _ prelude_free_spawn_pool Hprobe Hpool)
      as Hns.
    inversion Hpool as [| |e1 Hden]; subst.
    rewrite app_assoc in *.
    split; [|split; [|split]].
    + rewrite count_events_app, (none_count _ _ Hnp). unfold count_events. simpl. lia.
    + intros pre cls tp post Heq.
      pose proof (none_not_in _ _ _ _ _ Hna Heq) as Hc. discriminate Hc.
    + intros e0 Hin. split; [apply (none_count _ _ Hns)|].
      apply in_app_or in Hin. destruct Hin as [Hin|[Hin|[]]].
      * pose proof (none_In _ _ _ Hnp Hin) as Hc. discriminate Hc.
      * injection Hin as <-. intros _. split; [reflexivity | exact Hna].
    + intros Hin. apply in_app_or in Hin. destruct Hin as [Hin|[Hin|[]]].
      * pose proof (none_In _ _ _ Hnp Hin) as Hc. discriminate Hc.
      * discriminate Hin.
  - pose proof (HW is_process_pool _ _ eq_refl eq_refl eq_refl eq_refl eq_refl eq_refl Hprobe)
      as Hnp.
    pose proof (prelude_none is_attempt _ _ _ _ _ prelude_free_attempt Hprobe Hpool) as Hna.
    pose proof (prelude_none is_spawn_pool _ _ _ _ _ prelude_free_spawn_pool Hprobe Hpool)
      as Hns.
    pose proof (loop_run_loop_events _ _ _ _ _ _ _ Hloop) as Hle.
    destruct (loop_event_facts _ _ Hle) as [Hlp Hnodes].
    pose proof (loop_run_spawns _ _ _ _ _ _ _ Hloop) as Hsp.
    assert (Hpool1 : count_events is_process_pool pool = 1%nat)
      by (inversion Hpool; subst; reflexivity).
    assert (Hcs : count_events is_spawn_pool (worker_intro ++ probe ++ pool ++ evs)
                  = count_events is_spawn_pool evs).
    { rewrite !app_assoc, <- (app_assoc worker_intro), count_events_app,
        (none_count _ _ Hns). reflexivity. }
    assert (Hca : count_events is_attempt (worker_intro ++ probe ++ pool ++ evs)
                  = count_events is_attempt evs).
    { rewrite !app_assoc, <- (app_assoc worker_intro), count_events_app,
        (none_count _ _ Hna). reflexivity. }
    split; [|split; [|split]].
    + rewrite app_assoc, count_events_app, (none_count _ _ Hnp), count_events_app, Hpool1,
        (none_count _ _ Hlp). lia.
    + intros pre cls tp post Heq.
      rewrite !app_assoc, <- (app_assoc worker_intro) in Heq.
      destruct (split_after_none is_attempt _ _ _ _ (EvNewNode cls tp) Hna eq_refl Heq)
        as (l & -> & Hl).
      destruct (Hnodes cls tp) as [-> ->];
        [rewrite Hl; apply in_or_app; right; left; reflexivity|].
      split; [reflexivity|]. split.
      * rewrite Hl, none_app, none_cons in Hlp.
        apply andb_prop in Hlp. destruct Hlp as [_ Hlp].
        apply andb_prop in Hlp. destruct Hlp as [_ Hlp]. exact Hlp.
      * inversion Hpool as [|e1 Hden|]; subst.
        -- apply in_or_app. left. apply in_or_app. right.
           apply in_or_app. right. left. reflexivity.
        -- exists e1. split; [exact Hden|].
           repeat split; apply in_or_app; left; apply in_or_app; right;
             apply in_or_app; right; simpl; auto.
    + intros e Hin. rewrite Hcs, Hsp.
      rewrite app_assoc in Hin.
      apply in_app_or in Hin. destruct Hin as [Hin|Hin];
        [pose proof (none_In _ _ _ Hnp Hin) as Hc; discriminate Hc|].
      apply in_app_or in Hin. destruct Hin as [Hin|Hin];
        [|pose proof (none_In _ _ _ Hlp Hin) as Hc; discriminate Hc].
      inversion Hpool as [|e1 Hden|]; subst.
      * destruct Hin as [Hin|[]]. discriminate Hin.
      * split; [reflexivity|].
        destruct Hin as [Hin|[Hin|[Hin|[]]]]; try discriminate Hin.
        injection Hin as <-. intros Hc. rewrite Hden in Hc. discriminate Hc.
    + intros Hin. rewrite Hcs, Hca, Hsp.
      rewrite app_assoc in Hin.
      apply in_app_or in Hin. destruct Hin as [Hin|Hin];
        [pose proof (none_In _ _ _ Hnp Hin) as Hc; discriminate Hc|].
      apply in_app_or in Hin. destruct Hin as [Hin|Hin];
        [|pose proof (none_In _ _ _ Hlp Hin) as Hc; discriminate Hc].
      inversion Hpool as [|e1 Hden|]; subst; [reflexivity|].
      destruct Hin as [Hin|[Hin|[Hin|[]]]]; discriminate Hin.
Qed.

Lemma worker_main_process_pool_witness :
  count_events is_spawn_pool (snd (worker_main env_no_dev_shm 5 0 false 10 [])) = 0%nat /\
  count_events is_attempt (snd (worker_main env_no_dev_shm 5 0 false 10 [])) = 3%nat /\
  count_events is_spawn_pool (snd (worker_main env_two_losses 5 0 false 10 [])) = 3%nat.
Proof.
  pose (run0 := worker_main env_no_dev_shm 5 0 false 10 []).
  pose (run1 := worker_main env_two_losses 5 0 false 10 []).
  destruct (worker_main_process_pool env_no_dev_shm 5 0%Z false 10%Z []
              (fst run0) (snd run0) (surjective_pairing run0)) as (_ & _ & Hden & _).
  destruct (worker_main_process_pool env_two_losses 5 0%Z false 10%Z []
              (fst run1) (snd run1) (surjective_pairing run1)) as (_ & _ & _ & Hpool).
  split; [|split].
  - apply (Hden (PermissionError "[Errno 13] Permission denied")). vm_compute. tauto.
  - vm_compute. reflexivity.
  - etransitivity; [apply Hpool; vm_compute; tauto | vm_compute; reflexivity].
Defined.

(** ** [stop] *)

Lemma none_weaken (p q : event -> bool) evs :
  (forall ev, p ev = true -> q ev = true) -> none q evs = true -> none p evs = true.
Proof.
  intros Hpq Hn. unfold none in *. rewrite forallb_forall in *.
  intros ev Hin. specialize (Hn ev Hin).
  destruct (p ev) eqn:Hp; [|reflexivity].
  rewrite (Hpq ev Hp) in Hn. discriminate Hn.
Qed.

Lemma supervisor_unrecord_is_reap ev : is_supervisor_unrecord ev = true -> is_reap ev = true.
Proof. destruct ev; intros H; try discriminate H. exact H. Qed.

(** X14: [stop] signals the supervisor last.  When it returns, the three
    daemons were looked up in shutdown order, a poll found none of them
    running, the supervisor's children and record were reaped, and the
    final signal to the supervisor, the pid that the lookup gave, was
    delivered.  The supervisor's record is deleted at no other point: its
    deletion is followed by that one signal and nothing else. *)
Theorem stop_signals_the_supervisor_last E fuel h r evs :
  stop E fuel h = (r, evs) ->
  (r = Ret tt ->
     exists pid mid,
       evs = EvServerPid (inr pid) :: mid
               ++ [EvCheckDaemons shutdown_order false;
                   EvDeleteChildPids SERVER_DAEMON_NAME pid;
                   EvDeletePid SERVER_DAEMON_NAME pid; EvKill pid Delivered] /\
       none is_reap mid = true /\ map fst (lookups mid) = shutdown_order) /\
  (forall pre pid post,
     evs = pre ++ EvDeletePid SERVER_DAEMON_NAME pid :: post ->
     In (EvServerPid (inr pid)) pre /\
     exists k, post = [EvKill pid k] /\ r = kill_result k).
Proof.
  intros Hrun.
  pose proof (stop_stop_run E fuel h) as Hshape.
  rewrite Hrun in Hshape. cbn [fst snd] in Hshape.
  destruct Hshape as [|e He|server_pid h' rs down Hs Hrs|server_pid h' down k Hs].
  - split; [discriminate|]. intros pre pid post Heq.
    assert (Hn : none is_reap [EvServerPid (inl StopIteration); not_running_line] = true)
      by reflexivity.
    pose proof (none_not_in _ _ _ _ _ Hn Heq) as Hc. vm_compute in Hc. discriminate Hc.
  - split; [intros Hc; discriminate Hc|]. intros pre pid post Heq.
    assert (Hn : none is_reap [EvServerPid (inl e)] = true) by reflexivity.
    pose proof (none_not_in _ _ _ _ _ Hn Heq) as Hc. vm_compute in Hc. discriminate Hc.
  - split; [intros Hc; contradiction|]. intros pre pid post Heq.
    destruct (shutdown_run_facts _ _ _ _ _ Hs) as (_ & Hreap & _).
    assert (Hn : none is_reap (EvServerPid (inr server_pid) :: down) = true)
      by (rewrite none_cons, (Hreap Hrs); reflexivity).
    pose proof (none_not_in _ _ _ _ _ Hn Heq) as Hc. vm_compute in Hc. discriminate Hc.
  - destruct (shutdown_run_returned_shape _ _ _ _ Hs) as (mid & -> & Hmid & Hlk).
    split.
    + intros Hr. exists server_pid, mid.
      destruct k; try discriminate Hr.
      split; [rewrite <- app_assoc; reflexivity | auto].
    + intros pre pid post Heq.
      assert (Hn : none is_supervisor_unrecord
                     (EvServerPid (inr server_pid) :: mid
                        ++ [EvCheckDaemons shutdown_order false;
                            EvDeleteChildPids SERVER_DAEMON_NAME server_pid]) = true).
      { rewrite none_cons, none_app,
          (none_weaken _ _ _ supervisor_unrecord_is_reap Hmid). reflexivity. }
      assert (Heq' : (EvServerPid (inr server_pid) :: mid
                        ++ [EvCheckDaemons shutdown_order false;
                            EvDeleteChildPids SERVER_DAEMON_NAME server_pid])
                     ++ [EvDeletePid SERVER_DAEMON_NAME server_pid; EvKill server_pid k]
                     = pre ++ EvDeletePid SERVER_DAEMON_NAME pid :: post).
      { rewrite <- Heq. simpl. rewrite <- !app_assoc. reflexivity. }
      destruct (split_after_none is_supervisor_unrecord _ _ _ _
                  (EvDeletePid SERVER_DAEMON_NAME pid) Hn eq_refl Heq') as (l & -> & Hl).
      destruct l as [|x l]; simpl in Hl.
      * injection Hl as <- <-. split; [left; reflexivity|]. exists k. auto.
      * injection Hl as _ Hl. destruct l as [|y l]; simpl in Hl;
          [discriminate Hl | injection Hl as _ Hl; destruct l; discriminate Hl].
Qed.

Lemma stop_signals_the_supervisor_last_witness :
  exists pid mid,
    snd (stop env_engine_lingers 5 [])
    = EvServerPid (inr pid) :: mid
        ++ [EvCheckDaemons shutdown_order false;
            EvDeleteChildPids SERVER_DAEMON_NAME pid;
            EvDeletePid SERVER_DAEMON_NAME pid; EvKill pid Delivered].
Proof.
  pose (run0 := stop env_engine_lingers 5 []).
  destruct (stop_signals_the_supervisor_last env_engine_lingers 5 []
              (fst run0) (snd run0) (surjective_pairing run0)) as (Hret & _).
  destruct Hret as (pid & mid & Heq & _); [vm_compute; reflexivity|].
  exists pid, mid. exact Heq.
Defined.

(** X15: a stale record of the engine blocks [stop].  While the engine's
    record names a pid that the system no longer knows, every [stop], from
    any history and however long it may wait, ends with the
    [ProcessLookupError] of the first signal: the record is not removed,
    the two API daemons are not looked up, and the supervisor is neither
    reaped nor signalled. *)
Theorem stop_blocked_by_stale_engine_record E fuel h server_pid ppid :
  wazuh_server_pid E h = inr server_pid ->
  (forall h', parent_pid E h' ENGINE_DAEMON_NAME = Some ppid) ->
  (forall h', os_kill_answer E h' ppid = NoSuchProcess) ->
  stop E fuel h
  = (Raise (ProcessLookupError "[Errno 3] No such process"),
     [EvServerPid (inr server_pid);
      EvCall "shutdown_server" (string_of_Z server_pid);
      EvCall "shutdown_daemon" ENGINE_DAEMON_NAME;
      EvGetParentPid ENGINE_DAEMON_NAME (Some ppid);
      shutting_down_line ENGINE_DAEMON_NAME ppid;
      EvKill ppid NoSuchProcess]).
Proof.
  intros Hpid Hrec Hkill.
  assert (Hd : forall h', shutdown_daemon E ENGINE_DAEMON_NAME h'
            = (Raise (ProcessLookupError "[Errno 3] No such process"),
               [EvCall "shutdown_daemon" ENGINE_DAEMON_NAME;
                EvGetParentPid ENGINE_DAEMON_NAME (Some ppid);
                shutting_down_line ENGINE_DAEMON_NAME ppid;
                EvKill ppid NoSuchProcess])).
  { intros h'. unfold shutdown_daemon, get_parent_pid, os_kill, info, log.
    rewrite bind_emit_prepend, bind_ask_prepend, Hrec.
    rewrite bind_emit_prepend, bind_bind, bind_ask_prepend, Hkill.
    reflexivity. }
  unfold stop. rewrite bind_prepend.
  assert (H1 : forall hd,
    try_except (get_wazuh_server_pid E) hd h = (Ret server_pid, [EvServerPid (inr server_pid)])).
  { intros hd. unfold try_except, get_wazuh_server_pid.
    cbv [bind attempt ask emit ret raise]. rewrite Hpid. reflexivity. }
  rewrite H1. cbn [fst snd].
  unfold shutdown_server. cbv zeta.
  rewrite bind_bind, bind_emit_prepend, bind_bind.
  cbn [shutdown_order for_each].
  rewrite bind_bind, bind_prepend, Hd. reflexivity.
Qed.

Lemma stop_blocked_by_stale_engine_record_witness :
  fst (stop env_stale_record 5 []) = Raise (ProcessLookupError "[Errno 3] No such process") /\
  signals (snd (stop env_stale_record 5 [])) = [301%Z].
Proof.
  rewrite (stop_blocked_by_stale_engine_record env_stale_record 5 [] 4242 301);
    [split; reflexivity | reflexivity | intros h'; reflexivity | intros h'; reflexivity].
Defined.

(** ** The setup and the cleanup of [start] *)




Lemma start_past_lookups E fuel dm root h cfg :
  lookup_passed (wazuh_server_pid E h) ->
  server_config_answer E (h ++ [EvServerPid (wazuh_server_pid E h)]) = inr cfg ->
  exists present hx,
    start E fuel dm root h
    = prepend (EvServerPid (wazuh_server_pid E h) :: EvGetServerConfig (inr cfg)
                 :: start_setup E root cfg present)
        (try_finally
           (try_except
              (emit (EvExt "asyncio.new_event_loop()");;
               emit (EvExt "loop.create_task(get_orders(main_logger))");;
               match node_type cfg with
               | MASTER => master_main E fuel dm root
               | WORKER => worker_main E fuel dm root (connection_retry cfg)
               end)
              start_except)
           (shutdown_server E fuel (os_getpid E)) hx).
Proof.
  intros Hl Hcfg. unfold start. rewrite bind_prepend.
  match goal with
  | |- context [fst (?m h)] =>
      assert (H1 : m h = (Ret tt, [EvServerPid (wazuh_server_pid E h)]))
  end.
  { unfold try_except, get_wazuh_server_pid, print, sys_exit.
    cbv [bind attempt ask emit ret raise].
    destruct Hl as [Hl|Hl]; rewrite Hl; reflexivity. }
  rewrite H1. cbn [fst snd]. clear H1.
  rewrite bind_prepend.
  match goal with
  | |- context [fst (?m ?h1)] =>
      assert (H2 : m h1 = (Ret cfg, [EvGetServerConfig (inr cfg)]))
  end.
  { unfold try_except, get_server_config, error, log, sys_exit.
    cbv [bind attempt ask emit ret raise]. rewrite Hcfg. reflexivity. }
  rewrite H2. cbn [fst snd]. clear H2.
  unfold create_pid, info, log, start_setup.
  destruct root, (node_type cfg); cbn [negb];
    repeat first [rewrite bind_bind | rewrite bind_emit_prepend | rewrite bind_ret
                 | rewrite bind_ask_prepend];
    try match goal with
        | |- context [keypair_present ?E' ?hk] => destruct (keypair_present E' hk) eqn:Hkp
        end;
    cbn [negb];
    repeat first [rewrite bind_bind | rewrite bind_emit_prepend | rewrite bind_ret];
    repeat rewrite prepend_prepend;
    first [ exists true; eexists; reflexivity | exists false; eexists; reflexivity ].
Qed.



(** X17: a run of [start] that wrote the supervisor's lifecycle record,
    opened the event loop of its run phase and came to an end has gone
    through the whole shutdown: its last two steps reaped the supervisor's
    children and deleted that record; the one exception is a shutdown cut
    short by a termination signal that the system refused, whose error is
    then the outcome.  (What happens when the setup fails between the
    writing of the record and the run phase is not part of this
    statement.) *)
Theorem start_removes_its_record E fuel dm root h r evs :
  start E fuel dm root h = (r, evs) ->
  r <> Diverge ->
  (exists pid, In (EvCreatePid SERVER_DAEMON_NAME pid) evs) ->
  In new_event_loop evs ->
  (exists pre, evs = pre ++ [EvDeleteChildPids SERVER_DAEMON_NAME (os_getpid E);
                             EvDeletePid SERVER_DAEMON_NAME (os_getpid E)]) \/
  (exists pre ppid k, evs = pre ++ [EvKill ppid k] /\ k <> Delivered /\ r = kill_result k).
Proof.
  intros Hrun Hend [pid Hin] Hentered.
  pose proof (start_start_run E fuel dm root h) as Hshape.
  rewrite Hrun in Hshape. cbn [fst snd] in Hshape.
  destruct Hshape as [pid0 Hpid|e He|lookup e Hl He|lookup e Hl He|lookup cfg role Hl Hrole
                     |lookup cfg role rr rh handled h' rs down Hl Hrole Hnew Hex Hs].
  - destruct Hin as [H|[H|[]]]; discriminate H.
  - destruct Hin as [H|[]]; discriminate H.
  - destruct Hin as [H|[H|[H|[]]]]; discriminate H.
  - destruct Hin as [H|[H|[]]]; discriminate H.
  - contradiction.
  - destruct rs as [[]|e|]; cbn [finally_outcome] in *.
    + left. destruct (shutdown_run_returned_shape _ _ _ _ Hs) as (mid & -> & _).
      exists (EvServerPid lookup :: EvGetServerConfig (inr cfg)
                :: role ++ handled ++ mid ++ [EvCheckDaemons shutdown_order false]).
      simpl. rewrite <- !app_assoc. reflexivity.
    + right. destruct (shutdown_run_facts _ _ _ _ _ Hs) as (_ & _ & Hraise).
      destruct (Hraise e eq_refl) as (pre & ppid & k & -> & Hk & Hres).
      exists (EvServerPid lookup :: EvGetServerConfig (inr cfg) :: role ++ handled ++ pre),
        ppid, k.
      split; [simpl; rewrite <- !app_assoc; reflexivity | auto].
    + contradiction.
Qed.

Lemma start_removes_its_record_witness :
  exists pre,
    snd (start (env_role_raises MemoryError) 5 0 false [])
    = pre ++ [EvDeleteChildPids SERVER_DAEMON_NAME 4242; EvDeletePid SERVER_DAEMON_NAME 4242].
Proof.
  pose (run0 := start (env_role_raises MemoryError) 5 0 false []).
  destruct (start_removes_its_record (env_role_raises MemoryError) 5 0%Z false []
              (fst run0) (snd run0) (surjective_pairing run0))
    as [Hdone|(pre & ppid & k & _ & Hk & Hr)].
  - vm_compute. discriminate.
  - exists 4242%Z. vm_compute. tauto.
  - vm_compute. tauto.
  - exact Hdone.
  - vm_compute in Hr. destruct k; try discriminate Hr. contradiction.
Defined.

(** ** A debug mode outside the log-level table *)

Lemma signal_run_shutdown_events name r evs :
  signal_run name r evs -> forallb shutdown_event evs = true.
Proof.
  destruct 1 as [|ppid|ppid|ppid]; try reflexivity.
  destruct (unrecord_if_engine_cases name ppid) as [-> | ->]; reflexivity.
Qed.

Lemma shutdown_run_shutdown_events E h server_pid rs down :
  shutdown_run E h server_pid rs down -> forallb shutdown_event down = true.
Proof.
  assert (Hsig : forall ds r sig, each_run signal_run ds r sig ->
                                  forallb shutdown_event sig = true).
  { intros ds r sig Hrun.
    induction Hrun as [|x xs e evs H1|x xs evs H1|x xs evs r evs' H1 Hrest IH];
      try reflexivity; try apply (signal_run_shutdown_events _ _ _ H1).
    rewrite forallb_app, (signal_run_shutdown_events _ _ _ H1), IH. reflexivity. }
  assert (Hpolls : forall n, forallb shutdown_event (waiting_polls n) = true)
    by (induction n; simpl; auto).
  destruct 1 as [e sig Hs | sig n Hs | sig n Hs Hgone]; cbn [forallb shutdown_event andb].
  - apply (Hsig _ _ _ Hs).
  - rewrite forallb_app, (Hsig _ _ _ Hs). cbn [forallb shutdown_event andb]. apply Hpolls.
  - rewrite forallb_app, (Hsig _ _ _ Hs). cbn [forallb shutdown_event andb].
    rewrite forallb_app, Hpolls. reflexivity.
Qed.

(** The run phase of [start], from the outcome and the events of the role
    that it runs. *)
Lemma run_phase_exact E fuel server_pid (main : M unit) h :
  let h3 := (h ++ [EvExt "asyncio.new_event_loop()"])
              ++ [EvExt "loop.create_task(get_orders(main_logger))"] in
  let run := try_finally
               (try_except
                  (emit (EvExt "asyncio.new_event_loop()");;
                   emit (EvExt "loop.create_task(get_orders(main_logger))");;
                   main)
                  start_except)
               (shutdown_server E fuel server_pid) h in
  (fst (main h3) = Diverge /\
   run = (Diverge, new_event_loop :: create_task :: snd (main h3))) \/
  exists rh handled h' rs down,
    except_run (fst (main h3)) rh handled /\ shutdown_run E h' server_pid rs down /\
    run = (finally_outcome rh rs,
           new_event_loop :: create_task :: snd (main h3) ++ handled ++ down).
Proof.
  cbv zeta. unfold try_finally, try_except.
  rewrite bind_run, attempt_run, bind_run, attempt_run, !bind_emit. cbn [fst snd].
  set (h3 := (h ++ [EvExt "asyncio.new_event_loop()"])
               ++ [EvExt "loop.create_task(get_orders(main_logger))"]).
  destruct (main h3) as [rr role]. cbn [fst snd] in *.
  unfold new_event_loop, create_task.
  destruct rr as [[]|e|]; cbn [fst snd ret app].
  - match goal with
    | |- context [bind (shutdown_server E fuel server_pid) _ ?hd] =>
        destruct (finally_step E fuel server_pid (Ret tt) hd) as (rs & down & Hs & Heq);
          [discriminate|]
    end.
    cbv beta iota in Heq. rewrite Heq. right.
    eexists (Ret tt), [], _, rs, down.
    split; [constructor|]. split; [exact Hs|]. rewrite app_nil_r. reflexivity.
  - destruct (start_except e) as [k|] eqn:Hk.
    + destruct (start_except_log _ _ Hk) as (lvl & msg & ->).
      cbn [log emit fst snd].
      match goal with
      | |- context [bind (shutdown_server E fuel server_pid) _ ?hd] =>
          destruct (finally_step E fuel server_pid (Ret tt) hd) as (rs & down & Hs & Heq);
            [discriminate|]
      end.
      cbv beta iota in Heq. rewrite Heq. right.
      eexists (Ret tt), [EvLog main_logger lvl msg], _, rs, down.
      split; [apply except_handled; exact Hk|].
      split; [exact Hs|]. cbn [app]. rewrite <- app_assoc. reflexivity.
    + cbn [raise fst snd].
      match goal with
      | |- context [bind (shutdown_server E fuel server_pid) _ ?hd] =>
          destruct (finally_step E fuel server_pid (Raise e) hd) as (rs & down & Hs & Heq);
            [discriminate|]
      end.
      cbv beta iota in Heq. rewrite Heq. right.
      eexists (Raise e), [], _, rs, down.
      split; [apply except_unhandled; exact Hk|].
      split; [exact Hs|]. rewrite app_nil_r. reflexivity.
  - left. split; reflexivity.
Qed.

Lemma unlaunched_prelude dm r evs :
  none is_popen evs = true -> none is_gather evs = true ->
  none (is_call "start_daemons") evs = true ->
  unlaunched dm r evs.
Proof.
  intros Hp Hg Hc. split; [exact Hp|]. split; [exact Hg|].
  intros Hin. pose proof (none_In _ _ _ Hc Hin) as H. discriminate H.
Qed.

Lemma prelude_free_popen : prelude_free is_popen.
Proof. intros [] H; try reflexivity; discriminate H. Qed.

Lemma master_main_unknown E fuel dm root h :
  has_engine_log_level dm = false ->
  unlaunched dm (fst (master_main E fuel dm root h)) (snd (master_main E fuel dm root h)).
Proof.
  intros Hdm. unfold master_main.
  rewrite !bind_emit_prepend, prepend_prepend, bind_prepend.
  match goal with
  | |- context [wait_for_config_server E fuel ?h'] =>
      pose proof (wait_for_config_server_probe_run E fuel h') as Hprobe;
      destruct (wait_for_config_server E fuel h') as [rp probe]
  end.
  cbn [fst snd] in Hprobe |- *.
  pose proof (probe_run_events _ _ _ Hprobe) as Hpre.
  pose proof (prelude_free_none _ _ prelude_free_popen Hpre) as Hpp.
  pose proof (prelude_free_none _ _ prelude_free_gather Hpre) as Hpg.
  pose proof (prelude_free_none _ _ (prelude_free_call "start_daemons") Hpre) as Hpc.
  destruct rp as [[]|e|]; [| inversion Hprobe |].
  - rewrite bind_ask_prepend.
    match goal with
    | |- context [node_has_task_pool E ?h'] => set (has_pool := node_has_task_pool E h')
    end.
    rewrite bind_prepend.
    assert (Hpool : forall hp, (if has_pool then emit EvSpawnPool else ret tt) hp
                    = (Ret tt, if has_pool then [EvSpawnPool] else []))
      by (intros hp; destruct has_pool; reflexivity).
    rewrite Hpool. cbn [fst snd].
    rewrite !bind_emit_prepend, bind_prepend, (start_daemons_unknown E dm root _ Hdm).
    cbn [prepend fst snd].
    split; [|split].
    + rewrite !none_app, Hpp. destruct has_pool; reflexivity.
    + rewrite !none_app, Hpg. destruct has_pool; reflexivity.
    + reflexivity.
  - cbn [prepend fst snd]. apply unlaunched_prelude; rewrite none_app;
      [rewrite Hpp | rewrite Hpg | rewrite Hpc]; reflexivity.
Qed.

Lemma worker_loop_unknown E fuel dm root retry task_pool h :
  has_engine_log_level dm = false ->
  worker_loop E fuel dm root retry task_pool false h
  = match fuel with
    | O => (Diverge, [])
    | S _ => (Raise (KeyError (string_of_Z dm)),
              attempt_head task_pool ++ [EvCall "start_daemons" ""])
    end.
Proof.
  intros Hdm. destruct fuel as [|fuel]; [reflexivity|].
  cbn [worker_loop]. rewrite !bind_emit_prepend, bind_prepend.
  assert (Hpool : forall hp, (if task_pool then emit EvSpawnPool else ret tt) hp
                  = (Ret tt, if task_pool then [EvSpawnPool] else []))
    by (intros hp; destruct task_pool; reflexivity).
  rewrite Hpool. cbn [fst snd].
  rewrite bind_prepend, attempt_run, !bind_emit_prepend. cbn [negb].
  rewrite (start_daemons_unknown E dm root _ Hdm). cbn [prepend fst snd].
  rewrite bind_prepend, worker_except_fatal by discriminate.
  destruct task_pool; reflexivity.
Qed.

Lemma worker_main_unknown E fuel dm root retry h :
  has_engine_log_level dm = false ->
  unlaunched dm (fst (worker_main E fuel dm root retry h))
                (snd (worker_main E fuel dm root retry h)).
Proof.
  intros Hdm. unfold worker_main.
  rewrite !bind_emit_prepend, prepend_prepend, bind_prepend.
  match goal with
  | |- context [wait_for_config_server E fuel ?h'] =>
      pose proof (wait_for_config_server_probe_run E fuel h') as Hprobe;
      destruct (wait_for_config_server E fuel h') as [rp probe]
  end.
  cbn [fst snd] in Hprobe |- *.
  destruct rp as [[]|e|]; [| inversion Hprobe |].
  - rewrite bind_prepend.
    match goal with
    | |- context [try_except ?m ?hd ?h'] =>
        pose proof (pool_pool_run E h') as Hpool; cbv zeta in Hpool;
        destruct (try_except m hd h') as [rq pool]
    end.
    cbn [fst snd] in Hpool |- *.
    assert (Hn : forall p, prelude_free p ->
                           none p (worker_intro ++ probe ++ pool) = true)
      by (intros p Hp; apply (prelude_none _ _ _ _ _ _ Hp Hprobe Hpool)).
    destruct rq as [task_pool|e|]; [| | inversion Hpool].
    + rewrite (worker_loop_unknown E fuel dm root retry task_pool _ Hdm).
      destruct fuel as [|fuel]; cbn [prepend fst snd].
      * rewrite app_nil_r.
        apply unlaunched_prelude; apply Hn;
          [apply prelude_free_popen | apply prelude_free_gather | apply prelude_free_call].
      * change ([EvExt "context_tag.set('Worker')"] ++ [EvExt "start_unix_server('Worker')"])
          with worker_intro.
        split; [|split].
        -- rewrite !app_assoc, <- (app_assoc worker_intro), <- app_assoc, none_app,
             (Hn _ prelude_free_popen). destruct task_pool; reflexivity.
        -- rewrite !app_assoc, <- (app_assoc worker_intro), <- app_assoc, none_app,
             (Hn _ prelude_free_gather). destruct task_pool; reflexivity.
        -- reflexivity.
    + cbn [prepend fst snd].
      change ([EvExt "context_tag.set('Worker')"] ++ [EvExt "start_unix_server('Worker')"])
        with worker_intro.
      apply unlaunched_prelude; apply Hn;
        [apply prelude_free_popen | apply prelude_free_gather | apply prelude_free_call].
  - cbn [prepend fst snd].
    pose proof (probe_run_events _ _ _ Hprobe) as Hpre.
    apply unlaunched_prelude; rewrite none_app;
      [rewrite (prelude_free_none _ _ prelude_free_popen Hpre)
      |rewrite (prelude_free_none _ _ prelude_free_gather Hpre)
      |rewrite (prelude_free_none _ _ (prelude_free_call "start_daemons") Hpre)];
      reflexivity.
Qed.

Lemma none_spawned evs : none is_popen evs = true -> spawned_commands evs = [].
Proof.
  induction evs as [|ev evs IH]; [reflexivity|].
  rewrite none_cons. intros H. apply andb_prop in H. destruct H as [Hev Hevs].
  destruct ev; try discriminate Hev; simpl; apply (IH Hevs).
Qed.

Lemma shutdown_event_quiet ev :
  shutdown_event ev = true ->
  is_popen ev = false /\ is_gather ev = false /\ is_call "start_daemons" ev = false.
Proof.
  destruct ev; intros H; try discriminate H; repeat split; try reflexivity.
  simpl in *. apply orb_prop in H.
  destruct H as [H|H]; apply String.eqb_eq in H; subst; reflexivity.
Qed.

Lemma except_run_unhandled_key_error key rh handled :
  except_run (Raise (KeyError key)) rh handled ->
  handled = [EvLog main_logger ERROR ("Unhandled exception: " ++ key)%string].
Proof.
  inversion 1 as [|e Hnone|e lvl msg Hsome]; subst.
  - discriminate Hnone.
  - cbn in Hsome. injection Hsome as Hk.
    apply (f_equal (fun m : M unit => snd (m []))) in Hk. cbn in Hk.
    injection Hk as <- <-. reflexivity.
Qed.

Lemma except_run_quiet rr rh handled :
  except_run rr rh handled ->
  none is_popen handled = true /\ none is_gather handled = true /\
  none (is_call "start_daemons") handled = true.
Proof. destruct 1; repeat split; reflexivity. Qed.

(** X18: with a debug mode outside the log-level table (0, 1, 2), a
    [start] that gets past the two lookups never hands a daemon to
    [subprocess.Popen] and never awaits the tasks of its role; if it gets
    as far as [start_daemons], the [KeyError] is logged as an unhandled
    exception naming the debug mode. *)
Theorem start_with_unknown_debug_mode E fuel dm root h cfg :
  has_engine_log_level dm = false ->
  lookup_passed (wazuh_server_pid E h) ->
  server_config_answer E (h ++ [EvServerPid (wazuh_server_pid E h)]) = inr cfg ->
  spawned_commands (snd (start E fuel dm root h)) = [] /\
  none is_gather (snd (start E fuel dm root h)) = true /\
  (In (EvCall "start_daemons" "") (snd (start E fuel dm root h)) ->
   In (EvLog main_logger ERROR ("Unhandled exception: " ++ string_of_Z dm)%string)
      (snd (start E fuel dm root h))).
Proof.
  intros Hdm Hl Hcfg.
  destruct (start_past_lookups E fuel dm root h cfg Hl Hcfg) as (present & hx & ->).
  cbn [prepend snd].
  set (prefix := EvServerPid (wazuh_server_pid E h) :: EvGetServerConfig (inr cfg)
                   :: start_setup E root cfg present).
  assert (Hprefix : none is_popen prefix = true /\ none is_gather prefix = true /\
                    none (is_call "start_daemons") prefix = true).
  { unfold prefix, start_setup.
    destruct root, (node_type cfg), present; repeat split; reflexivity. }
  destruct Hprefix as (Hpp & Hpg & Hpc).
  set (main := match node_type cfg with
               | MASTER => master_main E fuel dm root
               | WORKER => worker_main E fuel dm root (connection_retry cfg)
               end).
  assert (Hrole : forall hr, unlaunched dm (fst (main hr)) (snd (main hr))).
  { intros hr. unfold main.
    destruct (node_type cfg);
      [apply master_main_unknown | apply worker_main_unknown]; exact Hdm. }
  destruct (run_phase_exact E fuel (os_getpid E) main hx)
    as [[Hd Hrun] | (rh & handled & h' & rs & down & Hex & Hs & Hrun)];
    cbv zeta in Hrun |- *; rewrite Hrun; cbn [fst snd].
  - cbv zeta in Hd.
    match type of Hd with
    | context [main ?hr] => destruct (Hrole hr) as (Hrp & Hrg & Hrc)
    end.
    assert (Hnp : none is_popen (prefix ++ new_event_loop :: create_task
                                   :: snd (main ((hx ++ [EvExt "asyncio.new_event_loop()"])
                                      ++ [EvExt "loop.create_task(get_orders(main_logger))"])))
                  = true).
    { rewrite none_app, !none_cons, Hpp, Hrp. reflexivity. }
    split; [apply (none_spawned _ Hnp)|]. split.
    + rewrite none_app, !none_cons, Hpg, Hrg. reflexivity.
    + intros Hin. apply in_app_or in Hin. destruct Hin as [Hin|[Hin|[Hin|Hin]]].
      * pose proof (none_In _ _ _ Hpc Hin) as H. discriminate H.
      * discriminate Hin.
      * discriminate Hin.
      * rewrite (Hrc Hin) in Hd. discriminate Hd.
  - cbv zeta in Hex.
    match type of Hex with
    | context [main ?hr] => destruct (Hrole hr) as (Hrp & Hrg & Hrc)
    end.
    destruct (except_run_quiet _ _ _ Hex) as (Hhp & Hhg & Hhc).
    pose proof (shutdown_run_shutdown_events _ _ _ _ _ Hs) as Hdown.
    pose proof (forallb_none _ is_popen _
                  (fun ev H => proj1 (shutdown_event_quiet ev H)) Hdown) as Hdp.
    pose proof (forallb_none _ is_gather _
                  (fun ev H => proj1 (proj2 (shutdown_event_quiet ev H))) Hdown) as Hdg.
    pose proof (forallb_none _ (is_call "start_daemons") _
                  (fun ev H => proj2 (proj2 (shutdown_event_quiet ev H))) Hdown) as Hdc.
    split; [|split].
    + apply none_spawned.
      rewrite none_app, !none_cons, !none_app, Hpp, Hrp, Hhp, Hdp. reflexivity.
    + rewrite none_app, !none_cons, !none_app, Hpg, Hrg, Hhg, Hdg. reflexivity.
    + intros Hin. apply in_app_or in Hin. destruct Hin as [Hin|[Hin|[Hin|Hin]]].
      * pose proof (none_In _ _ _ Hpc Hin) as H. discriminate H.
      * discriminate Hin.
      * discriminate Hin.
      * apply in_app_or in Hin. destruct Hin as [Hin|Hin].
        -- rewrite (Hrc Hin) in Hex.
           rewrite (except_run_unhandled_key_error _ _ _ Hex).
           apply in_or_app. right. right. right.
           apply in_or_app. right. left. reflexivity.
        -- apply in_app_or in Hin. destruct Hin as [Hin|Hin].
           ++ pose proof (none_In _ _ _ Hhc Hin) as H. discriminate H.
           ++ pose proof (none_In _ _ _ Hdc Hin) as H. discriminate H.
Qed.

Lemma start_with_unknown_debug_mode_witness :
  spawned_commands (snd (start env_healthy 5 7 false [])) = [] /\
  In (EvLog main_logger ERROR "Unhandled exception: 7") (snd (start env_healthy 5 7 false [])).
Proof.
  destruct (start_with_unknown_debug_mode env_healthy 5 7%Z false [] worker_config)
    as (Hs & _ & Hlog); [reflexivity | left; reflexivity | reflexivity |].
  split; [exact Hs|]. apply Hlog. vm_compute. tauto.
Defined.

(** ** [status] *)

Lemma existsb_eqb_In d (l : list string) :
  if existsb (String.eqb d) l then In d l else ~ In d l.
Proof.
  destruct (existsb (String.eqb d) l) eqn:Hb.
  - apply existsb_exists in Hb. destruct Hb as (x & Hin & Heq).
    apply String.eqb_eq in Heq. subst x. exact Hin.
  - intros Hin. assert (Ht : existsb (String.eqb d) l = true).
    { apply existsb_exists. exists d. split; [exact Hin | apply String.eqb_refl]. }
    rewrite Ht in Hb. discriminate Hb.
Qed.

(** X19: [status] takes one snapshot of the running processes and prints
    one line per daemon, for the supervisor, the communications API, the
    management API and the engine, in this order; a daemon is reported as
    running exactly when it is in that snapshot, and as not running
    otherwise.  Nothing else is done. *)
Theorem status_reports_the_snapshot E h r evs :
  status E h = (r, evs) ->
  r = Ret tt /\
  exists lines,
    evs = EvRunningProcesses (running_processes E h) :: map EvPrint lines /\
    List.length lines = 4%nat /\
    forall d, In d status_order ->
      (In (status_line d true) lines <-> In d (running_processes E h)) /\
      (In (status_line d false) lines <-> ~ In d (running_processes E h)).
Proof.
  intros Hrun.
  set (running := running_processes E h).
  assert (Hst : status E h
                = (Ret tt,
                   EvRunningProcesses running
                     :: map (fun d => EvPrint (status_line d (existsb (String.eqb d) running)))
                          status_order)) by reflexivity.
  rewrite Hst in Hrun.
  apply (f_equal fst) in Hrun as Hr. apply (f_equal snd) in Hrun as He.
  cbn [fst snd] in Hr, He. subst r evs. clear Hrun Hst.
  pose proof (existsb_eqb_In SERVER_DAEMON_NAME running) as H1.
  pose proof (existsb_eqb_In COMMS_API_DAEMON_NAME running) as H2.
  pose proof (existsb_eqb_In MANAGEMENT_API_DAEMON_NAME running) as H3.
  pose proof (existsb_eqb_In ENGINE_DAEMON_NAME running) as H4.
  split; [reflexivity|].
  exists (map (fun d => status_line d (existsb (String.eqb d) running)) status_order).
  split; [rewrite map_map; reflexivity|]. split; [reflexivity|].
  intros d Hin. unfold status_order in Hin |- *. cbn [map]. cbv beta.
  destruct (existsb (String.eqb SERVER_DAEMON_NAME) running),
    (existsb (String.eqb COMMS_API_DAEMON_NAME) running),
    (existsb (String.eqb MANAGEMENT_API_DAEMON_NAME) running),
    (existsb (String.eqb ENGINE_DAEMON_NAME) running);
    destruct Hin as [<-|[<-|[<-|[<-|[]]]]];
    unfold status_line; cbn;
    (split; split; intros H;
     [ repeat (destruct H as [H|H]; try discriminate H); try assumption; try contradiction
     | try (exfalso; apply H; assumption); auto 6; try contradiction
     | repeat (destruct H as [H|H]; try discriminate H); try assumption; try contradiction
     | try (exfalso; apply H; assumption); auto 6; try contradiction ]).
Qed.

Lemma status_reports_the_snapshot_witness :
  exists lines,
    snd (status env_engine_lingers []) = EvRunningProcesses [ENGINE_DAEMON_NAME]
                                           :: map EvPrint lines /\
    In "wazuh-engined is running..." lines /\
    In "wazuh-apid is not running..." lines.
Proof.
  pose (run0 := status env_engine_lingers []).
  destruct (status_reports_the_snapshot env_engine_lingers []
              (fst run0) (snd run0) (surjective_pairing run0))
    as (_ & lines & Heq & _ & Hiff).
  exists lines. split; [exact Heq|]. split.
  - apply (proj1 (Hiff ENGINE_DAEMON_NAME ltac:(vm_compute; tauto))).
    vm_compute. tauto.
  - apply (proj2 (Hiff MANAGEMENT_API_DAEMON_NAME ltac:(vm_compute; tauto))).
    vm_compute. intros [H|[]]. discriminate H.
Defined.



